(** * ETL pipeline: a shallow embedding of [src/etl.py] and [src/db.py]

    The pipeline reads two CSV sources into pandas dataframes, cleans
    and standardises them, and loads them into three SQLite tables.
    This file embeds the transform functions of [src/etl.py] and the
    load functions of [src/db.py] and states the properties of the
    specification over them.

    Conventions of the embedding.
    - A dataframe is a list of column names and a list of rows; every
      row carries its index label.  A row maps a column name to a cell.
    - A cell is what pandas holds: [None], [NaT], a string, an integer,
      a float64 (NaN included) or a Timestamp (integer nanoseconds since
      the epoch; the 64-bit bound of pandas is not modelled).
    - float64 values are Rocq's primitive binary64 floats.
    - Python exceptions are the [Raise] results of the [Res] type.
    - Library functions whose result depends on text parsing or on a
      digest ([pd.to_datetime] and [pd.to_numeric] on strings, [float],
      [str] of a float, [Timestamp.isoformat], [hashlib.md5]) are the
      fields of the class [PyLib].
    - Strings are ASCII: [str.lower], [str.strip] and the class [\w] of
      the regular expressions are those of the ASCII characters.
    - A sort keeps the input order of rows with equal keys.
    - A store is the content of the tables [sensor_readings] and
      [quality_checks]; an INSERT OR IGNORE follows the rules of SQLite
      for a primary key and for a unique index. *)

From Stdlib Require Import String Ascii.
From Stdlib Require Import ZArith List Bool Lia.
From Stdlib Require Import Permutation Sorted.
From Stdlib Require Import PrimFloat FloatOps SpecFloat Uint63 DecimalString.
Import ListNotations.
Local Open Scope string_scope.
Local Open Scope Z_scope.
Local Open Scope list_scope.

Notation "a +++ b" := (String.append a b) (at level 60, right associativity).

(** ** Exceptions and results *)

Inductive exn : Type :=
| KeyError (key : string)
| ValueError (msg : string)
| AttributeError (msg : string).

Inductive Res (A : Type) : Type :=
| Ok (a : A)
| Raise (e : exn).
Arguments Ok {A} a.
Arguments Raise {A} e.

Definition bind {A B : Type} (m : Res A) (k : A -> Res B) : Res B :=
  match m with
  | Ok a => k a
  | Raise e => Raise e
  end.

Notation "x <- m ;; k" := (bind m (fun x => k))
  (at level 61, m at next level, right associativity).

Fixpoint mapM {A B : Type} (f : A -> Res B) (l : list A) : Res (list B) :=
  match l with
  | [] => Ok []
  | a :: l' => b <- f a ;; bs <- mapM f l' ;; Ok (b :: bs)
  end.

(** ** Python strings (ASCII) *)

Definition code (a : ascii) : nat := nat_of_ascii a.

(** [str.isspace] on ASCII: TAB..CR, FS..US and the space. *)
Definition is_space (a : ascii) : bool :=
  let n := code a in
  ((9 <=? n) && (n <=? 13) || (28 <=? n) && (n <=? 32))%nat.

Definition is_digit (a : ascii) : bool :=
  let n := code a in ((48 <=? n) && (n <=? 57))%nat.

Definition is_upper (a : ascii) : bool :=
  let n := code a in ((65 <=? n) && (n <=? 90))%nat.

Definition is_lower (a : ascii) : bool :=
  let n := code a in ((97 <=? n) && (n <=? 122))%nat.

(** [\w] of the [re] module, restricted to ASCII. *)
Definition is_word (a : ascii) : bool :=
  is_digit a || is_upper a || is_lower a || Ascii.eqb a "_".

Definition lower_char (a : ascii) : ascii :=
  if is_upper a then ascii_of_nat (code a + 32) else a.

Fixpoint str_lower (s : string) : string :=
  match s with
  | EmptyString => EmptyString
  | String a s' => String (lower_char a) (str_lower s')
  end.

Fixpoint lstrip_by (p : ascii -> bool) (s : string) : string :=
  match s with
  | EmptyString => EmptyString
  | String a s' => if p a then lstrip_by p s' else s
  end.

Fixpoint str_rev_onto (s acc : string) : string :=
  match s with
  | EmptyString => acc
  | String a s' => str_rev_onto s' (String a acc)
  end.

Definition str_rev (s : string) : string := str_rev_onto s EmptyString.

Definition strip_by (p : ascii -> bool) (s : string) : string :=
  str_rev (lstrip_by p (str_rev (lstrip_by p s))).

(** [s.strip()] *)
Definition str_strip (s : string) : string := strip_by is_space s.

(** [re.sub(p+, "_", s)] for a character class [p]: every maximal run of
    characters of the class becomes one underscore. *)
Fixpoint sub_runs_from (p : ascii -> bool) (in_run : bool) (s : string) : string :=
  match s with
  | EmptyString => EmptyString
  | String a s' =>
      if p a then
        if in_run then sub_runs_from p true s'
        else String "_" (sub_runs_from p true s')
      else String a (sub_runs_from p false s')
  end.

Definition sub_runs (p : ascii -> bool) (s : string) : string :=
  sub_runs_from p false s.

(** [needle in s] *)
Fixpoint str_contains (needle s : string) : bool :=
  String.prefix needle s ||
  match s with
  | EmptyString => false
  | String _ s' => str_contains needle s'
  end.

Fixpoint take_while (p : ascii -> bool) (s : string) : string :=
  match s with
  | EmptyString => EmptyString
  | String a s' => if p a then String a (take_while p s') else EmptyString
  end.

(** [re.findall(r"\d+", s)[0]] when the list is not empty. *)
Definition first_digit_run (s : string) : option string :=
  match lstrip_by (fun a => negb (is_digit a)) s with
  | EmptyString => None
  | t => Some (take_while is_digit t)
  end.

(** [int(s)] for a string of decimal digits. *)
Fixpoint int_of_digits_from (acc : Z) (s : string) : Z :=
  match s with
  | EmptyString => acc
  | String a s' => int_of_digits_from (10 * acc + Z.of_nat (code a - 48)) s'
  end.

Definition int_of_digits (s : string) : Z := int_of_digits_from 0 s.

(** [str(n)] for an integer. *)
Definition str_of_int (z : Z) : string :=
  NilZero.string_of_int (Z.to_int z).

(** ** float64 *)

Definition is_nan (x : float) : bool := negb (PrimFloat.eqb x x).

(** Conversion of an int64 to float64 (round to nearest). *)
Definition float_of_Z (z : Z) : float :=
  if z <? 0 then PrimFloat.opp (PrimFloat.of_uint63 (Uint63.of_Z (- z)))
  else PrimFloat.of_uint63 (Uint63.of_Z z).

(** [int(x)]: truncation toward zero; [None] where Python raises
    (OverflowError on an infinity, ValueError on NaN). *)
Definition float_trunc (x : float) : option Z :=
  match Prim2SF x with
  | S754_zero _ => Some 0
  | S754_finite s m e =>
      let a := Z.shiftl (Zpos m) e in Some (if s then - a else a)
  | S754_infinity _ => None
  | S754_nan => None
  end.

(** An order embedding of the float64 values that are not NaN into the
    integers: a finite double is a multiple of 2^-1074, so its rank is
    that multiple; the infinities lie outside every finite rank.
    [x < y] on such floats is [float_rank x < float_rank y]. *)
Definition float_rank (x : float) : Z :=
  match Prim2SF x with
  | S754_zero _ => 0
  | S754_finite s m e =>
      let a := Z.shiftl (Zpos m) (e + 1074) in if s then - a else a
  | S754_infinity s => if s then - 2 ^ 2200 else 2 ^ 2200
  | S754_nan => 0
  end.

(** ** Cells *)

Inductive cell : Type :=
| PyNone
| NaT
| Str (s : string)
| Int (z : Z)
| Flt (x : float)
| Ts (t : Z).

Definition NaN : cell := Flt nan.

(** [pd.isna(c)] *)
Definition isna (c : cell) : bool :=
  match c with
  | PyNone | NaT => true
  | Flt x => is_nan x
  | _ => false
  end.

Definition notna (c : cell) : bool := negb (isna c).

(** The library functions the embedding does not define. *)
Class PyLib : Type := {
  (** [pd.to_datetime(s, errors="coerce")] on a string: nanoseconds
      since the epoch, [None] for NaT *)
  parse_datetime : string -> option Z;
  (** [pd.to_numeric(s, errors="coerce")] on a string: NaN when [s] is
      not a number *)
  parse_number : string -> float;
  (** [float(s)]: [None] when it raises ValueError *)
  py_float : string -> option float;
  (** [str(x)] for a float *)
  str_of_float : float -> string;
  (** [str(t)] for a Timestamp *)
  str_of_timestamp : Z -> string;
  (** [t.isoformat()] *)
  isoformat : Z -> string;
  (** [t.isoformat(sep=" ")] *)
  isoformat_sp : Z -> string;
  (** [hashlib.md5(s.encode("utf-8")).hexdigest()] *)
  md5_hexdigest : string -> string
}.

(** A small instance on which the examples below are evaluated: times
    and numbers are written as decimal integers, a Timestamp prints as
    its nanosecond count, and the digest is the text itself. *)
Definition all_digits (s : string) : bool :=
  match s with
  | EmptyString => false
  | _ => match lstrip_by is_digit s with EmptyString => true | _ => false end
  end.

Fixpoint after_dot (s : string) : option string :=
  match s with
  | EmptyString => None
  | String a s' => if Ascii.eqb a "." then Some s' else after_dot s'
  end.

(** Decimal numerals [ddd] and [ddd.ddd]. *)
Definition demo_float (s : string) : option float :=
  let t := str_strip s in
  let ip := take_while is_digit t in
  match after_dot t with
  | None => if all_digits t then Some (float_of_Z (int_of_digits t)) else None
  | Some fp =>
      if all_digits ip && all_digits fp
         && String.eqb t (ip +++ "." +++ fp) then
        Some (PrimFloat.div (float_of_Z (int_of_digits (ip +++ fp)))
                            (float_of_Z (10 ^ Z.of_nat (String.length fp))))
      else None
  end.

Definition demo_str_of_float (x : float) : string :=
  match float_trunc x with
  | Some z => str_of_int z +++ ".0"
  | None => if is_nan x then "nan" else "inf"
  end.

#[export] Instance demo_lib : PyLib := {|
  parse_datetime s := if all_digits s then Some (int_of_digits s) else None;
  parse_number s := match demo_float s with Some x => x | None => nan end;
  py_float := demo_float;
  str_of_float := demo_str_of_float;
  str_of_timestamp t := str_of_int t;
  isoformat t := str_of_int t;
  isoformat_sp t := str_of_int t;
  md5_hexdigest s := s
|}.

(** [str(c)] *)
Definition py_str `{PyLib} (c : cell) : string :=
  match c with
  | PyNone => "None"
  | NaT => "NaT"
  | Str s => s
  | Int z => str_of_int z
  | Flt x => str_of_float x
  | Ts t => str_of_timestamp t
  end.

(** ** Dataframes *)

Abbreviation row := (string -> cell) (only parsing).

Definition upd (r : row) (c : string) (v : cell) : row :=
  fun c' => if String.eqb c' c then v else r c'.

(** [rows] pairs every row with its index label, in frame order. *)
Record DataFrame : Type := mkDF {
  columns : list string;
  rows : list (nat * row)
}.

Definition mem (c : string) (l : list string) : bool :=
  existsb (String.eqb c) l.

(** [c in df.columns] *)
Definition has_col (c : string) (df : DataFrame) : bool := mem c (columns df).

(** [df.empty] *)
Definition df_empty (df : DataFrame) : bool :=
  match columns df, rows df with
  | [], _ | _, [] => true
  | _, _ => false
  end.

Definition add_col (c : string) (cols : list string) : list string :=
  if mem c cols then cols else cols ++ [c].

Definition map_rows (f : row -> row) (df : DataFrame) : DataFrame :=
  mkDF (columns df) (map (fun ir => (fst ir, f (snd ir))) (rows df)).

(** [df[c] = f(row)], computed row by row *)
Definition assign (c : string) (f : row -> cell) (df : DataFrame) : DataFrame :=
  mkDF (add_col c (columns df))
       (map (fun ir => (fst ir, upd (snd ir) c (f (snd ir)))) (rows df)).

(** [df[c] = values] for an array of values, taken by position *)
Definition assign_values (c : string) (vals : list cell) (df : DataFrame) : DataFrame :=
  mkDF (add_col c (columns df))
       (map (fun irv => (fst (fst irv), upd (snd (fst irv)) c (snd irv)))
            (combine (rows df) vals)).

(** [df.dropna(subset=cols)] *)
Definition dropna (subset : list string) (df : DataFrame) : DataFrame :=
  mkDF (columns df)
       (filter (fun ir => forallb (fun c => notna (snd ir c)) subset) (rows df)).

(** [df.rename(columns={old: new})] *)
Definition rename (old new : string) (df : DataFrame) : DataFrame :=
  mkDF (map (fun c => if String.eqb c old then new else c) (columns df))
       (map (fun ir => (fst ir,
                        fun c => if String.eqb c new then snd ir old else snd ir c))
            (rows df)).

Fixpoint first_missing (cols have : list string) : option string :=
  match cols with
  | [] => None
  | c :: cs => if mem c have then first_missing cs have else Some c
  end.

(** [df[cols]]: KeyError on a column that is not there *)
Definition select (cols : list string) (df : DataFrame) : Res DataFrame :=
  match first_missing cols (columns df) with
  | Some c => Raise (KeyError c)
  | None =>
      Ok (mkDF cols
            (map (fun ir => (fst ir, fun c => if mem c cols then snd ir c else PyNone))
                 (rows df)))
  end.

(** The frame a constructor or [read_csv] builds: labels 0, 1, 2, ... *)
Fixpoint row_of (cols : list string) (vals : list cell) : row :=
  match cols, vals with
  | c :: cs, v :: vs => upd (row_of cs vs) c v
  | _, _ => fun _ => PyNone
  end.

Definition frame_of (cols : list string) (data : list (list cell)) : DataFrame :=
  mkDF cols (combine (seq 0 (List.length data)) (map (row_of cols) data)).

(** The cells of the listed columns, row by row. *)
Definition values (cols : list string) (df : DataFrame) : list (list cell) :=
  map (fun ir => map (snd ir) cols) (rows df).

(** *** Sorting *)

Inductive skey : Type :=
| KNum (z : Z)
| KStr (s : string)
| KNull.

(** The sort key of a cell: numbers by value (scaled by 2^1074, see
    [float_rank]), strings by code point, missing values last.  In a
    column of mixed type numbers come before strings. *)
Definition sort_key (c : cell) : skey :=
  match c with
  | PyNone | NaT => KNull
  | Str s => KStr s
  | Int z => KNum (z * 2 ^ 1074)
  | Flt x => if is_nan x then KNull else KNum (float_rank x)
  | Ts t => KNum (t * 2 ^ 1074)
  end.

Definition skey_compare (a b : skey) : comparison :=
  match a, b with
  | KNum x, KNum y => Z.compare x y
  | KNum _, _ => Lt
  | KStr _, KNum _ => Gt
  | KStr x, KStr y => String.compare x y
  | KStr _, KNull => Lt
  | KNull, KNull => Eq
  | KNull, _ => Gt
  end.

Definition skey_eqb (a b : skey) : bool :=
  match skey_compare a b with Eq => true | _ => false end.

Fixpoint keys_compare (a b : list skey) : comparison :=
  match a, b with
  | x :: a', y :: b' =>
      match skey_compare x y with
      | Eq => keys_compare a' b'
      | c => c
      end
  | [], [] => Eq
  | [], _ :: _ => Lt
  | _ :: _, [] => Gt
  end.

Definition keys_leb (a b : list skey) : bool :=
  match keys_compare a b with Gt => false | _ => true end.

Section StableSort.
Context {A : Type} (key : A -> list skey).

Fixpoint insert_sorted (x : A) (l : list A) : list A :=
  match l with
  | [] => [x]
  | y :: l' =>
      if keys_leb (key x) (key y) then x :: y :: l'
      else y :: insert_sorted x l'
  end.

(** Rows with equal keys keep their input order. *)
Definition stable_sort (l : list A) : list A :=
  fold_right insert_sorted [] l.

End StableSort.

Definition row_keys (by_cols : list string) (ir : nat * row) : list skey :=
  map (fun c => sort_key (snd ir c)) by_cols.

(** [df.sort_values(by)], ascending, missing values last *)
Definition sort_values (by_cols : list string) (df : DataFrame) : Res DataFrame :=
  match first_missing by_cols (columns df) with
  | Some c => Raise (KeyError c)
  | None => Ok (mkDF (columns df) (stable_sort (row_keys by_cols) (rows df)))
  end.

(** *** Forward fill *)

(** The value a row leaves behind for later rows of its group. *)
Definition remember (prev : string -> option cell) (r : row) : string -> option cell :=
  fun c => if isna (r c) then prev c else Some (r c).

Definition fill_row (cols : list string) (prev : string -> option cell) (r : row) : row :=
  fun c =>
    if mem c cols && isna (r c) then
      match prev c with Some v => v | None => r c end
    else r c.

Definition blank_row (cols : list string) (r : row) : row :=
  fun c => if mem c cols then NaN else r c.

(** The last values of the groups after the row [r] of group [grp r]. *)
Definition step_last (grp : row -> skey) (last : skey -> string -> option cell) (r : row)
  : skey -> string -> option cell :=
  match grp r with
  | KNull => last
  | k => fun k' => if skey_eqb k' k then remember (last k) r else last k'
  end.

(** A row whose group key is missing belongs to no group and gets NaN
    in the filled columns. *)
Definition fill_in_group (grp : row -> skey) (cols : list string)
           (last : skey -> string -> option cell) (r : row) : row :=
  match grp r with
  | KNull => blank_row cols r
  | k => fill_row cols (last k) r
  end.

(** One pass over the rows in frame order; every group carries its own
    last values. *)
Fixpoint fill_rows (grp : row -> skey) (cols : list string)
         (last : skey -> string -> option cell)
         (rs : list (nat * row)) : list (nat * row) :=
  match rs with
  | [] => []
  | (i, r) :: rest =>
      (i, fill_in_group grp cols last r)
        :: fill_rows grp cols (step_last grp last r) rest
  end.

Definition no_last : skey -> string -> option cell := fun _ _ => None.

(** [df[cols] = df[cols].ffill()]: all rows form one group. *)
Definition ffill (cols : list string) (df : DataFrame) : DataFrame :=
  mkDF (columns df) (fill_rows (fun _ => KNum 0) cols no_last (rows df)).

(** [df[cols] = df.groupby(g)[cols].ffill()] *)
Definition groupby_ffill (g : string) (cols : list string) (df : DataFrame) : DataFrame :=
  mkDF (columns df) (fill_rows (fun r => sort_key (r g)) cols no_last (rows df)).

(** *** Boolean series *)

Definition series : Type := list (nat * bool).

Fixpoint lookup_label (i : nat) (s : series) : option bool :=
  match s with
  | [] => None
  | (j, b) :: s' => if Nat.eqb i j then Some b else lookup_label i s'
  end.

(** [a & b]: when the two indexes differ, the operands are aligned on
    their labels (an outer join).  For two indexes with the same labels
    in different orders the result follows the labels of the left
    operand, sorted when they can be; the labels of a frame that was
    read from a file or built by a constructor are increasing, so here
    that is the order of the left operand. *)
Definition series_and (a b : series) : series :=
  map (fun ib => (fst ib,
                  snd ib && match lookup_label (fst ib) b with
                            | Some y => y
                            | None => false
                            end)) a.

Definition series_not (a : series) : series :=
  map (fun ib => (fst ib, negb (snd ib))) a.

Definition to_array (a : series) : list bool := map snd a.

(** ** Helpers of [etl.py] *)

Definition normalize_name (c : string) : string :=
  let c2 := str_lower (str_strip c) in
  let c2 := sub_runs (fun a => negb (is_word a)) c2 in
  strip_by (fun a => Ascii.eqb a "_") (sub_runs (fun a => Ascii.eqb a "_") c2).

(** Lowercase column names, runs of other characters become one
    underscore.  The cells stay where they are. *)
Definition standardize_columns (df : DataFrame) : DataFrame :=
  mkDF (map normalize_name (columns df))
       (map (fun ir =>
               (fst ir,
                fun c' =>
                  match find (fun c => String.eqb (normalize_name c) c') (columns df) with
                  | Some c => snd ir c
                  | None => PyNone
                  end))
            (rows df)).

Fixpoint _first_existing_col (df : DataFrame) (candidates : list string) : option string :=
  match candidates with
  | [] => None
  | c :: cs => if has_col c df then Some c else _first_existing_col df cs
  end.

Definition _to_machine_str `{PyLib} (x : cell) : cell :=
  if isna x then PyNone
  else
    let s := str_lower (str_strip (py_str x)) in
    if String.eqb s "" then PyNone
    else if String.prefix "machine_" s then Str s
    else
      match py_float s with
      | Some f =>
          match float_trunc f with
          | Some n => Str ("machine_" +++ str_of_int n)
          | None => Str s
          end
      | None => Str s
      end.

(** 'machine_17' -> 'Line_2' (ten machines per line) *)
Definition _derive_line_id `{PyLib} (machine_id : cell) : cell :=
  if isna machine_id then PyNone
  else
    match first_digit_run (py_str machine_id) with
    | None => PyNone
    | Some m0 =>
        let num := int_of_digits m0 in
        let line_num := (num - 1) / 10 + 1 in
        Str ("Line_" +++ str_of_int line_num)
    end.

Definition ts_isoformat `{PyLib} (timestamp : cell) : string :=
  match timestamp with
  | Ts t => isoformat t
  | _ => "NaT"
  end.

Definition _make_record_id `{PyLib} (timestamp line_id machine_id : cell) : string :=
  let key := ts_isoformat timestamp +++ "|" +++ py_str line_id +++ "|" +++ py_str machine_id in
  md5_hexdigest key.

(** [pd.to_datetime(c, errors="coerce")] *)
Definition to_datetime `{PyLib} (c : cell) : cell :=
  match c with
  | Ts t => Ts t
  | Str s => match parse_datetime s with Some t => Ts t | None => NaT end
  | Int z => Ts z
  | Flt x => match float_trunc x with Some z => Ts z | None => NaT end
  | PyNone | NaT => NaT
  end.

(** [pd.to_numeric(c, errors="coerce")]; numeric columns are float64. *)
Definition to_numeric `{PyLib} (c : cell) : cell :=
  match c with
  | Int z => Flt (float_of_Z z)
  | Flt x => Flt x
  | Str s => Flt (parse_number s)
  | Ts t => Flt (float_of_Z t)
  | PyNone | NaT => NaN
  end.

(** ** The sensor cleaner *)

Definition sensor_names : list string :=
  ["temperature"; "pressure"; "vibration"; "power"].

Definition error_text : list string :=
  ["-999"; "-1"; "NULL"; "null"; "NaN"; "nan"; ""].

(** [df[c].replace(error_values, np.nan)] on one cell *)
Definition replace_error (c : cell) : cell :=
  match c with
  | Int z => if (z =? -999) || (z =? -1) then NaN else c
  | Flt x => if PrimFloat.eqb x (-999)%float || PrimFloat.eqb x (-1)%float then NaN else c
  | Str s => if mem s error_text then NaN else c
  | _ => c
  end.

Definition ranges : list (string * (float * float)) :=
  [("temperature", (0%float, 150%float));
   ("pressure", (0%float, 10%float));
   ("vibration", (0%float, 100%float))].

Fixpoint range_of (col : string) (l : list (string * (float * float))) : option (float * float) :=
  match l with
  | [] => None
  | (c, lh) :: l' => if String.eqb col c then Some lh else range_of col l'
  end.

(** [(df[col] < lo) | (df[col] > hi)] on one cell *)
Definition out_of_range (lo hi : float) (c : cell) : bool :=
  match c with
  | Flt x => PrimFloat.ltb x lo || PrimFloat.ltb hi x
  | _ => false
  end.

Definition sensor_cols_of (df : DataFrame) : list string :=
  filter (fun c => has_col c df) sensor_names.

(** Lines 195-211: column names, the timestamp, the power alias, the
    error codes and the coercion to numbers. *)
Definition coerce_sensor `{PyLib} (df : DataFrame) : DataFrame :=
  let df := standardize_columns df in
  let df := if has_col "timestamp" df
            then assign "timestamp" (fun r => to_datetime (r "timestamp")) df
            else df in
  let df := if negb (has_col "power" df) && has_col "energy_consumption" df
            then assign "power" (fun r => r "energy_consumption") df
            else df in
  fold_left (fun d c => assign c (fun r => to_numeric (replace_error (r c))) d)
            (sensor_cols_of df) df.

(** The cell of [invalid_mask] for a row (before the bad cells are
    overwritten) and a column; each turn of the loop over [ranges]
    touches its own column only. *)
Definition invalid_cell (df : DataFrame) (r : row) (col : string) : bool :=
  match range_of col ranges with
  | Some (lo, hi) => has_col col df && out_of_range lo hi (r col)
  | None => false
  end.

(** [df.loc[bad, col] = np.nan] for every column of [ranges] *)
Definition validate_ranges (df : DataFrame) : DataFrame :=
  map_rows (fun r c => if invalid_cell df r c then NaN else r c) df.

(** [missing_before.any(axis=1)], with
    [missing_before = df[sensor_cols].isna() | invalid_mask]; [df0] is
    the frame before and [df] the frame after the range validation. *)
Definition missing_before_any (sensor_cols : list string) (df0 df : DataFrame) : series :=
  map (fun p =>
         (fst (snd p),
          existsb (fun c => isna (snd (snd p) c) || invalid_cell df0 (snd (fst p)) c)
                  sensor_cols))
      (combine (rows df0) (rows df)).

Definition sort_cols_of (df : DataFrame) : list string :=
  if has_col "machine_id" df then ["machine_id"; "timestamp"] else ["timestamp"].

(** Lines 236-239 *)
Definition forward_fill (sensor_cols : list string) (df : DataFrame) : DataFrame :=
  if has_col "machine_id" df then groupby_ffill "machine_id" sensor_cols df
  else ffill sensor_cols df.

(** [df[sensor_cols].isna().any(axis=1)] *)
Definition still_missing_of (sensor_cols : list string) (df : DataFrame) : series :=
  map (fun ir => (fst ir, existsb (fun c => isna (snd ir c)) sensor_cols)) (rows df).

(** [np.where(still_missing, "invalid",
              np.where(was_estimated, "estimated", "good"))]:
    [np.where] reads its arguments as arrays, position by position. *)
Definition quality_labels (still_missing was_estimated : list bool) : list cell :=
  map (fun p : bool * bool =>
         if fst p then Str "invalid"
         else if snd p then Str "estimated" else Str "good")
      (combine still_missing was_estimated).

(** The frame before the forward fill: coerced, range-validated, sorted. *)
Definition clean_sorted `{PyLib} (df : DataFrame) : Res DataFrame :=
  let df1 := validate_ranges (coerce_sensor df) in
  sort_values (sort_cols_of df1) df1.

Definition clean_sensor_data `{PyLib} (df : DataFrame) : Res DataFrame :=
  let df0 := coerce_sensor df in
  let sensor_cols := sensor_cols_of df0 in
  let df1 := validate_ranges df0 in
  let missing_before := missing_before_any sensor_cols df0 df1 in
  df2 <- sort_values (sort_cols_of df1) df1 ;;
  let df3 := forward_fill sensor_cols df2 in
  let still_missing := still_missing_of sensor_cols df3 in
  let was_estimated := series_and missing_before (series_not still_missing) in
  Ok (assign_values "data_quality"
        (quality_labels (to_array still_missing) (to_array was_estimated)) df3).

(** ** The sensor standardizer *)

Definition out_cols : list string :=
  ["record_id"; "timestamp"; "line_id"; "machine_id"; "temperature";
   "pressure"; "vibration"; "power"; "data_quality"].

Definition ensure_numeric `{PyLib} (d : DataFrame) (col : string) : DataFrame :=
  let d := if has_col col d then d else assign col (fun _ => NaN) d in
  assign col (fun r => to_numeric (r col)) d.

Definition standardize_sensor_data `{PyLib} (df : DataFrame) : Res DataFrame :=
  let df := standardize_columns df in
  if negb (has_col "timestamp" df) then
    Raise (ValueError "Sensor data must contain 'timestamp'.")
  else
    let df := assign "timestamp" (fun r => to_datetime (r "timestamp")) df in
    let df := dropna ["timestamp"] df in
    if negb (has_col "machine_id" df) then
      Raise (ValueError "Sensor data must contain 'machine_id'.")
    else
      let df := assign "machine_id" (fun r => _to_machine_str (r "machine_id")) df in
      let df := assign "line_id" (fun r => _derive_line_id (r "machine_id")) df in
      let df := fold_left ensure_numeric sensor_names df in
      let df := if has_col "data_quality" df then df
                else assign "data_quality" (fun _ => Str "good") df in
      let df := assign "record_id"
                  (fun r => Str (_make_record_id (r "timestamp") (r "line_id") (r "machine_id")))
                  df in
      select out_cols df.

(** ** The quality normalizer *)

Definition canonical_result (s : string) : string :=
  if String.eqb s "passed" then "pass"
  else if String.eqb s "failed" then "fail"
  else if String.eqb s "ok" then "pass"
  else if String.eqb s "ng" then "fail"
  else s.

(** [.fillna(0)] on a numeric cell *)
Definition fillna0 (c : cell) : float :=
  match c with
  | Flt x => if is_nan x then 0%float else x
  | _ => 0%float
  end.

(** [.astype(int)] on a float64 without NaN: truncation; pandas refuses
    an infinity. *)
Definition astype_int (x : float) : Res cell :=
  match float_trunc x with
  | Some z => Ok (Int z)
  | None => Raise (ValueError "Cannot convert non-finite values (NA or inf) to integer")
  end.

Definition cell_is (c : cell) (s : string) : bool :=
  match c with Str t => String.eqb t s | _ => false end.

Definition cell_is_one (c : cell) : bool :=
  match c with Int z => z =? 1 | _ => false end.

Definition label_cols : list string :=
  ["fault_label"; "defect_flag"; "defect"; "anomaly_flag"].

(** Lines 337-346 *)
Definition infer_result `{PyLib} (df : DataFrame) : Res DataFrame :=
  if has_col "result" df then
    Ok (assign "result"
          (fun r => Str (canonical_result (str_strip (str_lower (py_str (r "result"))))))
          df)
  else
    match _first_existing_col df label_cols with
    | Some label_col =>
        labels <- mapM (fun ir => astype_int (fillna0 (to_numeric (snd ir label_col))))
                       (rows df) ;;
        let df := assign_values label_col labels df in
        Ok (assign "result"
              (fun r => if cell_is_one (r label_col) then Str "fail" else Str "pass")
              df)
    | None => Ok (assign "result" (fun _ => Str "pass") df)
    end.

(** Lines 348-349 *)
Definition infer_defect_type (df : DataFrame) : DataFrame :=
  if has_col "defect_type" df then df
  else assign "defect_type"
         (fun r => if cell_is (r "result") "fail" then Str "fault" else PyNone) df.

Definition ts_value (c : cell) : option Z :=
  match c with Ts t => Some t | _ => None end.

(** The Timestamps of a column, missing values skipped. *)
Definition timestamps (df : DataFrame) : list Z :=
  flat_map (fun ir => match ts_value (snd ir "timestamp") with
                      | Some t => [t]
                      | None => []
                      end) (rows df).

(** [.min()] and [.max()] of a datetime column; [None] is NaT. *)
Definition ts_min (l : list Z) : option Z :=
  match l with
  | [] => None
  | t :: l' => Some (fold_left Z.min l' t)
  end.

Definition ts_max (l : list Z) : option Z :=
  match l with
  | [] => None
  | t :: l' => Some (fold_left Z.max l' t)
  end.

(** [.between(lo, hi)] on one cell, both ends included *)
Definition between (lo hi : option Z) (c : cell) : bool :=
  match lo, hi, c with
  | Some a, Some b, Ts t => (a <=? t) && (t <=? b)
  | _, _, _ => false
  end.

(** [s_max - q_max], NaT when one of them is *)
Definition ts_sub (a b : option Z) : option Z :=
  match a, b with
  | Some x, Some y => Some (x - y)
  | _, _ => None
  end.

(** [timestamp + shift] *)
Definition ts_add (c : cell) (shift : option Z) : cell :=
  match c, shift with
  | Ts t, Some d => Ts (t + d)
  | _, _ => NaT
  end.

(** Lines 351-358.  The sensor frame is expected to be standardized:
    the cells of its timestamp column that are not Timestamps count as
    missing. *)
Definition align_timestamps (df : DataFrame) (sensor_df : option DataFrame) : Res DataFrame :=
  match sensor_df with
  | None => Ok df
  | Some sdf =>
      if df_empty sdf then Ok df
      else if negb (has_col "timestamp" sdf) then Raise (KeyError "timestamp")
      else
        let s_min := ts_min (timestamps sdf) in
        let s_max := ts_max (timestamps sdf) in
        let has_overlap :=
          existsb (fun ir => between s_min s_max (snd ir "timestamp")) (rows df) in
        if negb has_overlap then
          let shift := ts_sub s_max (ts_max (timestamps df)) in
          Ok (assign "timestamp" (fun r => ts_add (r "timestamp") shift) df)
        else Ok df
  end.

(** [.drop_duplicates(subset=["timestamp"])]: the first row of every
    timestamp is kept. *)
Fixpoint drop_duplicates_ts (seen : list skey) (rs : list (nat * row)) : list (nat * row) :=
  match rs with
  | [] => []
  | ir :: rest =>
      let k := sort_key (snd ir "timestamp") in
      if existsb (skey_eqb k) seen then drop_duplicates_ts seen rest
      else ir :: drop_duplicates_ts (k :: seen) rest
  end.

Definition lookup_cols : list string := ["machine_id"; "line_id"].

(** [df.merge(lookup, on="timestamp", how="left")] for a lookup with one
    row per timestamp and the columns timestamp, machine_id, line_id.  A
    column name present on both sides gets the suffixes [_x] and [_y]. *)
Definition merge_lookup (df : DataFrame) (lookup : list (nat * row)) : DataFrame :=
  let shared := filter (fun c => has_col c df) lookup_cols in
  let left_name := fun c => if mem c shared then c +++ "_x" else c in
  let right_name := fun c => if mem c shared then c +++ "_y" else c in
  mkDF (map left_name (columns df) ++ map right_name lookup_cols)
       (combine (seq 0 (List.length (rows df)))
          (map (fun ir =>
                  let m := find (fun lr => skey_eqb (sort_key (snd lr "timestamp"))
                                                    (sort_key (snd ir "timestamp")))
                                lookup in
                  fun c =>
                    match find (fun rc => String.eqb c (right_name rc)) lookup_cols with
                    | Some rc => match m with Some lr => snd lr rc | None => NaN end
                    | None =>
                        match find (fun lc => String.eqb c (left_name lc)) (columns df) with
                        | Some lc => snd ir lc
                        | None => PyNone
                        end
                    end)
               (rows df))).

(** [df[c].isna().all()] *)
Definition all_na (c : string) (df : DataFrame) : bool :=
  forallb (fun ir => isna (snd ir c)) (rows df).

(** Lines 360-370 *)
Definition backfill_identity `{PyLib} (df : DataFrame) (sensor_df : option DataFrame)
  : Res DataFrame :=
  if negb (has_col "machine_id" df) || all_na "machine_id" df then
    match sensor_df with
    | Some sdf =>
        if df_empty sdf then
          Ok (assign "line_id" (fun _ => PyNone) (assign "machine_id" (fun _ => PyNone) df))
        else
          lookup <- select ["timestamp"; "machine_id"; "line_id"] sdf ;;
          Ok (merge_lookup df (drop_duplicates_ts [] (rows lookup)))
    | None =>
        Ok (assign "line_id" (fun _ => PyNone) (assign "machine_id" (fun _ => PyNone) df))
    end
  else Ok (assign "machine_id" (fun r => _to_machine_str (r "machine_id")) df).

(** Lines 372-373 *)
Definition derive_line `{PyLib} (df : DataFrame) : Res DataFrame :=
  if negb (has_col "line_id" df) || all_na "line_id" df then
    if has_col "machine_id" df then
      Ok (assign "line_id" (fun r => _derive_line_id (r "machine_id")) df)
    else Raise (KeyError "machine_id")
  else Ok df.

(** Lines 320-331 *)
Definition find_timestamp (df : DataFrame) : Res DataFrame :=
  if has_col "timestamp" df then Ok df
  else
    match _first_existing_col df ["time"; "datetime"; "date_time"] with
    | Some ts => Ok (rename ts "timestamp" df)
    | None =>
        match filter (str_contains "time") (columns df) with
        | [] => Raise (ValueError "Quality data must include a timestamp/time column.")
        | c :: _ => Ok (rename c "timestamp" df)
        end
    end.

Definition quality_cols : list string :=
  ["timestamp"; "line_id"; "machine_id"; "result"; "defect_type"].

(** The quality frame at line 350: timestamp found and parsed, result
    and defect_type inferred. *)
Definition quality_parsed `{PyLib} (df : DataFrame) : Res DataFrame :=
  df <- find_timestamp (standardize_columns df) ;;
  let df := assign "timestamp" (fun r => to_datetime (r "timestamp")) df in
  let df := dropna ["timestamp"] df in
  df <- infer_result df ;;
  Ok (infer_defect_type df).

Definition transform_quality_data `{PyLib} (df : DataFrame) (sensor_df : option DataFrame)
  : Res DataFrame :=
  df <- quality_parsed df ;;
  df <- align_timestamps df sensor_df ;;
  df <- backfill_identity df sensor_df ;;
  df <- derive_line df ;;
  out <- select quality_cols df ;;
  Ok (dropna ["timestamp"; "machine_id"; "line_id"] out).

(** ** The hourly aggregator *)

Definition HOUR_NS : Z := 3600000000000.

(** [.dt.floor("h")] on one cell of a datetime column *)
Definition floor_hour (c : cell) : Res cell :=
  match c with
  | Ts t => Ok (Ts (t - t mod HOUR_NS))
  | Str _ | Int _ => Raise (AttributeError "Can only use .dt accessor with datetimelike values")
  | Flt x => if is_nan x then Ok NaT
             else Raise (AttributeError "Can only use .dt accessor with datetimelike values")
  | PyNone | NaT => Ok NaT
  end.

Definition group_cols : list string := ["hour"; "line_id"; "machine_id"].

Definition keys_eqb (a b : list skey) : bool :=
  match keys_compare a b with Eq => true | _ => false end.

(** The distinct group keys, in order of first appearance. *)
Fixpoint distinct_keys (seen : list (list skey)) (ks : list (list skey)) : list (list skey) :=
  match ks with
  | [] => []
  | k :: rest =>
      if existsb (keys_eqb k) seen then distinct_keys seen rest
      else k :: distinct_keys (k :: seen) rest
  end.

Definition count_rows (p : row -> bool) (g : list (nat * row)) : Z :=
  Z.of_nat (List.length (filter (fun ir => p (snd ir)) g)).

(** [np.where(total_checks > 0, defect_count / total_checks * 100.0, 0.0)] *)
Definition defect_rate (total_checks defect_count : Z) : float :=
  if 0 <? total_checks then
    PrimFloat.mul (PrimFloat.div (float_of_Z defect_count) (float_of_Z total_checks))
                  100%float
  else 0%float.

(** One row of the summary: the key of the group and its counts. *)
Definition summarize (g : list (nat * row)) : row :=
  let key_row := match g with ir :: _ => snd ir | [] => fun _ => PyNone end in
  let total_checks := count_rows (fun r => notna (r "result")) g in
  let defect_count := count_rows (fun r => cell_is (r "result") "fail") g in
  fun c =>
    if mem c group_cols then key_row c
    else if String.eqb c "total_checks" then Int total_checks
    else if String.eqb c "defect_count" then Int defect_count
    else if String.eqb c "defect_rate" then Flt (defect_rate total_checks defect_count)
    else PyNone.

Definition summary_cols : list string :=
  group_cols ++ ["total_checks"; "defect_count"; "defect_rate"].

(** The rows of the group with key [k]. *)
Definition group_rows (k : list skey) (df : DataFrame) : list (nat * row) :=
  filter (fun ir => keys_eqb (row_keys group_cols ir) k) (rows df).

(** [calculate_hourly_summary] in two steps: the frame that is grouped
    (hour column added, sensor columns coerced; KeyError when a column
    of the grouping or of the aggregation is absent), then
    [groupby(["hour", "line_id", "machine_id"], dropna=False).agg(...)]
    followed by the defect rate.  Groups come out in key order, missing
    keys last.  The five float aggregates of temperature, pressure and
    vibration (mean, min, max) are left out of the summary rows. *)
Definition hourly_frame `{PyLib} (joined_df : DataFrame) : Res DataFrame :=
  if negb (has_col "timestamp" joined_df) then Raise (KeyError "timestamp")
  else
    hours <- mapM (fun ir => floor_hour (snd ir "timestamp")) (rows joined_df) ;;
    let df := assign_values "hour" hours joined_df in
    let df := fold_left (fun d col =>
                           if has_col col d
                           then assign col (fun r => to_numeric (r col)) d
                           else d)
                        ["temperature"; "pressure"; "vibration"] df in
    match first_missing (group_cols ++ ["temperature"; "pressure"; "vibration"; "result"])
                        (columns df) with
    | Some c => Raise (KeyError c)
    | None => Ok df
    end.

Definition calculate_hourly_summary `{PyLib} (joined_df : DataFrame) : Res DataFrame :=
  df <- hourly_frame joined_df ;;
  let keys := stable_sort (fun k => k)
                (distinct_keys [] (map (row_keys group_cols) (rows df))) in
  Ok (mkDF summary_cols
        (combine (seq 0 (List.length keys))
                 (map (fun k => summarize (group_rows k df)) keys))).

(** ** The loader ([db.py]) *)

Inductive sqlval : Type :=
| SqlNull
| SqlText (s : string)
| SqlInt (z : Z)
| SqlReal (x : float).

(** Equality of two stored values that are not NULL. *)
Definition sqlval_eqb (a b : sqlval) : bool :=
  match a, b with
  | SqlText x, SqlText y => String.eqb x y
  | SqlInt x, SqlInt y => x =? y
  | SqlReal x, SqlReal y => PrimFloat.eqb x y
  | _, _ => false
  end.

Definition is_null (a : sqlval) : bool :=
  match a with SqlNull => true | _ => false end.

(** What the [sqlite3] module binds for a Python value: [None] and NaN
    are NULL, a datetime is its ISO text. *)
Definition adapt `{PyLib} (c : cell) : sqlval :=
  match c with
  | PyNone => SqlNull
  | NaT => SqlText "NaT"
  | Str s => SqlText s
  | Int z => SqlInt z
  | Flt x => if is_nan x then SqlNull else SqlReal x
  | Ts t => SqlText (isoformat_sp t)
  end.

(** [ts.isoformat(sep=" ") if pd.notna(ts) else None] *)
Definition adapt_timestamp `{PyLib} (ts : cell) : Res sqlval :=
  match ts with
  | Ts t => Ok (SqlText (isoformat_sp t))
  | Str _ => Raise (AttributeError "'str' object has no attribute 'isoformat'")
  | Int _ => Raise (AttributeError "'int' object has no attribute 'isoformat'")
  | Flt x => if is_nan x then Ok SqlNull
             else Raise (AttributeError "'float' object has no attribute 'isoformat'")
  | PyNone | NaT => Ok SqlNull
  end.

(** The three tables.  [sensor_readings] has the primary key
    [record_id] (first column); [quality_checks] has an AUTOINCREMENT
    [check_id] and the unique index [ux_quality] over its five data
    columns; [quality_seq] is the counter of [check_id] that SQLite
    keeps in [sqlite_sequence]. *)
Record Store : Type := mkStore {
  sensor_readings : list (list sqlval);
  quality_checks : list (Z * list sqlval);
  quality_seq : Z
}.

Definition empty_store : Store := mkStore [] [] 0.

(** A TEXT primary key: two rows collide when their keys are equal and
    not NULL. *)
Definition pk_conflict (r : list sqlval) (table : list (list sqlval)) : bool :=
  let k := hd SqlNull r in
  existsb (fun r' => sqlval_eqb (hd SqlNull r') k) table.

(** A unique index: NULLs are distinct from each other, so a row with a
    NULL in an indexed column collides with nothing. *)
Fixpoint tuple_eqb (a b : list sqlval) : bool :=
  match a, b with
  | [], [] => true
  | x :: a', y :: b' => sqlval_eqb x y && tuple_eqb a' b'
  | _, _ => false
  end.

Definition ux_conflict (r : list sqlval) (table : list (Z * list sqlval)) : bool :=
  existsb (fun r' => tuple_eqb (snd r') r) table.

(** [INSERT OR IGNORE INTO sensor_readings ...] for one row *)
Definition insert_sensor (st : Store) (r : list sqlval) : Store :=
  if pk_conflict r (sensor_readings st) then st
  else mkStore (sensor_readings st ++ [r]) (quality_checks st) (quality_seq st).

(** [INSERT OR IGNORE INTO quality_checks ...] for one row.  The
    [check_id] is drawn before the unique index is checked: the
    AUTOINCREMENT counter advances on every attempt, also when the row
    is ignored. *)
Definition insert_quality (st : Store) (r : list sqlval) : Store :=
  if ux_conflict r (quality_checks st)
  then mkStore (sensor_readings st) (quality_checks st) (quality_seq st + 1)
  else mkStore (sensor_readings st)
               (quality_checks st ++ [(quality_seq st + 1, r)])
               (quality_seq st + 1).

(** [cur.executemany(insert_sql, batch)] *)
Definition executemany (insert : Store -> list sqlval -> Store)
           (st : Store) (batch : list (list sqlval)) : Store :=
  fold_left insert batch st.

(** [range(0, stop, step)] *)
Definition py_range (stop step : Z) : Res (list Z) :=
  if step =? 0 then Raise (ValueError "range() arg 3 must not be zero")
  else if step <? 0 then Ok []
  else Ok (map (fun j => Z.of_nat j * step)
               (seq 0 (Z.to_nat ((stop + step - 1) / step)))).

(** [seq[i : j]] for [0 <= i] *)
Definition slice {A : Type} (l : list A) (i j : Z) : list A :=
  firstn (Z.to_nat (j - i)) (skipn (Z.to_nat i) l).

Definition _chunked {A : Type} (l : list A) (chunk_size : Z) : Res (list (list A)) :=
  starts <- py_range (Z.of_nat (List.length l)) chunk_size ;;
  Ok (map (fun i => slice l i (i + chunk_size)) starts).

(** The tuples of [df[cols].itertuples(index=False, name=None)] with the
    timestamp at position [ts_pos] turned into ISO text. *)
Definition tuple_of `{PyLib} (cols : list string) (ts_col : string) (r : row)
  : Res (list sqlval) :=
  mapM (fun c => if String.eqb c ts_col then adapt_timestamp (r c) else Ok (adapt (r c)))
       cols.

Definition tuples_of `{PyLib} (cols : list string) (ts_col : string) (df : DataFrame)
  : Res (list (list sqlval)) :=
  d <- select cols df ;;
  mapM (fun ir => tuple_of cols ts_col (snd ir)) (rows d).

Definition sensor_table_cols : list string := out_cols.

Definition count_sensor (st : Store) : Z := Z.of_nat (List.length (sensor_readings st)).
Definition count_quality (st : Store) : Z := Z.of_nat (List.length (quality_checks st)).

Definition load_sensor_readings `{PyLib} (conn : Store) (df : DataFrame) (chunk_size : Z)
  : Res (Store * Z) :=
  rows <- tuples_of sensor_table_cols "timestamp" df ;;
  let before := count_sensor conn in
  batches <- _chunked rows chunk_size ;;
  let conn := fold_left (executemany insert_sensor) batches conn in
  let after := count_sensor conn in
  Ok (conn, after - before).

Definition load_quality_checks `{PyLib} (conn : Store) (df : DataFrame) (chunk_size : Z)
  : Res (Store * Z) :=
  rows <- tuples_of quality_cols "timestamp" df ;;
  let before := count_quality conn in
  batches <- _chunked rows chunk_size ;;
  let conn := fold_left (executemany insert_quality) batches conn in
  let after := count_quality conn in
  Ok (conn, after - before).

(** The same loads with one [cur.execute(insert_sql, row)] per row, in
    the order of the rows; the chunked loads are compared with them. *)
Definition load_sensor_one_by_one `{PyLib} (conn : Store) (df : DataFrame) : Res (Store * Z) :=
  rows <- tuples_of sensor_table_cols "timestamp" df ;;
  let before := count_sensor conn in
  let conn := fold_left insert_sensor rows conn in
  Ok (conn, count_sensor conn - before).

Definition load_quality_one_by_one `{PyLib} (conn : Store) (df : DataFrame) : Res (Store * Z) :=
  rows <- tuples_of quality_cols "timestamp" df ;;
  let before := count_quality conn in
  let conn := fold_left insert_quality rows conn in
  Ok (conn, count_quality conn - before).

(** ** Concrete inputs used by the examples *)

Definition show (cols : list string) (r : Res DataFrame) : Res (list (list cell)) :=
  d <- r ;; Ok (values cols d).

Definition unwrap (r : Res DataFrame) : DataFrame :=
  match r with Ok d => d | Raise _ => mkDF [] [] end.

Definition row_at (i : nat) (df : DataFrame) : nat * row :=
  nth i (rows df) (0%nat, fun _ => PyNone).

Definition joined_cols : list string :=
  ["timestamp"; "line_id"; "machine_id"; "temperature"; "pressure"; "vibration"; "result"].

(** One hour of machine_1 with four checks, one of them failed, and one
    row that was not checked. *)
Definition joined_four_checks : DataFrame :=
  frame_of joined_cols
    [[Ts 3600000000001; Str "Line_1"; Str "machine_1"; Flt 50; Flt 5; Flt 1; Str "pass"];
     [Ts 3600000000002; Str "Line_1"; Str "machine_1"; Flt 51; Flt 5; Flt 1; Str "fail"];
     [Ts 3600000000003; Str "Line_1"; Str "machine_1"; Flt 52; Flt 5; Flt 1; Str "pass"];
     [Ts 3600000000004; Str "Line_1"; Str "machine_1"; Flt 53; Flt 5; Flt 1; NaN];
     [Ts 3600000000005; Str "Line_1"; Str "machine_1"; Flt 54; Flt 5; Flt 1; Str "pass"]].

Definition sensor_two_rows : DataFrame :=
  frame_of out_cols
    [[Str "id_a"; Ts 1; Str "Line_1"; Str "machine_1"; Flt 50; Flt 5; Flt 1; NaN; Str "good"];
     [Str "id_b"; Ts 2; Str "Line_1"; Str "machine_1"; Flt 51; Flt 5; Flt 1; NaN; Str "good"];
     [Str "id_a"; Ts 1; Str "Line_1"; Str "machine_1"; Flt 50; Flt 5; Flt 1; NaN; Str "good"]].

Definition summary_four_checks : DataFrame :=
  unwrap (calculate_hourly_summary joined_four_checks).

(** A quality file with one passed inspection and no defect_type
    column, and what the quality normalizer makes of it. *)
Definition quality_raw_pass : DataFrame :=
  frame_of ["timestamp"; "machine_id"; "result"] [[Ts 5; Int 1; Str "pass"]].

Definition quality_pass : DataFrame :=
  unwrap (transform_quality_data quality_raw_pass None).

Definition pass_tuple : list sqlval :=
  [SqlText "5"; SqlText "Line_1"; SqlText "machine_1"; SqlText "pass"; SqlNull].

(** A quality file whose result column holds a word outside the four
    synonyms, and one whose result cell is empty. *)
Definition quality_raw_rejected : DataFrame :=
  frame_of ["timestamp"; "machine_id"; "result"]
    [[Ts 5; Int 1; Str "rejected"]; [Ts 6; Int 1; NaN]].

(** Three readings, machine_2 listed before machine_1; the last
    temperature is out of range. *)
Definition sensor_unsorted : DataFrame :=
  frame_of ["machine_id"; "timestamp"; "temperature"]
    [[Str "machine_2"; Ts 1; Flt 50];
     [Str "machine_1"; Ts 1; Flt 60];
     [Str "machine_1"; Ts 2; Flt 200]].

Definition no_columns : DataFrame := frame_of [] [].

Definition sensor_bad_timestamp : DataFrame :=
  frame_of ["timestamp"; "machine_id"; "temperature"]
    [[Str "not a date"; Str "machine_1"; Flt 50];
     [Ts 7; Str "machine_1"; Flt 51]].

(** Sensor readings at 10 and 20; inspections at 5 and 25, on both
    sides of the sensor range and none inside it. *)
Definition sensor_10_20 : DataFrame :=
  frame_of ["timestamp"; "machine_id"; "line_id"]
    [[Ts 10; Str "machine_1"; Str "Line_1"]; [Ts 20; Str "machine_1"; Str "Line_1"]].

Definition quality_5_25 : DataFrame :=
  frame_of ["timestamp"; "result"] [[Ts 5; Str "pass"]; [Ts 25; Str "pass"]].

(** Two closed ranges of timestamps have a point in common. *)
Definition ranges_overlap (s q : list Z) : Prop :=
  exists s_min s_max q_min q_max,
    ts_min s = Some s_min /\ ts_max s = Some s_max /\
    ts_min q = Some q_min /\ ts_max q = Some q_max /\
    q_min <= s_max /\ s_min <= q_max.

(** ** Notions used in the statements *)

(** The column [c] as a series: label and cell, in frame order. *)
Definition labelled (c : string) (df : DataFrame) : list (nat * cell) :=
  map (fun ir => (fst ir, snd ir c)) (rows df).

Definition key_le {A : Type} (key : A -> list skey) (x y : A) : Prop :=
  keys_leb (key x) (key y) = true.

(** The group of a row in the forward fill of the cleaner: its machine
    when the frame has a machine_id column, one group for all rows
    otherwise. *)
Definition group_of (df : DataFrame) (r : row) : skey :=
  if has_col "machine_id" df then sort_key (r "machine_id") else KNum 0.

(** [r'] is a reading of the machine of [r]. *)
Definition same_machine (df : DataFrame) (r r' : row) : bool :=
  match group_of df r with
  | KNull => false
  | k => skey_eqb (group_of df r') k
  end.

(** The position of the most recent row before position [i] that
    satisfies [p]. *)
Fixpoint prior_index (p : row -> bool) (rs : list (nat * row)) (i : nat) : option nat :=
  match i with
  | O => None
  | S j =>
      match nth_error rs j with
      | Some ir => if p (snd ir) then Some j else prior_index p rs j
      | None => prior_index p rs j
      end
  end.

(** The frame the cleaner sorts into when there is a timestamp column,
    and the labels it computes from a filled frame; [df0] is the coerced
    frame. *)
Definition sorted_frame (df0 : DataFrame) : DataFrame :=
  mkDF (columns df0)
       (stable_sort (row_keys (sort_cols_of df0)) (rows (validate_ranges df0))).

Definition clean_labels (cols : list string) (df0 filled : DataFrame) : list cell :=
  quality_labels
    (to_array (still_missing_of cols filled))
    (to_array (series_and (missing_before_any cols df0 (validate_ranges df0))
                          (series_not (still_missing_of cols filled)))).

Definition sorted_unsorted : DataFrame := unwrap (clean_sorted sensor_unsorted).
Definition cleaned_unsorted : DataFrame := unwrap (clean_sensor_data sensor_unsorted).

(** The rows of a sensor frame whose timestamp can be parsed. *)
Definition kept_rows `{PyLib} (df : DataFrame) : list (nat * row) :=
  filter (fun ir => notna (to_datetime (snd ir "timestamp")))
         (rows (standardize_columns df)).

(** A machine identifier that is missing or blank. *)
Definition blank_machine `{PyLib} (x : cell) : bool :=
  isna x || String.eqb (str_lower (str_strip (py_str x))) "".

(** Two readings without a machine at the same time, with different
    temperatures, and one of machine 17. *)
Definition sensor_no_machine : DataFrame :=
  frame_of ["timestamp"; "machine_id"; "temperature"]
    [[Ts 7; NaN; Flt 50]; [Ts 7; Str "  "; Flt 99]; [Ts 7; Int 17; Flt 60]].

Definition standardized_no_machine : DataFrame :=
  unwrap (standardize_sensor_data sensor_no_machine).

(** [d'] is [d] changed row by row, the columns [keep] left as they are. *)
Definition rowwise (keep : list string) (d d' : DataFrame) : Prop :=
  exists G : row -> row,
    rows d' = map (fun ir => (fst ir, G (snd ir))) (rows d) /\
    forall r c, mem c keep = true -> G r c = r c.

Definition identity_cols : list string := ["timestamp"; "machine_id"; "line_id"].

(** One turn of a loop [for c in cols: df[c] = g(c, row)]. *)
Definition assign_step (g : string -> row -> cell) (d : DataFrame) (c : string) : DataFrame :=
  assign c (g c) d.

(** The last values of the groups after a prefix of the rows. *)
Definition last_after (grp : row -> skey) (last : skey -> string -> option cell)
           (prefix : list (nat * row)) : skey -> string -> option cell :=
  fold_left (fun l ir => step_last grp l (snd ir)) prefix last.

(** ** The hourly summary table ([load_hourly_summary]) *)

(** The table [hourly_summary]: an AUTOINCREMENT [summary_id] and the
    unique index [ux_hourly] over hour, line_id and machine_id, the
    first three data columns; [hourly_seq] is the largest [summary_id]
    handed out. *)
Record SummaryTable : Type := mkSummary {
  hourly_summary : list (Z * list sqlval);
  hourly_seq : Z
}.

Definition hourly_cols : list string :=
  ["hour"; "line_id"; "machine_id"; "avg_temperature"; "min_temperature";
   "max_temperature"; "avg_pressure"; "avg_vibration"; "total_checks";
   "defect_count"; "defect_rate"].

(** The indexed columns of a row of [hourly_summary]. *)
Definition summary_key (r : list sqlval) : list sqlval := firstn 3 r.

(** [old] collides with the new row [r] on [ux_hourly]. *)
Definition same_summary_key (old r : list sqlval) : bool :=
  tuple_eqb (summary_key old) (summary_key r).

(** [INSERT OR REPLACE INTO hourly_summary ...] for one row: the rows
    that collide with it are deleted, then the row is inserted with a
    fresh [summary_id]. *)
Definition insert_or_replace (t : SummaryTable) (r : list sqlval) : SummaryTable :=
  mkSummary
    (filter (fun old => negb (same_summary_key (snd old) r)) (hourly_summary t)
       ++ [(hourly_seq t + 1, r)])
    (hourly_seq t + 1).

Definition count_hourly (t : SummaryTable) : Z :=
  Z.of_nat (List.length (hourly_summary t)).

Definition load_hourly_summary `{PyLib} (conn : SummaryTable) (df : DataFrame) (chunk_size : Z)
  : Res (SummaryTable * Z) :=
  rows <- tuples_of hourly_cols "hour" df ;;
  let before := count_hourly conn in
  batches <- _chunked rows chunk_size ;;
  let conn := fold_left (fun c batch => fold_left insert_or_replace batch c) batches conn in
  let after := count_hourly conn in
  Ok (conn, after - before).

(** A value that is equal to itself in an index: text or an integer. *)
Definition plain_value (v : sqlval) : bool :=
  match v with
  | SqlText _ | SqlInt _ => true
  | SqlNull | SqlReal _ => false
  end.

(** No two rows of a table of sensor readings share a record_id. *)
Definition distinct_record_ids (table : list (list sqlval)) : Prop :=
  ForallOrdPairs (fun a b => sqlval_eqb (hd SqlNull a) (hd SqlNull b) = false) table.

(** The values stored for the rows of an hourly summary, without ids. *)
Definition summary_values (t : SummaryTable) : list (list sqlval) :=
  map snd (hourly_summary t).

(** The effect of a sequence of INSERT OR REPLACE on the stored values. *)
Definition replace_all (rs vals : list (list sqlval)) : list (list sqlval) :=
  fold_left (fun vs r => filter (fun v => negb (same_summary_key v r)) vs ++ [r]) rs vals.

(** An hourly summary with one row, and one whose machine is missing. *)
Definition hourly_one : DataFrame :=
  frame_of hourly_cols
    [[Ts 0; Str "Line_1"; Str "machine_1"; Flt 50; Flt 40; Flt 60; Flt 5; Flt 1;
      Int 4; Int 1; Flt 25]].

Definition hourly_no_machine : DataFrame :=
  frame_of hourly_cols
    [[Ts 0; PyNone; PyNone; Flt 50; Flt 40; Flt 60; Flt 5; Flt 1; Int 0; Int 0; Flt 0]].

Definition empty_summary : SummaryTable := mkSummary [] 0.

Definition quality_fail : DataFrame :=
  frame_of quality_cols [[Ts 5; Str "Line_1"; Str "machine_1"; Str "fail"; Str "fault"]].

(** The store and the count after loading [sensor_two_rows] into the
    empty store, in chunks of two. *)
Definition loaded_two_rows : Store * Z :=
  match load_sensor_readings empty_store sensor_two_rows 2 with
  | Ok x => x
  | Raise _ => (empty_store, 0)
  end.

(** A cell that is stored as NULL. *)
Definition stored_null (c : cell) : bool :=
  match c with
  | PyNone => true
  | Flt x => is_nan x
  | _ => false
  end.

Definition summary_key_cols : list string := ["hour"; "line_id"; "machine_id"].

(** No row of [rs] collides with the stored values [v]. *)
Definition untouched_by (rs : list (list sqlval)) (v : list sqlval) : bool :=
  forallb (fun r => negb (same_summary_key v r)) rs.

(** A numeric cell that is NaN or lies between [lo] and [hi], both
    included. *)
Definition within (lo hi : float) (c : cell) : bool :=
  match c with
  | Flt x => negb (PrimFloat.ltb x lo) && negb (PrimFloat.ltb hi x)
  | _ => false
  end.

Definition cleaned_bad_timestamp : DataFrame :=
  unwrap (clean_sensor_data sensor_bad_timestamp).

(** A sensor file without a machine_id column. *)
Definition sensor_without_machine_col : DataFrame :=
  frame_of ["timestamp"; "temperature"] [[Ts 7; Flt 50]].

(** ** Notions for the quality normalizer *)

(** The columns [keep] of [d'] hold cells of [d]: when [d] has these
    columns, [d'] has them too and every row of [d'] agrees on them
    with a row of [d]. *)
Definition carries (keep : list string) (d d' : DataFrame) : Prop :=
  (forall c, In c keep -> has_col c d = true) ->
  (forall c, In c keep -> has_col c d' = true) /\
  (forall ir', In ir' (rows d') ->
     exists ir, In ir (rows d) /\ forall c, In c keep -> snd ir' c = snd ir c).

(** A column name that the merge with the sensor lookup leaves alone:
    it is none of the lookup columns, with or without suffix. *)
Definition apart (c : string) : bool :=
  forallb (fun rc => negb (String.eqb c rc) && negb (String.eqb c (rc +++ "_x"))
                     && negb (String.eqb c (rc +++ "_y")))
          lookup_cols.

Definition payload_cols : list string := ["timestamp"; "result"; "defect_type"].

Definition is_time (c : cell) : bool :=
  match c with Ts _ | NaT => true | _ => false end.

(** A quality file with a defect flag and no result column, its time
    column under another name; and a file without any time column. *)
Definition quality_raw_flags : DataFrame :=
  frame_of ["Time Stamp"; "machine_id"; "defect_flag"]
    [[Ts 5; Int 1; Int 1]; [Ts 6; Int 1; Int 0]].

Definition quality_flags : DataFrame :=
  unwrap (transform_quality_data quality_raw_flags None).

Definition quality_raw_undated : DataFrame :=
  frame_of ["machine_id"; "result"] [[Int 1; Str "pass"]].

(** ** Notions for the hourly summary *)

(** The sum of an integer column. *)
Definition column_sum (c : string) (df : DataFrame) : Z :=
  fold_right Z.add 0
    (map (fun ir => match snd ir c with Int z => z | _ => 0 end) (rows df)).

(** The columns of the joined frame that the summary counts and groups
    by, [hour] added. *)
Definition summary_inputs : list string := group_cols ++ ["result"].

Definition zsum {A : Type} (f : A -> Z) (l : list A) : Z :=
  fold_right Z.add 0 (map f l).

(** The inspections of 5 and 25 once parsed, and what the normalizer
    returns for them beside the readings of 10 and 20. *)
Definition parsed_5_25 : DataFrame := unwrap (quality_parsed quality_5_25).

Definition aligned_5_25 : DataFrame :=
  unwrap (transform_quality_data quality_5_25 (Some sensor_10_20)).

(** * Properties *)

(** ** Lists and chunks *)

Lemma firstn_plus {A : Type} (n m : nat) (l : list A) :
  firstn (n + m) l = firstn n l ++ firstn m (skipn n l).
Proof.
  revert l; induction n as [|n IH]; intros l; simpl; [reflexivity|].
  destruct l as [|a l]; simpl.
  - now rewrite firstn_nil.
  - now rewrite IH.
Qed.

Lemma concat_slices {A : Type} (l : list A) (k : Z) (m : nat) :
  0 < k ->
  concat (map (fun i => slice l i (i + k)) (map (fun j => Z.of_nat j * k) (seq 0 m)))
  = firstn (m * Z.to_nat k) l.
Proof.
  intros Hk. induction m as [|m IH]; [reflexivity|].
  rewrite seq_S, !map_app, concat_app, IH. simpl.
  rewrite app_nil_r. unfold slice.
  replace (Z.of_nat m * k + k - Z.of_nat m * k) with k by lia.
  replace (Z.to_nat (Z.of_nat m * k)) with (m * Z.to_nat k)%nat by nia.
  rewrite <- firstn_plus. f_equal. lia.
Qed.

Lemma chunked_concat {A : Type} (l : list A) (k : Z) :
  0 < k -> exists chunks, _chunked l k = Ok chunks /\ concat chunks = l.
Proof.
  intros Hk. unfold _chunked, py_range.
  destruct (k =? 0) eqn:E0; [lia|].
  destruct (k <? 0) eqn:E1; [lia|]. simpl.
  eexists; split; [reflexivity|].
  rewrite concat_slices by assumption.
  apply firstn_all2.
  set (n := Z.of_nat (List.length l)).
  assert (H : n <= (n + k - 1) / k * k).
  { pose proof (Z.div_mod (n + k - 1) k ltac:(lia)) as Hd.
    pose proof (Z.mod_pos_bound (n + k - 1) k Hk). nia. }
  assert (0 <= (n + k - 1) / k) by (apply Z.div_pos; lia).
  nia.
Qed.

Lemma fold_left_concat {A B : Type} (f : A -> B -> A) (ls : list (list B)) (a : A) :
  fold_left (fun acc batch => fold_left f batch acc) ls a = fold_left f (concat ls) a.
Proof.
  revert a; induction ls as [|b ls IH]; intros a; simpl; [reflexivity|].
  now rewrite fold_left_app, IH.
Qed.

(** Running the batches through [executemany] is inserting the rows
    one by one. *)
Lemma executemany_chunks (insert : Store -> list sqlval -> Store) (conn : Store)
      (rs : list (list sqlval)) (chunk_size : Z) :
  0 < chunk_size ->
  exists batches,
    _chunked rs chunk_size = Ok batches /\
    fold_left (executemany insert) batches conn = fold_left insert rs conn.
Proof.
  intros Hk. destruct (chunked_concat rs chunk_size Hk) as [chunks [Hc Hcat]].
  exists chunks. split; [assumption|].
  unfold executemany. now rewrite fold_left_concat, Hcat.
Qed.

(** C9: for every dataset and every positive chunk size, the chunked
    loads of sensor readings and of quality checks end in the same store
    and return the same count as inserting the same rows one at a time
    in the same order (and fail on the same inputs). *)
Theorem chunked_load_is_row_by_row `{PyLib} (conn : Store) (df : DataFrame) (chunk_size : Z) :
  0 < chunk_size ->
  load_sensor_readings conn df chunk_size = load_sensor_one_by_one conn df /\
  load_quality_checks conn df chunk_size = load_quality_one_by_one conn df.
Proof.
  intros Hk. unfold load_sensor_readings, load_sensor_one_by_one,
    load_quality_checks, load_quality_one_by_one.
  split.
  - destruct (tuples_of sensor_table_cols "timestamp" df) as [rs|e]; [|reflexivity].
    simpl. destruct (executemany_chunks insert_sensor conn rs chunk_size Hk)
      as [batches [-> Hf]].
    simpl. now rewrite Hf.
  - destruct (tuples_of quality_cols "timestamp" df) as [rs|e]; [|reflexivity].
    simpl. destruct (executemany_chunks insert_quality conn rs chunk_size Hk)
      as [batches [-> Hf]].
    simpl. now rewrite Hf.
Qed.

Lemma chunked_load_is_row_by_row_witness :
  0 < 2 /\
  load_sensor_readings empty_store sensor_two_rows 2
  = load_sensor_one_by_one empty_store sensor_two_rows.
Proof.
  split; [lia|].
  apply (chunked_load_is_row_by_row empty_store sensor_two_rows 2). lia.
Defined.

(** ** The hourly summary *)

Lemma count_rows_le (p q : row -> bool) (g : list (nat * row)) :
  (forall r, p r = true -> q r = true) -> 0 <= count_rows p g <= count_rows q g.
Proof.
  intros Hpq. unfold count_rows. split; [lia|].
  apply inj_le. induction g as [|ir g IH]; simpl; [lia|].
  destruct (p (snd ir)) eqn:Ep.
  - rewrite (Hpq _ Ep). simpl. lia.
  - destruct (q (snd ir)); simpl; lia.
Qed.

(** C8: every row of the hourly summary belongs to a group of the
    grouped frame; its total_checks counts the rows of the group with a
    result, its defect_count those whose result is fail, and its
    defect_rate is 0 when total_checks is 0 and defect_count /
    total_checks * 100 (in float64) otherwise. *)
Theorem hourly_defect_rate `{PyLib} (joined df summary : DataFrame) (l : nat) (r : row) :
  hourly_frame joined = Ok df ->
  calculate_hourly_summary joined = Ok summary ->
  In (l, r) (rows summary) ->
  exists k : list skey,
    let g := group_rows k df in
    let total_checks := count_rows (fun r => notna (r "result")) g in
    let defect_count := count_rows (fun r => cell_is (r "result") "fail") g in
    r "total_checks" = Int total_checks /\
    r "defect_count" = Int defect_count /\
    0 <= defect_count <= total_checks /\
    (total_checks = 0 -> r "defect_rate" = Flt 0%float) /\
    (total_checks <> 0 ->
     r "defect_rate"
     = Flt (PrimFloat.mul (PrimFloat.div (float_of_Z defect_count) (float_of_Z total_checks))
                          100%float)).
Proof.
  intros Hf Hs Hin. unfold calculate_hourly_summary in Hs. rewrite Hf in Hs.
  simpl in Hs. injection Hs as <-. simpl in Hin.
  apply in_combine_r in Hin. apply in_map_iff in Hin as [k [<- _]].
  exists k. cbv zeta.
  assert (Hle : 0 <= count_rows (fun r => cell_is (r "result") "fail") (group_rows k df)
                <= count_rows (fun r => notna (r "result")) (group_rows k df)).
  { apply count_rows_le. intros r0. unfold notna, cell_is.
    destruct (r0 "result"); simpl; intros; try reflexivity; discriminate. }
  repeat split; try reflexivity; try lia.
  - intros H0. unfold summarize. cbn. unfold defect_rate. rewrite H0. reflexivity.
  - intros H0. unfold summarize. cbn. unfold defect_rate.
    destruct (0 <? _) eqn:E; [reflexivity|]. apply Z.ltb_ge in E. lia.
Qed.

(** Four checks with one failure give a defect rate of exactly 25.0. *)
Lemma hourly_defect_rate_witness :
  snd (row_at 0 summary_four_checks) "total_checks" = Int 4 /\
  snd (row_at 0 summary_four_checks) "defect_count" = Int 1 /\
  snd (row_at 0 summary_four_checks) "defect_rate" = Flt 25%float.
Proof.
  destruct (hourly_defect_rate joined_four_checks
              (unwrap (hourly_frame joined_four_checks)) summary_four_checks
              0%nat (snd (row_at 0 summary_four_checks)))
    as [k [Ht [Hd [_ [_ Hr]]]]].
  - vm_compute. reflexivity.
  - vm_compute. reflexivity.
  - vm_compute. left. reflexivity.
  - vm_compute. repeat split.
Defined.

(** ** Evaluations *)

(** C1: the quality normalizer leaves defect_type empty on a passed
    inspection; loading that dataset a second time adds the row again:
    the second call returns 1 and quality_checks grows from 1 to 2
    rows. *)
Theorem quality_reload_duplicates :
  show quality_cols (transform_quality_data quality_raw_pass None)
  = Ok [[Ts 5; Str "Line_1"; Str "machine_1"; Str "pass"; PyNone]] /\
  load_quality_checks empty_store quality_pass 5000
  = Ok (mkStore [] [(1, pass_tuple)] 1, 1) /\
  load_quality_checks (mkStore [] [(1, pass_tuple)] 1) quality_pass 5000
  = Ok (mkStore [] [(1, pass_tuple); (2, pass_tuple)] 2, 1).
Proof. vm_compute. repeat split. Qed.

(** C3: a result column with a word that is none of the synonyms, or
    with an empty cell, reaches the output as it is ("rejected", "nan"). *)
Theorem transform_quality_keeps_other_results :
  show quality_cols (transform_quality_data quality_raw_rejected None)
  = Ok [[Ts 5; Str "Line_1"; Str "machine_1"; Str "rejected"; PyNone];
        [Ts 6; Str "Line_1"; Str "machine_1"; Str "nan"; PyNone]].
Proof. vm_compute. reflexivity. Qed.

(** C7: with machine_2 listed before machine_1, the reading of
    machine_1 whose temperature 200 was replaced by the previous 60 is
    labelled good, and the untouched reading of machine_2 is labelled
    estimated. *)
Theorem clean_mislabels_after_sort :
  show ["machine_id"; "timestamp"; "temperature"; "data_quality"]
       (clean_sensor_data sensor_unsorted)
  = Ok [[Str "machine_1"; Ts 1; Flt 60; Str "good"];
        [Str "machine_1"; Ts 2; Flt 60; Str "good"];
        [Str "machine_2"; Ts 1; Flt 50; Str "estimated"]].
Proof. vm_compute. reflexivity. Qed.

(** C5, as stated, fails on the frame without columns. *)
Lemma clean_no_columns_raises :
  clean_sensor_data no_columns = Raise (KeyError "timestamp").
Proof. vm_compute. reflexivity. Qed.

(** C4, as stated, fails: the row with the unparseable timestamp stays. *)
Lemma clean_keeps_bad_timestamp :
  show ["timestamp"; "machine_id"; "temperature"] (clean_sensor_data sensor_bad_timestamp)
  = Ok [[Ts 7; Str "machine_1"; Flt 51]; [NaT; Str "machine_1"; Flt 50]].
Proof. vm_compute. reflexivity. Qed.

(** ** Time alignment *)

Lemma fold_max_shift (d : Z) (l : list Z) (t : Z) :
  fold_left Z.max (map (fun x => x + d) l) (t + d) = fold_left Z.max l t + d.
Proof.
  revert t; induction l as [|x l IH]; intros t; simpl; [reflexivity|].
  rewrite <- IH. f_equal. lia.
Qed.

Lemma ts_max_shift (d : Z) (l : list Z) (m : Z) :
  ts_max l = Some m -> ts_max (map (fun x => x + d) l) = Some (m + d).
Proof.
  destruct l as [|t l]; simpl; [discriminate|].
  intros [= <-]. now rewrite fold_max_shift.
Qed.

Lemma timestamps_shift (d : Z) (df : DataFrame) :
  timestamps (assign "timestamp" (fun r => ts_add (r "timestamp") (Some d)) df)
  = map (fun t => t + d) (timestamps df).
Proof.
  unfold timestamps, assign. simpl.
  induction (rows df) as [|ir rs IH]; simpl; [reflexivity|].
  rewrite IH, map_app. f_equal. destruct ir as [i r]. unfold upd. simpl.
  destruct (r "timestamp"); reflexivity.
Qed.

Lemma overlap_exists (a b : Z) (df : DataFrame) :
  existsb (fun ir => between (Some a) (Some b) (snd ir "timestamp")) (rows df) = true
  <-> exists t, In t (timestamps df) /\ a <= t <= b.
Proof.
  unfold timestamps. induction (rows df) as [|[i r] rs IH]; simpl.
  - split; [discriminate|]. intros [t [[] _]].
  - rewrite orb_true_iff, IH. split.
    + intros [Hb | [t [Hin Ht]]].
      * destruct (r "timestamp") as [| |s|z|x|t]; simpl in Hb; try discriminate.
        exists t. split; [now left|]. apply andb_true_iff in Hb. lia.
      * exists t. split; [|assumption]. apply in_or_app. now right.
    + intros [t [Hin Ht]]. apply in_app_or in Hin as [Hin | Hin].
      * left. destruct (r "timestamp") as [| |s|z|x|t']; simpl in Hin;
          try contradiction.
        destruct Hin as [-> | []]. simpl. apply andb_true_iff. lia.
      * right. now exists t.
Qed.

(** The alignment step (lines 351-358) on its own: with a sensor frame
    whose timestamps span [a, b], the quality timestamps are shifted
    exactly when none of them lies in [a, b].  When one lies in [a, b]
    the frame is returned as it is; otherwise every timestamp moves by
    b minus the quality maximum, and the new quality maximum is b. *)
Lemma align_step (df sdf : DataFrame) (a b : Z) :
  df_empty sdf = false ->
  has_col "timestamp" sdf = true ->
  ts_min (timestamps sdf) = Some a ->
  ts_max (timestamps sdf) = Some b ->
  exists out,
    align_timestamps df (Some sdf) = Ok out /\
    ((exists t, In t (timestamps df) /\ a <= t <= b) -> out = df) /\
    ((forall t, In t (timestamps df) -> ~ (a <= t <= b)) ->
     forall q_max, ts_max (timestamps df) = Some q_max ->
       out = assign "timestamp" (fun r => ts_add (r "timestamp") (Some (b - q_max))) df /\
       timestamps out = map (fun t => t + (b - q_max)) (timestamps df) /\
       ts_max (timestamps out) = Some b).
Proof.
  intros He Hc Ha Hb. unfold align_timestamps. rewrite He, Hc, Ha, Hb.
  cbv zeta. cbn [negb].
  destruct (existsb (fun ir => between (Some a) (Some b) (snd ir "timestamp")) (rows df))
    eqn:Ex; cbn [negb].
  - exists df. split; [reflexivity|]. split; [reflexivity|].
    intros Hno. apply overlap_exists in Ex as [t [Hin Ht]].
    exfalso. exact (Hno t Hin Ht).
  - eexists. split; [reflexivity|]. split.
    + intros Hex. apply overlap_exists in Hex. congruence.
    + intros _ q_max Hq. rewrite Hq. cbn [ts_sub]. split; [reflexivity|].
      rewrite timestamps_shift. split; [reflexivity|].
      rewrite (ts_max_shift _ _ _ Hq). f_equal. lia.
Qed.

(** C2, as stated, fails: the range of the inspections, 5 to 25, and the
    range of the readings, 10 to 20, overlap, and the inspections are
    shifted all the same, by 20 - 25; the normalizer returns the
    inspection of 25 with the timestamp 20 (the other one, moved to 0,
    finds no reading and is dropped). *)
Lemma align_shifts_overlapping_ranges :
  ranges_overlap (timestamps sensor_10_20) (timestamps quality_5_25) /\
  show ["timestamp"] (align_timestamps quality_5_25 (Some sensor_10_20))
  = Ok [[Ts 0]; [Ts 20]] /\
  show ["timestamp"] (quality_parsed quality_5_25) = Ok [[Ts 5]; [Ts 25]] /\
  show ["timestamp"] (transform_quality_data quality_5_25 (Some sensor_10_20))
  = Ok [[Ts 20]].
Proof.
  split; [|split; [|split]].
  - exists 10, 20, 5, 25. vm_compute. repeat split; discriminate.
  - vm_compute. reflexivity.
  - vm_compute. reflexivity.
  - vm_compute. reflexivity.
Qed.

(** ** The order of the sort keys *)

Lemma string_compare_refl (s : string) : String.compare s s = Eq.
Proof.
  induction s as [|a s IH]; simpl; [reflexivity|].
  unfold Ascii.compare. now rewrite N.compare_refl.
Qed.

Lemma string_compare_lt_trans (a b c : string) :
  String.compare a b = Lt -> String.compare b c = Lt -> String.compare a c = Lt.
Proof.
  revert b c; induction a as [|x a IH]; intros [|y b] [|z c]; simpl;
    try discriminate; try reflexivity.
  unfold Ascii.compare.
  destruct (N.compare_spec (N_of_ascii x) (N_of_ascii y)) as [Exy|Lxy|Gxy];
    try discriminate;
    destruct (N.compare_spec (N_of_ascii y) (N_of_ascii z)) as [Eyz|Lyz|Gyz];
    try discriminate; intros Hab Hbc.
  - rewrite Exy, Eyz, N.compare_refl. eapply IH; eassumption.
  - rewrite Exy. now apply N.compare_lt_iff in Lyz as ->.
  - rewrite <- Eyz. now apply N.compare_lt_iff in Lxy as ->.
  - assert (L : (N_of_ascii x < N_of_ascii z)%N) by lia.
    now apply N.compare_lt_iff in L as ->.
Qed.

Lemma skey_compare_eq (a b : skey) : skey_compare a b = Eq <-> a = b.
Proof.
  destruct a as [x|x|], b as [y|y|]; simpl; split; intros E;
    try discriminate; try reflexivity.
  - now apply Z.compare_eq_iff in E as ->.
  - injection E as ->. apply Z.compare_refl.
  - now apply String.compare_eq_iff in E as ->.
  - injection E as ->. apply string_compare_refl.
Qed.

Lemma skey_eqb_eq (a b : skey) : skey_eqb a b = true <-> a = b.
Proof.
  unfold skey_eqb. rewrite <- skey_compare_eq.
  destruct (skey_compare a b); split; congruence.
Qed.

Lemma skey_compare_antisym (a b : skey) :
  skey_compare a b = CompOpp (skey_compare b a).
Proof.
  destruct a as [x|x|], b as [y|y|]; simpl; try reflexivity.
  - apply Z.compare_antisym.
  - apply String.compare_antisym.
Qed.

Lemma skey_compare_lt_trans (a b c : skey) :
  skey_compare a b = Lt -> skey_compare b c = Lt -> skey_compare a c = Lt.
Proof.
  destruct a as [x|x|], b as [y|y|], c as [z|z|]; simpl;
    try discriminate; try reflexivity.
  - rewrite !Z.compare_lt_iff. lia.
  - apply string_compare_lt_trans.
Qed.

Lemma keys_compare_eq (a b : list skey) : keys_compare a b = Eq <-> a = b.
Proof.
  revert b; induction a as [|x a IH]; intros [|y b]; simpl; split; intros E;
    try discriminate; try reflexivity.
  - destruct (skey_compare x y) eqn:Exy; try discriminate.
    apply skey_compare_eq in Exy as ->. now apply IH in E as ->.
  - injection E as -> ->.
    replace (skey_compare y y) with Eq by (symmetry; now apply skey_compare_eq).
    now apply IH.
Qed.

Lemma keys_compare_antisym (a b : list skey) :
  keys_compare a b = CompOpp (keys_compare b a).
Proof.
  revert b; induction a as [|x a IH]; intros [|y b]; simpl; try reflexivity.
  rewrite (skey_compare_antisym x y).
  destruct (skey_compare y x); simpl; [apply IH | reflexivity | reflexivity].
Qed.

Lemma keys_compare_lt_trans (a b c : list skey) :
  keys_compare a b = Lt -> keys_compare b c = Lt -> keys_compare a c = Lt.
Proof.
  revert b c; induction a as [|x a IH]; intros [|y b] [|z c]; simpl;
    try discriminate; try reflexivity.
  destruct (skey_compare x y) eqn:Exy; try discriminate;
    destruct (skey_compare y z) eqn:Eyz; try discriminate; intros Hab Hbc.
  - apply skey_compare_eq in Exy as ->. rewrite Eyz. eapply IH; eassumption.
  - apply skey_compare_eq in Exy as ->. now rewrite Eyz.
  - apply skey_compare_eq in Eyz as <-. now rewrite Exy.
  - now rewrite (skey_compare_lt_trans _ _ _ Exy Eyz).
Qed.

Lemma keys_leb_trans (a b c : list skey) :
  keys_leb a b = true -> keys_leb b c = true -> keys_leb a c = true.
Proof.
  unfold keys_leb.
  destruct (keys_compare a b) eqn:Eab; try discriminate;
    destruct (keys_compare b c) eqn:Ebc; try discriminate; intros _ _.
  - apply keys_compare_eq in Eab as ->. now rewrite Ebc.
  - apply keys_compare_eq in Eab as ->. now rewrite Ebc.
  - apply keys_compare_eq in Ebc as <-. now rewrite Eab.
  - now rewrite (keys_compare_lt_trans _ _ _ Eab Ebc).
Qed.

Lemma keys_leb_total (a b : list skey) :
  keys_leb a b = false -> keys_leb b a = true.
Proof.
  unfold keys_leb. rewrite (keys_compare_antisym b a).
  destruct (keys_compare a b); simpl; congruence.
Qed.

(** ** The stable sort *)

Section SortFacts.
Context {A : Type} (key : A -> list skey).

Lemma insert_sorted_perm (x : A) (l : list A) :
  Permutation (insert_sorted key x l) (x :: l).
Proof.
  induction l as [|y l IH]; simpl; [reflexivity|].
  destruct (keys_leb (key x) (key y)); [reflexivity|].
  rewrite IH. apply perm_swap.
Qed.

Lemma stable_sort_perm (l : list A) : Permutation (stable_sort key l) l.
Proof.
  induction l as [|x l IH]; simpl; [reflexivity|].
  rewrite insert_sorted_perm. now constructor.
Qed.

Lemma insert_sorted_sorted (x : A) (l : list A) :
  StronglySorted (key_le key) l -> StronglySorted (key_le key) (insert_sorted key x l).
Proof.
  induction 1 as [|y l Hs IH Hy]; simpl.
  - repeat constructor.
  - destruct (keys_leb (key x) (key y)) eqn:E.
    + constructor; [now constructor|].
      constructor; [exact E|].
      eapply Forall_impl; [|exact Hy].
      intros z Hz. eapply keys_leb_trans; eassumption.
    + constructor; [exact IH|].
      apply (Permutation_Forall (Permutation_sym (insert_sorted_perm x l))).
      constructor; [|exact Hy]. now apply keys_leb_total.
Qed.

Lemma stable_sort_sorted (l : list A) : StronglySorted (key_le key) (stable_sort key l).
Proof.
  induction l as [|x l IH]; simpl; [constructor|].
  now apply insert_sorted_sorted.
Qed.

Lemma sorted_nth (l : list A) (j i : nat) (a b : A) :
  StronglySorted (key_le key) l -> (j < i)%nat ->
  nth_error l j = Some a -> nth_error l i = Some b -> key_le key a b.
Proof.
  intros Hs. revert j i. induction Hs as [|x l Hs IH Hx]; intros j i Hji Ha Hb.
  - destruct j; discriminate.
  - destruct i as [|i]; [lia|]. simpl in Hb. destruct j as [|j]; simpl in Ha.
    + injection Ha as <-. rewrite Forall_forall in Hx. apply Hx.
      eapply nth_error_In; eassumption.
    + apply (IH j i); [lia|assumption|assumption].
Qed.

End SortFacts.

(** ** Frames *)

Lemma mem_app_r (c : string) (l l' : list string) :
  mem c l = true -> mem c (l ++ l') = true.
Proof. unfold mem. rewrite existsb_app. now intros ->. Qed.

Lemma mem_add_col (c c' : string) (cols : list string) :
  mem c cols = true -> mem c (add_col c' cols) = true.
Proof.
  intros Hc. unfold add_col. destruct (mem c' cols); [assumption|].
  now apply mem_app_r.
Qed.

Lemma mem_add_col_self (c : string) (cols : list string) :
  mem c (add_col c cols) = true.
Proof.
  unfold add_col. destruct (mem c cols) eqn:E; [assumption|].
  unfold mem. rewrite existsb_app. simpl. rewrite String.eqb_refl.
  now rewrite orb_true_r.
Qed.

Lemma mem_filter (c : string) (p : string -> bool) (l : list string) :
  mem c (filter p l) = true -> mem c l = true.
Proof.
  unfold mem. rewrite !existsb_exists. intros [x [Hin Hx]].
  apply filter_In in Hin as [Hin _]. now exists x.
Qed.

Lemma mem_In (c : string) (l : list string) : mem c l = true <-> In c l.
Proof.
  unfold mem. rewrite existsb_exists. split.
  - intros [x [Hin Hx]]. now apply String.eqb_eq in Hx as ->.
  - intros Hin. exists c. split; [assumption|apply String.eqb_refl].
Qed.

Lemma not_sensor_name (x c : string) (l : list string) :
  mem x sensor_names = false -> In c (filter (fun c => mem c l) sensor_names) ->
  String.eqb x c = false.
Proof.
  intros Hx Hc. apply filter_In in Hc as [Hc _].
  destruct (String.eqb x c) eqn:E; [|reflexivity].
  apply String.eqb_eq in E as ->. apply mem_In in Hc. congruence.
Qed.

Lemma labelled_assign_ne (x c : string) (f : row -> cell) (df : DataFrame) :
  String.eqb x c = false -> labelled x (assign c f df) = labelled x df.
Proof.
  intros E. unfold labelled, assign. simpl. rewrite map_map.
  apply map_ext. intros [i r]. simpl. unfold upd. now rewrite E.
Qed.

Lemma labelled_assign_eq (c : string) (f : row -> cell) (df : DataFrame) :
  labelled c (assign c f df) = map (fun ir => (fst ir, f (snd ir))) (rows df).
Proof.
  unfold labelled, assign. simpl. rewrite map_map.
  apply map_ext. intros [i r]. simpl. unfold upd. now rewrite String.eqb_refl.
Qed.

Section FoldAssign.
Context (g : string -> row -> cell).

Lemma fold_assign_labelled (x : string) (cols : list string) (df : DataFrame) :
  mem x cols = false ->
  labelled x (fold_left (assign_step g) cols df) = labelled x df.
Proof.
  revert df; induction cols as [|c cols IH]; intros df Hx; simpl; [reflexivity|].
  simpl in Hx. apply orb_false_iff in Hx as [Hc Hx].
  rewrite IH by assumption. now apply labelled_assign_ne.
Qed.

Lemma fold_assign_has_col (x : string) (cols : list string) (df : DataFrame) :
  has_col x df = true -> has_col x (fold_left (assign_step g) cols df) = true.
Proof.
  revert df; induction cols as [|c cols IH]; intros df Hx; simpl; [assumption|].
  apply IH. now apply mem_add_col.
Qed.

Lemma fold_assign_length (cols : list string) (df : DataFrame) :
  length (rows (fold_left (assign_step g) cols df)) = length (rows df).
Proof.
  revert df; induction cols as [|c cols IH]; intros df; simpl; [reflexivity|].
  rewrite IH. unfold assign_step, assign. simpl. apply length_map.
Qed.

End FoldAssign.

Lemma coerce_sensor_has_timestamp `{PyLib} (df : DataFrame) :
  has_col "timestamp" (standardize_columns df) = true ->
  has_col "timestamp" (coerce_sensor df) = true.
Proof.
  intros Hts. unfold coerce_sensor. rewrite Hts. cbv zeta.
  change (fun (d : DataFrame) (c : string) =>
            assign c (fun r => to_numeric (replace_error (r c))) d)
    with (assign_step (fun c r => to_numeric (replace_error (r c)))).
  apply (fold_assign_has_col (fun c r => to_numeric (replace_error (r c)))).
  destruct (negb _ && _).
  - apply mem_add_col. apply mem_add_col_self.
  - apply mem_add_col_self.
Qed.

Lemma coerce_sensor_length `{PyLib} (df : DataFrame) :
  length (rows (coerce_sensor df)) = length (rows df).
Proof.
  unfold coerce_sensor. cbv zeta.
  change (fun (d : DataFrame) (c : string) =>
            assign c (fun r => to_numeric (replace_error (r c))) d)
    with (assign_step (fun c r => to_numeric (replace_error (r c)))).
  rewrite (fold_assign_length (fun c r => to_numeric (replace_error (r c)))).
  destruct (has_col "timestamp" (standardize_columns df));
    destruct (negb _ && _); simpl; now rewrite ?length_map.
Qed.

(** The timestamp column after the coercion: every cell parsed. *)
Lemma coerce_sensor_timestamp `{PyLib} (df : DataFrame) :
  has_col "timestamp" (standardize_columns df) = true ->
  labelled "timestamp" (coerce_sensor df)
  = map (fun ir => (fst ir, to_datetime (snd ir "timestamp")))
        (rows (standardize_columns df)).
Proof.
  intros Hts. unfold coerce_sensor. rewrite Hts. cbv zeta.
  change (fun (d : DataFrame) (c : string) =>
            assign c (fun r => to_numeric (replace_error (r c))) d)
    with (assign_step (fun c r => to_numeric (replace_error (r c)))).
  rewrite (fold_assign_labelled (fun c r => to_numeric (replace_error (r c)))).
  - destruct (negb _ && _).
    + rewrite labelled_assign_ne by reflexivity. apply labelled_assign_eq.
    + apply labelled_assign_eq.
  - unfold sensor_cols_of.
    destruct (mem "timestamp" (filter _ sensor_names)) eqn:E; [|reflexivity].
    apply mem_filter in E. discriminate.
Qed.

Lemma clean_sensor_data_unfold `{PyLib} (df : DataFrame) :
  clean_sensor_data df =
  (s <- clean_sorted df ;;
   let df0 := coerce_sensor df in
   let cols := sensor_cols_of df0 in
   let filled := forward_fill cols s in
   let still_missing := still_missing_of cols filled in
   Ok (assign_values "data_quality"
         (quality_labels
            (to_array still_missing)
            (to_array (series_and (missing_before_any cols df0 (validate_ranges df0))
                                  (series_not still_missing))))
         filled)).
Proof. reflexivity. Qed.

(** The sort of the cleaner succeeds whenever there is a timestamp
    column, and yields the validated rows in key order. *)
Lemma clean_sorted_ok `{PyLib} (df : DataFrame) :
  has_col "timestamp" (standardize_columns df) = true ->
  clean_sorted df
  = Ok (mkDF (columns (coerce_sensor df))
             (stable_sort (row_keys (sort_cols_of (coerce_sensor df)))
                          (rows (validate_ranges (coerce_sensor df))))).
Proof.
  intros Hts. apply coerce_sensor_has_timestamp in Hts.
  unfold clean_sorted, sort_values, sort_cols_of. cbv zeta.
  change (has_col "machine_id" (validate_ranges (coerce_sensor df)))
    with (has_col "machine_id" (coerce_sensor df)).
  change (columns (validate_ranges (coerce_sensor df)))
    with (columns (coerce_sensor df)).
  unfold has_col in *.
  destruct (mem "machine_id" (columns (coerce_sensor df))) eqn:Em; simpl;
    rewrite ?Em, Hts; reflexivity.
Qed.

Lemma fill_rows_length (grp : row -> skey) (cols : list string)
      (last : skey -> string -> option cell) (rs : list (nat * row)) :
  length (fill_rows grp cols last rs) = length rs.
Proof.
  revert last; induction rs as [|[i r] rs IH]; intros last; simpl; [reflexivity|].
  now rewrite IH.
Qed.

Lemma forward_fill_rows (cols : list string) (df : DataFrame) :
  rows (forward_fill cols df) = fill_rows (group_of df) cols no_last (rows df).
Proof.
  unfold forward_fill, group_of. destruct (has_col "machine_id" df); reflexivity.
Qed.

(** C5 (amended): on a frame without rows that has a timestamp column
    the cleaner does not fail; the result has no rows and a
    data_quality column. *)
Theorem clean_empty_with_timestamp `{PyLib} (df : DataFrame) :
  rows df = [] ->
  has_col "timestamp" (standardize_columns df) = true ->
  exists out,
    clean_sensor_data df = Ok out /\
    rows out = [] /\
    has_col "data_quality" out = true.
Proof.
  intros Hr Hts. rewrite clean_sensor_data_unfold, (clean_sorted_ok df Hts).
  simpl. eexists. split; [reflexivity|].
  assert (Hn : rows (coerce_sensor df) = []).
  { apply length_zero_iff_nil. now rewrite coerce_sensor_length, Hr. }
  split.
  - unfold assign_values. simpl. rewrite forward_fill_rows. simpl.
    unfold validate_ranges, map_rows. simpl. rewrite Hn. reflexivity.
  - unfold has_col, assign_values. simpl. apply mem_add_col_self.
Qed.

Lemma clean_empty_with_timestamp_witness :
  exists out,
    clean_sensor_data (frame_of ["timestamp"; "machine_id"; "temperature"] []) = Ok out /\
    rows out = [] /\
    has_col "data_quality" out = true.
Proof.
  apply (clean_empty_with_timestamp
           (frame_of ["timestamp"; "machine_id"; "temperature"] [])); reflexivity.
Defined.

Lemma fill_rows_labelled (x : string) (grp : row -> skey) (cols : list string)
      (last : skey -> string -> option cell) (rs : list (nat * row)) :
  mem x cols = false ->
  map (fun ir => (fst ir, snd ir x)) (fill_rows grp cols last rs)
  = map (fun ir => (fst ir, snd ir x)) rs.
Proof.
  intros Hx. revert last; induction rs as [|[i r] rs IH]; intros last; simpl;
    [reflexivity|].
  rewrite IH. f_equal. f_equal.
  unfold fill_in_group, blank_row, fill_row.
  destruct (grp r); now rewrite Hx.
Qed.

Lemma assign_values_labelled (x c : string) (vals : list cell) (df : DataFrame) :
  String.eqb x c = false -> length vals = length (rows df) ->
  labelled x (assign_values c vals df) = labelled x df.
Proof.
  intros E. unfold labelled, assign_values. simpl.
  generalize (rows df) as rs. intros rs. revert vals.
  induction rs as [|[i r] rs IH]; intros [|v vals] Hl; simpl in *;
    try discriminate; [reflexivity|].
  rewrite IH by (now injection Hl). unfold upd. now rewrite E.
Qed.

Lemma quality_labels_length (a b : list bool) :
  length a = length b -> length (quality_labels a b) = length a.
Proof.
  intros Hl. unfold quality_labels. rewrite length_map, length_combine. lia.
Qed.

(** The labels computed by the cleaner are as many as the rows. *)
Lemma clean_labels_length (df0 s : DataFrame) (cols : list string) :
  length (rows s) = length (rows df0) ->
  length (clean_labels cols df0 (forward_fill cols s))
  = length (rows (forward_fill cols s)).
Proof.
  intros Hl. unfold clean_labels.
  assert (Hf : length (rows (forward_fill cols s)) = length (rows df0)).
  { now rewrite forward_fill_rows, fill_rows_length. }
  assert (Ha : length (to_array (still_missing_of cols (forward_fill cols s)))
               = length (rows df0)).
  { unfold to_array, still_missing_of. now rewrite !length_map. }
  rewrite quality_labels_length; [now rewrite Ha, Hf|].
  rewrite Ha. unfold to_array, series_and, missing_before_any, validate_ranges, map_rows.
  simpl. rewrite !length_map, length_combine, length_map. lia.
Qed.

Lemma sorted_frame_perm (df0 : DataFrame) :
  Permutation (rows (sorted_frame df0)) (rows (validate_ranges df0)).
Proof. apply stable_sort_perm. Qed.

Lemma sorted_frame_length (df0 : DataFrame) :
  length (rows (sorted_frame df0)) = length (rows df0).
Proof.
  rewrite (Permutation_length (sorted_frame_perm df0)).
  unfold validate_ranges, map_rows. simpl. apply length_map.
Qed.

(** With a timestamp column the cleaner succeeds: it sorts, fills and
    labels. *)
Lemma clean_sensor_data_ok `{PyLib} (df : DataFrame) :
  has_col "timestamp" (standardize_columns df) = true ->
  let df0 := coerce_sensor df in
  let cols := sensor_cols_of df0 in
  let filled := forward_fill cols (sorted_frame df0) in
  clean_sorted df = Ok (sorted_frame df0) /\
  clean_sensor_data df
  = Ok (assign_values "data_quality" (clean_labels cols df0 filled) filled).
Proof.
  intros Hts. cbv zeta. split; [exact (clean_sorted_ok df Hts)|].
  rewrite clean_sensor_data_unfold, (clean_sorted_ok df Hts). reflexivity.
Qed.

Lemma validate_ranges_timestamp (df : DataFrame) :
  labelled "timestamp" (validate_ranges df) = labelled "timestamp" df.
Proof.
  unfold labelled, validate_ranges, map_rows. simpl. rewrite map_map.
  apply map_ext. intros [i r]. reflexivity.
Qed.

(** C4 (amended): the cleaner parses the timestamp column and keeps
    every row: the timestamps of its output are, row for row and up to
    the order of the rows, the parsed timestamps of its input, NaT where
    the input cannot be parsed. *)
Theorem clean_keeps_every_row `{PyLib} (df out : DataFrame) :
  has_col "timestamp" (standardize_columns df) = true ->
  clean_sensor_data df = Ok out ->
  Permutation (labelled "timestamp" out)
              (map (fun ir => (fst ir, to_datetime (snd ir "timestamp")))
                   (rows (standardize_columns df)))
  /\ length (rows out) = length (rows df).
Proof.
  intros Hts Hc. destruct (clean_sensor_data_ok df Hts) as [_ Hok].
  cbv zeta in Hok. rewrite Hok in Hc. clear Hok.
  set (df0 := coerce_sensor df) in *. set (cols := sensor_cols_of df0) in *.
  set (s := sorted_frame df0) in *.
  assert (Hout : out = assign_values "data_quality"
                         (clean_labels cols df0 (forward_fill cols s))
                         (forward_fill cols s)) by congruence.
  clear Hc. subst out.
  pose proof (sorted_frame_length df0) as Hl. fold s in Hl.
  pose proof (clean_labels_length df0 s cols Hl) as Hq.
  assert (Hp : Permutation (labelled "timestamp" (forward_fill cols s))
                           (labelled "timestamp" df0)).
  { unfold labelled at 1. rewrite forward_fill_rows, fill_rows_labelled.
    - rewrite <- validate_ranges_timestamp. apply Permutation_map.
      apply sorted_frame_perm.
    - destruct (mem "timestamp" cols) eqn:E; [|reflexivity].
      apply mem_filter in E. discriminate. }
  split.
  - rewrite assign_values_labelled; [|reflexivity|exact Hq].
    rewrite Hp. unfold df0. now rewrite coerce_sensor_timestamp.
  - apply Permutation_length in Hp. unfold labelled in Hp.
    rewrite !length_map in Hp.
    assert (Hn : length (rows df0) = length (rows df)) by apply coerce_sensor_length.
    unfold assign_values. cbn [rows]. rewrite length_map, length_combine.
    lia.
Qed.

Lemma clean_keeps_every_row_witness :
  length (rows (unwrap (clean_sensor_data sensor_bad_timestamp))) = 2%nat.
Proof.
  apply (clean_keeps_every_row sensor_bad_timestamp
           (unwrap (clean_sensor_data sensor_bad_timestamp))).
  - reflexivity.
  - vm_compute. reflexivity.
Defined.

(** ** The forward fill *)

Lemma prior_index_some (p : row -> bool) (rs : list (nat * row)) (i j : nat) :
  prior_index p rs i = Some j ->
  (j < i)%nat /\
  (exists ir, nth_error rs j = Some ir /\ p (snd ir) = true) /\
  (forall k ir, (j < k < i)%nat -> nth_error rs k = Some ir -> p (snd ir) = false).
Proof.
  induction i as [|i IH]; simpl; [discriminate|].
  destruct (nth_error rs i) as [ir|] eqn:En.
  - destruct (p (snd ir)) eqn:Ep.
    + intros [= <-]. split; [lia|]. split; [now exists ir|].
      intros k ir' Hk. lia.
    + intros Hj. destruct (IH Hj) as [Hlt [Hex Hbetween]].
      split; [lia|]. split; [assumption|].
      intros k ir' Hk Hnth. destruct (Nat.eq_dec k i) as [->|Hne].
      * rewrite En in Hnth. now injection Hnth as <-.
      * apply (Hbetween k); [lia|assumption].
  - intros Hj. destruct (IH Hj) as [Hlt [Hex Hbetween]].
    split; [lia|]. split; [assumption|].
    intros k ir' Hk Hnth. destruct (Nat.eq_dec k i) as [->|Hne].
    + congruence.
    + apply (Hbetween k); [lia|assumption].
Qed.

Lemma prior_index_none (p : row -> bool) (rs : list (nat * row)) (i : nat) :
  prior_index p rs i = None ->
  forall k ir, (k < i)%nat -> nth_error rs k = Some ir -> p (snd ir) = false.
Proof.
  induction i as [|i IH]; simpl; intros Hn k ir Hk Hnth; [lia|].
  destruct (nth_error rs i) as [ir'|] eqn:En.
  - destruct (p (snd ir')) eqn:Ep; [discriminate|].
    destruct (Nat.eq_dec k i) as [->|Hne].
    + rewrite En in Hnth. now injection Hnth as <-.
    + apply (IH Hn k); [lia|assumption].
  - destruct (Nat.eq_dec k i) as [->|Hne]; [congruence|].
    apply (IH Hn k); [lia|assumption].
Qed.

Lemma firstn_snoc {A : Type} (l : list A) (i : nat) (x : A) :
  nth_error l i = Some x -> firstn (S i) l = firstn i l ++ [x].
Proof.
  revert i; induction l as [|a l IH]; intros [|i] Hn; simpl in *; try discriminate.
  - now injection Hn as ->.
  - f_equal. now apply IH.
Qed.

Lemma firstn_past {A : Type} (l : list A) (i : nat) :
  nth_error l i = None -> firstn (S i) l = firstn i l.
Proof.
  intros Hn. apply nth_error_None in Hn.
  rewrite !firstn_all2 by lia. reflexivity.
Qed.

Lemma skey_eqb_refl (k : skey) : skey_eqb k k = true.
Proof. now apply skey_eqb_eq. Qed.

Lemma skey_eqb_sym (a b : skey) : skey_eqb a b = skey_eqb b a.
Proof.
  destruct (skey_eqb a b) eqn:E.
  - apply skey_eqb_eq in E as ->. symmetry. apply skey_eqb_refl.
  - destruct (skey_eqb b a) eqn:E'; [|reflexivity].
    apply skey_eqb_eq in E' as ->. now rewrite skey_eqb_refl in E.
Qed.

(** What a group remembers after a row: the value of the row when the
    row is of the group and has one, what it remembered before
    otherwise. *)
Lemma step_last_apply (grp : row -> skey) (last : skey -> string -> option cell)
      (r : row) (k : skey) (c : string) :
  k <> KNull ->
  step_last grp last r k c
  = if skey_eqb (grp r) k && notna (r c) then Some (r c) else last k c.
Proof.
  intros Hk. unfold step_last.
  assert (Hcase : forall kx,
            (if skey_eqb k kx then remember (last kx) r else last k) c
            = if skey_eqb kx k && notna (r c) then Some (r c) else last k c).
  { intros kx. rewrite (skey_eqb_sym kx k). destruct (skey_eqb k kx) eqn:E; [|reflexivity].
    apply skey_eqb_eq in E as <-. unfold remember, notna. simpl.
    now destruct (isna (r c)). }
  destruct (grp r) as [z|s|] eqn:Eg; try apply Hcase.
  replace (skey_eqb KNull k) with false; [reflexivity|].
  symmetry. destruct (skey_eqb KNull k) eqn:E'; [|reflexivity].
  apply skey_eqb_eq in E'. congruence.
Qed.

Section FillFacts.
Context (grp : row -> skey) (cols : list string).

Lemma fill_rows_nth (last : skey -> string -> option cell) (rs : list (nat * row))
      (i l : nat) (r : row) :
  nth_error rs i = Some (l, r) ->
  nth_error (fill_rows grp cols last rs) i
  = Some (l, fill_in_group grp cols (last_after grp last (firstn i rs)) r).
Proof.
  revert last i; induction rs as [|[l0 r0] rs IH]; intros last [|i] Hn;
    simpl in *; try discriminate.
  - now injection Hn as -> ->.
  - now apply IH.
Qed.

Lemma last_after_prior (rs : list (nat * row)) (i : nat) (k : skey) (c : string) :
  k <> KNull ->
  last_after grp no_last (firstn i rs) k c
  = match prior_index (fun r => skey_eqb (grp r) k && notna (r c)) rs i with
    | Some j => option_map (fun ir => snd ir c) (nth_error rs j)
    | None => None
    end.
Proof.
  intros Hk. induction i as [|i IH]; [reflexivity|].
  simpl prior_index. destruct (nth_error rs i) as [[l r]|] eqn:En.
  - rewrite (firstn_snoc _ _ _ En). unfold last_after in *.
    rewrite fold_left_app. simpl fold_left at 1.
    rewrite step_last_apply by assumption. simpl snd.
    destruct (skey_eqb (grp r) k && notna (r c)); [now rewrite En|exact IH].
  - rewrite (firstn_past _ _ En). exact IH.
Qed.

End FillFacts.

Lemma nth_error_combine {A B : Type} (a : list A) (b : list B) (i : nat) (x : A) (y : B) :
  nth_error a i = Some x -> nth_error b i = Some y ->
  nth_error (combine a b) i = Some (x, y).
Proof.
  revert b i; induction a as [|a0 a IH]; intros [|b0 b] [|i] Ha Hb;
    simpl in *; try discriminate.
  - now injection Ha as ->; injection Hb as ->.
  - now apply IH.
Qed.

Lemma assign_values_nth (c : string) (vals : list cell) (df : DataFrame)
      (i l : nat) (r : row) :
  length vals = length (rows df) ->
  nth_error (rows df) i = Some (l, r) ->
  exists v, nth_error (rows (assign_values c vals df)) i = Some (l, upd r c v).
Proof.
  intros Hl Hn.
  destruct (nth_error vals i) as [v|] eqn:Ev.
  - exists v. unfold assign_values. simpl.
    rewrite nth_error_map, (nth_error_combine _ _ _ _ _ Hn Ev). reflexivity.
  - apply nth_error_None in Ev.
    assert (nth_error (rows df) i <> None) by congruence.
    apply nth_error_Some in H. lia.
Qed.

Lemma sensor_col_not_quality (c : string) (df : DataFrame) :
  In c (sensor_cols_of df) -> String.eqb c "data_quality" = false.
Proof.
  intros Hc. apply filter_In in Hc as [Hc _].
  repeat (destruct Hc as [<- | Hc]; [reflexivity|]). contradiction.
Qed.

Lemma sorted_frame_sorted (df0 : DataFrame) :
  StronglySorted (key_le (row_keys (sort_cols_of df0))) (rows (sorted_frame df0)).
Proof. apply stable_sort_sorted. Qed.

(** Within one machine the sorted frame is in timestamp order. *)
Lemma sorted_frame_timestamp_order (df0 : DataFrame) (j i : nat) (a b : nat * row) :
  (j < i)%nat ->
  nth_error (rows (sorted_frame df0)) j = Some a ->
  nth_error (rows (sorted_frame df0)) i = Some b ->
  group_of df0 (snd a) = group_of df0 (snd b) ->
  key_le (row_keys ["timestamp"]) a b.
Proof.
  intros Hji Ha Hb Hg.
  pose proof (sorted_nth _ _ _ _ _ _ (sorted_frame_sorted df0) Hji Ha Hb) as Hle.
  unfold key_le, sort_cols_of, group_of in *.
  destruct (has_col "machine_id" df0); [|exact Hle].
  unfold row_keys, keys_leb in *. simpl in *. rewrite Hg in Hle.
  replace (skey_compare (sort_key (snd b "machine_id")) (sort_key (snd b "machine_id")))
    with Eq in Hle; [exact Hle|].
  symmetry. now apply skey_compare_eq.
Qed.

Lemma clean_sorted_inv `{PyLib} (df s : DataFrame) :
  clean_sorted df = Ok s -> s = sorted_frame (coerce_sensor df).
Proof.
  unfold clean_sorted, sort_values. cbv zeta.
  destruct (first_missing _ _); [discriminate|].
  now intros [= <-].
Qed.

Lemma fill_in_group_cell (grp : row -> skey) (cols : list string)
      (last : skey -> string -> option cell) (r : row) (c : string) :
  mem c cols = true ->
  fill_in_group grp cols last r c
  = match grp r with
    | KNull => NaN
    | k => if isna (r c)
           then match last k c with Some v => v | None => r c end
           else r c
    end.
Proof.
  intros Hc. unfold fill_in_group, blank_row, fill_row.
  destruct (grp r); rewrite Hc; reflexivity.
Qed.

(** C6: in the output of the cleaner, read against the sorted frame the
    fill works on (rows in machine and timestamp order): a sensor value
    that is present stays; a missing one is replaced by the value of the
    most recent earlier row of the same machine that has one (of any
    earlier row when there is no machine_id column), and stays missing
    when no such row exists.  The source row is never of another
    machine and never a later row. *)
Theorem forward_fill_most_recent_prior `{PyLib} (df s out : DataFrame)
        (i l : nat) (r : row) (c : string) :
  clean_sorted df = Ok s ->
  clean_sensor_data df = Ok out ->
  nth_error (rows s) i = Some (l, r) ->
  In c (sensor_cols_of (coerce_sensor df)) ->
  exists r',
    nth_error (rows out) i = Some (l, r') /\
    (isna (r c) = false -> group_of s r <> KNull -> r' c = r c) /\
    (isna (r c) = true ->
     (exists j lj rj,
         (j < i)%nat /\
         nth_error (rows s) j = Some (lj, rj) /\
         same_machine s r rj = true /\
         isna (rj c) = false /\
         r' c = rj c /\
         key_le (row_keys ["timestamp"]) (lj, rj) (l, r) /\
         (forall k lk rk, (j < k < i)%nat ->
            nth_error (rows s) k = Some (lk, rk) ->
            same_machine s r rk = true -> isna (rk c) = true))
     \/
     ((forall j lj rj, (j < i)%nat ->
         nth_error (rows s) j = Some (lj, rj) ->
         same_machine s r rj = true -> isna (rj c) = true) /\
      isna (r' c) = true)).
Proof.
  intros Hs Hc Hn Hcin.
  pose proof (clean_sorted_inv df s Hs) as ->.
  set (df0 := coerce_sensor df) in *. set (cols := sensor_cols_of df0) in *.
  set (s := sorted_frame df0) in *.
  assert (Hout : out = assign_values "data_quality"
                         (clean_labels cols df0 (forward_fill cols s))
                         (forward_fill cols s)).
  { rewrite clean_sensor_data_unfold, Hs in Hc. now injection Hc as <-. }
  clear Hc. subst out.
  pose proof (sorted_frame_length df0) as Hl. fold s in Hl.
  pose proof (clean_labels_length df0 s cols Hl) as Hq.
  assert (Hmem : mem c cols = true) by (now apply mem_In).
  assert (Hf : nth_error (rows (forward_fill cols s)) i
               = Some (l, fill_in_group (group_of s) cols
                            (last_after (group_of s) no_last (firstn i (rows s))) r)).
  { rewrite forward_fill_rows. now apply fill_rows_nth. }
  destruct (assign_values_nth "data_quality" _ _ _ _ _ Hq Hf) as [v Hv].
  eexists. split; [exact Hv|].
  unfold upd. rewrite (sensor_col_not_quality c df0 Hcin).
  rewrite (fill_in_group_cell _ _ _ _ _ Hmem).
  unfold same_machine.
  destruct (group_of s r) as [z|t|] eqn:Eg.
  3:{ split; [congruence|]. intros _. right. split; [discriminate|reflexivity]. }
  all: match type of Eg with _ = ?k =>
         assert (Hk : k <> KNull) by discriminate;
         rewrite (last_after_prior (group_of s) (rows s) i k c Hk);
         destruct (prior_index (fun r0 => skey_eqb (group_of s r0) k && notna (r0 c))
                               (rows s) i) as [j|] eqn:Ep
       end.
  all: split; [now intros ->|intros Hna; rewrite Hna].
  1,3: left; apply prior_index_some in Ep as [Hji [[[lj rj] [Hj Hp]] Hbetween]];
       simpl in Hp; apply andb_true_iff in Hp as [Hg Hv'];
       exists j, lj, rj; rewrite Hj; simpl;
       repeat split;
       [ assumption | assumption
       | now apply negb_true_iff in Hv'
       | apply (sorted_frame_timestamp_order df0 j i (lj, rj) (l, r) Hji Hj Hn);
         apply skey_eqb_eq in Hg; simpl;
         change (group_of df0 rj) with (group_of s rj);
         change (group_of df0 r) with (group_of s r); congruence
       | intros k lk rk Hk' Hnk Hsame;
         specialize (Hbetween k (lk, rk) Hk' Hnk); simpl in Hbetween;
         rewrite Hsame in Hbetween; simpl in Hbetween;
         now apply negb_false_iff in Hbetween ].
  1,2: right; split; [|exact Hna];
       intros j lj rj Hji Hj Hsame;
       pose proof (prior_index_none _ _ _ Ep j (lj, rj) Hji Hj) as Hp;
       simpl in Hp; rewrite Hsame in Hp; simpl in Hp;
       now apply negb_false_iff in Hp.
Qed.

Lemma forward_fill_most_recent_prior_witness :
  exists r',
    nth_error (rows cleaned_unsorted) 1 = Some (fst (row_at 1 sorted_unsorted), r') /\
    r' "temperature" = Flt 60%float.
Proof.
  destruct (forward_fill_most_recent_prior sensor_unsorted sorted_unsorted
              cleaned_unsorted 1 (fst (row_at 1 sorted_unsorted))
              (snd (row_at 1 sorted_unsorted)) "temperature")
    as [r' [Hn [_ Hfill]]].
  - vm_compute. reflexivity.
  - vm_compute. reflexivity.
  - vm_compute. reflexivity.
  - vm_compute. left. reflexivity.
  - exists r'. split; [exact Hn|].
    vm_compute in Hn. injection Hn as <-. reflexivity.
Defined.

(** A missing value of machine_2 is not filled from the reading of
    machine_1 listed just before it. *)
Example fill_stays_within_machine :
  show ["machine_id"; "temperature"; "data_quality"]
       (clean_sensor_data
          (frame_of ["timestamp"; "machine_id"; "temperature"]
             [[Ts 1; Str "machine_1"; Flt 60]; [Ts 2; Str "machine_2"; NaN]]))
  = Ok [[Str "machine_1"; Flt 60; Str "good"];
        [Str "machine_2"; NaN; Str "invalid"]].
Proof. vm_compute. reflexivity. Qed.

(** A row without machine_id is in no group: the grouped fill returns
    NaN for it, also where it had a value. *)
Example fill_blanks_rows_without_machine :
  show ["temperature"; "data_quality"]
       (clean_sensor_data
          (frame_of ["timestamp"; "machine_id"; "temperature"] [[Ts 1; NaN; Flt 60]]))
  = Ok [[NaN; Str "invalid"]].
Proof. vm_compute. reflexivity. Qed.

(** ** The sensor standardizer *)

Lemma filter_map_comm {A B : Type} (p : B -> bool) (f : A -> B) (l : list A) :
  filter p (map f l) = map f (filter (fun a => p (f a)) l).
Proof.
  induction l as [|a l IH]; simpl; [reflexivity|].
  rewrite IH. now destruct (p (f a)).
Qed.

Lemma to_machine_str_blank `{PyLib} (x : cell) :
  blank_machine x = true -> _to_machine_str x = PyNone.
Proof.
  unfold blank_machine, _to_machine_str. destruct (isna x); [reflexivity|].
  simpl. now intros ->.
Qed.

Lemma rowwise_refl (keep : list string) (d : DataFrame) : rowwise keep d d.
Proof.
  exists (fun r => r). split; [|reflexivity].
  rewrite <- (map_id (rows d)) at 1. apply map_ext. now intros [i r].
Qed.

Lemma rowwise_trans (keep : list string) (d1 d2 d3 : DataFrame) :
  rowwise keep d1 d2 -> rowwise keep d2 d3 -> rowwise keep d1 d3.
Proof.
  intros [G1 [H1 K1]] [G2 [H2 K2]]. exists (fun r => G2 (G1 r)). split.
  - rewrite H2, H1, map_map. reflexivity.
  - intros r c Hc. now rewrite K2, K1.
Qed.

Lemma rowwise_assign (keep : list string) (c : string) (f : row -> cell) (d : DataFrame) :
  mem c keep = false -> rowwise keep d (assign c f d).
Proof.
  intros Hc. exists (fun r => upd r c (f r)). split; [reflexivity|].
  intros r c' Hc'. unfold upd.
  destruct (String.eqb c' c) eqn:E; [|reflexivity].
  apply String.eqb_eq in E as ->. congruence.
Qed.

Lemma rowwise_ensure_numeric `{PyLib} (keep : list string) (col : string) (d : DataFrame) :
  mem col keep = false -> rowwise keep d (ensure_numeric d col).
Proof.
  intros Hc. unfold ensure_numeric.
  apply rowwise_trans with (d2 := if has_col col d then d else assign col (fun _ => NaN) d).
  - destruct (has_col col d); [apply rowwise_refl|now apply rowwise_assign].
  - now apply rowwise_assign.
Qed.

Lemma rowwise_fold_numeric `{PyLib} (keep cols : list string) (d : DataFrame) :
  (forall c, In c cols -> mem c keep = false) ->
  rowwise keep d (fold_left ensure_numeric cols d).
Proof.
  revert d; induction cols as [|c cols IH]; intros d Hc; simpl.
  - apply rowwise_refl.
  - eapply rowwise_trans.
    + apply rowwise_ensure_numeric. apply Hc. now left.
    + apply IH. intros c' Hc'. apply Hc. now right.
Qed.

Lemma Ok_inj {A : Type} (a b : A) : Ok a = Ok b -> a = b.
Proof. now intros [= ->]. Qed.

(** Every row with a parseable timestamp has its row in the output, at
    the same position, with the identity columns derived from it. *)
Lemma standardize_rows `{PyLib} (df out : DataFrame) :
  standardize_sensor_data df = Ok out ->
  length (rows out) = length (kept_rows df) /\
  forall i l r,
    nth_error (kept_rows df) i = Some (l, r) ->
    exists r',
      nth_error (rows out) i = Some (l, r') /\
      r' "timestamp" = to_datetime (r "timestamp") /\
      r' "machine_id" = _to_machine_str (r "machine_id") /\
      r' "line_id" = _derive_line_id (_to_machine_str (r "machine_id")) /\
      r' "record_id"
      = Str (_make_record_id (to_datetime (r "timestamp"))
                             (_derive_line_id (_to_machine_str (r "machine_id")))
                             (_to_machine_str (r "machine_id"))).
Proof.
  unfold standardize_sensor_data. cbv zeta.
  destruct (has_col "timestamp" (standardize_columns df)); [|discriminate].
  cbn [negb].
  set (d2 := dropna ["timestamp"]
               (assign "timestamp" (fun r => to_datetime (r "timestamp"))
                       (standardize_columns df))).
  destruct (has_col "machine_id" d2); [|discriminate].
  cbn [negb].
  set (d4 := assign "line_id" (fun r => _derive_line_id (r "machine_id"))
               (assign "machine_id" (fun r => _to_machine_str (r "machine_id")) d2)).
  set (d5 := fold_left ensure_numeric sensor_names d4).
  set (d6 := if has_col "data_quality" d5 then d5
             else assign "data_quality" (fun _ => Str "good") d5).
  unfold select. destruct (first_missing out_cols _); [discriminate|].
  intros Hout. apply Ok_inj in Hout. subst out. cbn [rows assign].
  assert (H2 : rows d2
               = map (fun ir => (fst ir, upd (snd ir) "timestamp"
                                             (to_datetime (snd ir "timestamp"))))
                     (kept_rows df)).
  { unfold d2, dropna, assign, kept_rows. cbn [rows]. rewrite filter_map_comm.
    f_equal. apply filter_ext. intros [l r]. unfold upd. simpl. apply andb_true_r. }
  assert (H46 : rowwise identity_cols d4 d6).
  { apply rowwise_trans with (d2 := d5).
    - apply rowwise_fold_numeric. intros c Hc.
      repeat (destruct Hc as [<- | Hc]; [reflexivity|]). contradiction.
    - unfold d6. destruct (has_col "data_quality" d5);
        [apply rowwise_refl|now apply rowwise_assign]. }
  destruct H46 as [G [HG KG]].
  rewrite HG. unfold d4. cbn [rows assign]. rewrite H2, !map_map. cbn [fst snd].
  split; [apply length_map|].
  intros i l r Hn. eexists. rewrite nth_error_map, Hn. cbn [option_map fst snd].
  split; [reflexivity|].
  cbv beta.
  assert (Kt : forall r0 : row, G r0 "timestamp" = r0 "timestamp") by (intros; now apply KG).
  assert (Km : forall r0 : row, G r0 "machine_id" = r0 "machine_id") by (intros; now apply KG).
  assert (Kl : forall r0 : row, G r0 "line_id" = r0 "line_id") by (intros; now apply KG).
  unfold upd at 1 3 5 7. cbn [mem existsb out_cols String.eqb Ascii.eqb Bool.eqb orb].
  rewrite !Kt, !Km, !Kl. unfold upd. simpl.
  repeat split; rewrite ?Kt, ?Km, ?Kl; reflexivity.
Qed.

Lemma record_id_of_none `{PyLib} (ts : cell) :
  _make_record_id ts PyNone PyNone = md5_hexdigest (ts_isoformat ts +++ "|None|None").
Proof. reflexivity. Qed.

(** C10: the standardizer drops the rows whose timestamp cannot be
    parsed and no other; a row whose machine_id is missing or blank
    comes out with machine_id and line_id None and with the digest of
    its timestamp followed by "|None|None" as record_id, so two such
    rows with the same timestamp get the same record_id, whatever their
    sensor values. *)
Theorem standardize_null_machine_rows `{PyLib} (df out : DataFrame) :
  standardize_sensor_data df = Ok out ->
  length (rows out) = length (kept_rows df) /\
  (forall i l r,
      nth_error (kept_rows df) i = Some (l, r) ->
      blank_machine (r "machine_id") = true ->
      exists r',
        nth_error (rows out) i = Some (l, r') /\
        r' "machine_id" = PyNone /\
        r' "line_id" = PyNone /\
        r' "record_id"
        = Str (md5_hexdigest (ts_isoformat (to_datetime (r "timestamp")) +++ "|None|None"))) /\
  (forall i1 l1 r1 i2 l2 r2,
      nth_error (kept_rows df) i1 = Some (l1, r1) ->
      nth_error (kept_rows df) i2 = Some (l2, r2) ->
      blank_machine (r1 "machine_id") = true ->
      blank_machine (r2 "machine_id") = true ->
      to_datetime (r1 "timestamp") = to_datetime (r2 "timestamp") ->
      exists r1' r2',
        nth_error (rows out) i1 = Some (l1, r1') /\
        nth_error (rows out) i2 = Some (l2, r2') /\
        r1' "record_id" = r2' "record_id").
Proof.
  intros Hs. destruct (standardize_rows df out Hs) as [Hlen Hrows].
  assert (Hone : forall i l r,
             nth_error (kept_rows df) i = Some (l, r) ->
             blank_machine (r "machine_id") = true ->
             exists r',
               nth_error (rows out) i = Some (l, r') /\
               r' "machine_id" = PyNone /\
               r' "line_id" = PyNone /\
               r' "record_id"
               = Str (md5_hexdigest
                        (ts_isoformat (to_datetime (r "timestamp")) +++ "|None|None"))).
  { intros i l r Hn Hb. destruct (Hrows i l r Hn) as [r' [Hn' [_ [Hm [Hl Hr]]]]].
    rewrite (to_machine_str_blank _ Hb) in Hm, Hl, Hr.
    exists r'. repeat split; assumption. }
  split; [exact Hlen|]. split; [exact Hone|].
  intros i1 l1 r1 i2 l2 r2 Hn1 Hn2 Hb1 Hb2 Hts.
  destruct (Hone i1 l1 r1 Hn1 Hb1) as [r1' [H1 [_ [_ Hr1]]]].
  destruct (Hone i2 l2 r2 Hn2 Hb2) as [r2' [H2 [_ [_ Hr2]]]].
  exists r1', r2'. repeat split; try assumption.
  now rewrite Hr1, Hr2, Hts.
Qed.

Lemma standardize_null_machine_rows_witness :
  exists r1' r2',
    nth_error (rows standardized_no_machine) 0 = Some (0%nat, r1') /\
    nth_error (rows standardized_no_machine) 1 = Some (1%nat, r2') /\
    r1' "record_id" = r2' "record_id".
Proof.
  destruct (standardize_null_machine_rows sensor_no_machine standardized_no_machine)
    as [_ [_ Hpair]].
  - vm_compute. reflexivity.
  - apply (Hpair 0%nat 0%nat (snd (row_at 0 (standardize_columns sensor_no_machine)))
                 1%nat 1%nat (snd (row_at 1 (standardize_columns sensor_no_machine))));
      vm_compute; reflexivity.
Defined.

(** The two readings without machine share the record_id ["7|None|None"]
    of the example instance; all three rows are kept. *)
Example standardize_no_machine_rows :
  show ["record_id"; "line_id"; "machine_id"; "temperature"]
       (standardize_sensor_data sensor_no_machine)
  = Ok [[Str "7|None|None"; PyNone; PyNone; Flt 50];
        [Str "7|None|None"; PyNone; PyNone; Flt 99];
        [Str "7|Line_2|machine_17"; Str "Line_2"; Str "machine_17"; Flt 60]].
Proof. vm_compute. reflexivity. Qed.

(** ** Reloading the sensor readings *)

Lemma mapM_In {A B : Type} (f : A -> Res B) (l : list A) (bs : list B) (b : B) :
  mapM f l = Ok bs -> In b bs -> exists a, In a l /\ f a = Ok b.
Proof.
  revert bs; induction l as [|a l IH]; intros bs; simpl.
  - intros [= <-] [].
  - destruct (f a) as [b0|e] eqn:Ea; simpl; [|discriminate].
    destruct (mapM f l) as [bs0|e]; simpl; [|discriminate].
    intros [= <-] [<- | Hin].
    + exists a. split; [now left|assumption].
    + destruct (IH bs0 eq_refl Hin) as [a' [Ha' Hf]].
      exists a'. split; [now right|assumption].
Qed.

Lemma pk_conflict_grows (st : Store) (r r' : list sqlval) :
  pk_conflict r (sensor_readings st) = true ->
  pk_conflict r (sensor_readings (insert_sensor st r')) = true.
Proof.
  intros Hc. unfold insert_sensor.
  destruct (pk_conflict r' (sensor_readings st)); [assumption|].
  simpl. unfold pk_conflict in *. rewrite existsb_app, Hc. reflexivity.
Qed.

Lemma pk_conflict_inserted (st : Store) (r : list sqlval) (s : string) :
  hd SqlNull r = SqlText s ->
  pk_conflict r (sensor_readings (insert_sensor st r)) = true.
Proof.
  intros Hk. unfold insert_sensor.
  destruct (pk_conflict r (sensor_readings st)) eqn:Ec; [assumption|].
  simpl. unfold pk_conflict. rewrite existsb_app. simpl.
  rewrite Hk. simpl. rewrite String.eqb_refl. now rewrite orb_true_r.
Qed.

Lemma pk_conflict_fold (rs : list (list sqlval)) (st : Store) (r : list sqlval) :
  pk_conflict r (sensor_readings st) = true ->
  pk_conflict r (sensor_readings (fold_left insert_sensor rs st)) = true.
Proof.
  revert st; induction rs as [|a rs IH]; intros st Hc; simpl; [assumption|].
  apply IH. now apply pk_conflict_grows.
Qed.

Lemma loaded_rows_conflict (rs : list (list sqlval)) (st : Store) (r : list sqlval) (s : string) :
  In r rs -> hd SqlNull r = SqlText s ->
  pk_conflict r (sensor_readings (fold_left insert_sensor rs st)) = true.
Proof.
  revert st; induction rs as [|a rs IH]; intros st Hin Hk; simpl in *;
    [contradiction|].
  destruct Hin as [<- | Hin].
  - apply pk_conflict_fold. now apply pk_conflict_inserted with (s := s).
  - now apply IH.
Qed.

Lemma insert_known_rows (rs : list (list sqlval)) (st : Store) :
  (forall r, In r rs -> pk_conflict r (sensor_readings st) = true) ->
  fold_left insert_sensor rs st = st.
Proof.
  induction rs as [|a rs IH]; intros Hc; simpl; [reflexivity|].
  unfold insert_sensor at 2. rewrite (Hc a) by now left.
  apply IH. intros r Hr. apply Hc. now right.
Qed.

Lemma sensor_tuple_key `{PyLib} (r : row) (t : list sqlval) :
  tuple_of sensor_table_cols "timestamp" r = Ok t ->
  hd SqlNull t = adapt (r "record_id").
Proof.
  unfold tuple_of, sensor_table_cols, out_cols.
  cbn [mapM String.eqb Ascii.eqb Bool.eqb bind].
  match goal with |- context [bind ?m] => destruct m as [bs|e] end; simpl;
    [|discriminate].
  now intros [= <-].
Qed.

(** The half of the idempotence that holds: a sensor dataset whose
    record_id cells are all text (as the standardizer produces them) is
    skipped as a whole by a second load, which returns 0. *)
Lemma sensor_reload_adds_nothing `{PyLib} (conn conn1 : Store) (df : DataFrame)
      (chunk_size n1 : Z) :
  0 < chunk_size ->
  (forall ir, In ir (rows df) -> exists s, snd ir "record_id" = Str s) ->
  load_sensor_readings conn df chunk_size = Ok (conn1, n1) ->
  load_sensor_readings conn1 df chunk_size = Ok (conn1, 0).
Proof.
  intros Hk Hid. unfold load_sensor_readings.
  destruct (tuples_of sensor_table_cols "timestamp" df) as [rs|e] eqn:Et;
    cbn [bind]; [|discriminate].
  destruct (executemany_chunks insert_sensor conn rs chunk_size Hk)
    as [batches [Hb Hf]].
  destruct (executemany_chunks insert_sensor conn1 rs chunk_size Hk)
    as [batches1 [Hb1 Hf1]].
  assert (batches1 = batches) by congruence. subst batches1.
  rewrite Hb. cbn [bind]. rewrite Hf, Hf1. clear Hb Hb1 Hf Hf1.
  assert (Hkeys : forall r, In r rs -> exists s, hd SqlNull r = SqlText s).
  { intros r Hr. unfold tuples_of, select in Et.
    destruct (first_missing sensor_table_cols (columns df)); [discriminate|].
    cbn [bind rows] in Et.
    destruct (mapM_In _ _ _ _ Et Hr) as [ir' [Hin Ht]].
    apply in_map_iff in Hin as [ir [<- Hin]].
    destruct (Hid ir Hin) as [s Hs]. exists s.
    rewrite (sensor_tuple_key _ _ Ht). cbn [snd].
    change (mem "record_id" sensor_table_cols) with true. cbv iota.
    now rewrite Hs. }
  intros Hl. apply Ok_inj in Hl.
  assert (Hc : conn1 = fold_left insert_sensor rs conn) by (now inversion Hl).
  clear Hl. subst conn1.
  rewrite insert_known_rows; [f_equal; f_equal; lia|].
  intros r Hr. destruct (Hkeys r Hr) as [s Hs].
  now apply loaded_rows_conflict with (s := s).
Qed.

(** ** What holds of the result vocabulary and of the quality labels *)

(** Without a result column the inferred result is pass or fail. *)
Lemma infer_result_binary `{PyLib} (df d : DataFrame) :
  has_col "result" df = false ->
  infer_result df = Ok d ->
  forall ir, In ir (rows d) ->
    snd ir "result" = Str "pass" \/ snd ir "result" = Str "fail".
Proof.
  intros Hr. unfold infer_result. rewrite Hr.
  destruct (_first_existing_col df label_cols) as [label_col|].
  - destruct (mapM _ (rows df)) as [labels|e]; cbn [bind]; [|discriminate].
    intros Hd. apply Ok_inj in Hd. subst d. intros ir Hin.
    unfold assign in Hin. cbn [rows] in Hin.
    apply in_map_iff in Hin as [ir0 [<- _]]. cbn [snd]. unfold upd.
    rewrite String.eqb_refl. destruct (cell_is_one _); [now right|now left].
  - intros Hd. apply Ok_inj in Hd. subst d. intros ir Hin.
    unfold assign in Hin. cbn [rows] in Hin.
    apply in_map_iff in Hin as [ir0 [<- _]]. cbn [snd]. unfold upd.
    rewrite String.eqb_refl. now left.
Qed.

(** A value outside the range of its column is NaN after the range
    validation, a value of a column without range or inside its range is
    unchanged. *)
Lemma validate_ranges_cell (df : DataFrame) (col : string) (lo hi : float) :
  has_col col df = true ->
  range_of col ranges = Some (lo, hi) ->
  labelled col (validate_ranges df)
  = map (fun ir => (fst ir,
                    if out_of_range lo hi (snd ir col) then NaN else snd ir col))
        (rows df).
Proof.
  intros Hc Hr. unfold labelled, validate_ranges, map_rows. cbn [rows].
  rewrite map_map. apply map_ext. intros [l r]. cbn [fst snd].
  unfold invalid_cell. now rewrite Hr, Hc.
Qed.

Lemma temperature_range :
  range_of "temperature" ranges = Some (0%float, 150%float) /\
  range_of "pressure" ranges = Some (0%float, 10%float) /\
  range_of "vibration" ranges = Some (0%float, 100%float) /\
  out_of_range 0 150 (Flt 0) = false /\ out_of_range 0 150 (Flt 150) = false /\
  out_of_range 0 150 (Flt (-5)) = true /\ out_of_range 0 150 (Flt 200) = true.
Proof. vm_compute. repeat split. Qed.

Lemma nth_error_combine_inv {A B : Type} (a : list A) (b : list B) (i : nat) (x : A) (y : B) :
  nth_error (combine a b) i = Some (x, y) ->
  nth_error a i = Some x /\ nth_error b i = Some y.
Proof.
  revert b i; induction a as [|a0 a IH]; intros [|b0 b] [|i]; simpl;
    try discriminate.
  - now intros [= -> ->].
  - apply IH.
Qed.

Lemma existsb_ext_in {A : Type} (f g : A -> bool) (l : list A) :
  (forall a, In a l -> f a = g a) -> existsb f l = existsb g l.
Proof.
  induction l as [|a l IH]; intros Hfg; simpl; [reflexivity|].
  rewrite (Hfg a) by now left. rewrite IH; [reflexivity|].
  intros a' Ha'. apply Hfg. now right.
Qed.

(** The label "invalid" is attached to the right rows: an output row is
    labelled invalid exactly when one of its sensor cells is missing. *)
Lemma clean_invalid_label `{PyLib} (df out : DataFrame) (i l : nat) (r' : row) :
  has_col "timestamp" (standardize_columns df) = true ->
  clean_sensor_data df = Ok out ->
  nth_error (rows out) i = Some (l, r') ->
  (r' "data_quality" = Str "invalid"
   <-> existsb (fun c => isna (r' c)) (sensor_cols_of (coerce_sensor df)) = true).
Proof.
  intros Hts Hc Hn. destruct (clean_sensor_data_ok df Hts) as [_ Hok].
  cbv zeta in Hok. rewrite Hok in Hc. clear Hok.
  set (df0 := coerce_sensor df) in *. set (cols := sensor_cols_of df0) in *.
  set (filled := forward_fill cols (sorted_frame df0)) in *.
  apply Ok_inj in Hc. subst out.
  unfold assign_values in Hn. cbn [rows] in Hn.
  rewrite nth_error_map in Hn.
  destruct (nth_error (combine (rows filled) (clean_labels cols df0 filled)) i)
    as [[[l0 rf] v]|] eqn:Ec; [|discriminate].
  cbn [option_map fst snd] in Hn.
  assert (Hl : l0 = l) by (now inversion Hn).
  assert (Hr : r' = upd rf "data_quality" v) by (now inversion Hn).
  clear Hn. subst l0 r'.
  apply nth_error_combine_inv in Ec as [Hf Hv].
  unfold clean_labels, quality_labels in Hv. rewrite nth_error_map in Hv.
  destruct (nth_error (combine (to_array (still_missing_of cols filled)) _) i)
    as [[sm we]|] eqn:Ew; [|discriminate].
  apply nth_error_combine_inv in Ew as [Hsm _].
  unfold to_array, still_missing_of in Hsm. rewrite map_map, nth_error_map, Hf in Hsm.
  cbn [option_map fst snd] in Hsm.
  assert (Esm : sm = existsb (fun c => isna (rf c)) cols) by (now inversion Hsm).
  assert (Ev : v = if sm then Str "invalid"
                   else if we then Str "estimated" else Str "good")
    by (now inversion Hv).
  clear Hsm Hv.
  assert (Eq : existsb (fun c => isna (upd rf "data_quality" v c)) cols = sm).
  { rewrite Esm. apply existsb_ext_in. intros c Hcin. unfold upd.
    now rewrite (sensor_col_not_quality c df0 Hcin). }
  rewrite Eq. unfold upd. rewrite String.eqb_refl, Ev.
  destruct sm; [now split|]. destruct we; split; discriminate.
Qed.

(** A frame that is already in machine and timestamp order keeps its
    order, and the labels fall on the rows they were computed for:
    machine 17 with 1000 and then 60 is invalid, then good; a
    temperature of -5 after a valid 50 is estimated. *)
Example clean_labels_on_sorted_input :
  show ["machine_id"; "temperature"; "data_quality"]
       (clean_sensor_data
          (frame_of ["timestamp"; "machine_id"; "temperature"]
             [[Ts 1; Int 17; Flt 1000]; [Ts 2; Int 17; Flt 60];
              [Ts 1; Int 18; Flt 50]; [Ts 2; Int 18; Flt (-5)]]))
  = Ok [[Int 17; NaN; Str "invalid"]; [Int 17; Flt 60; Str "good"];
        [Int 18; Flt 50; Str "good"]; [Int 18; Flt 50; Str "estimated"]].
Proof. vm_compute. reflexivity. Qed.

(** * Further properties of the loader *)

(** ** Chunks *)

Lemma chunked_positive {A : Type} (l : list A) (k : Z) :
  0 < k ->
  _chunked l k
  = Ok (map (fun i => slice l i (i + k))
            (map (fun j => Z.of_nat j * k)
                 (seq 0 (Z.to_nat ((Z.of_nat (length l) + k - 1) / k))))).
Proof.
  intros Hk. unfold _chunked, py_range.
  destruct (k =? 0) eqn:E0; [lia|]. destruct (k <? 0) eqn:E1; [lia|]. reflexivity.
Qed.

Lemma chunked_negative {A : Type} (l : list A) (k : Z) :
  k < 0 -> _chunked l k = Ok [].
Proof.
  intros Hk. unfold _chunked, py_range.
  destruct (k =? 0) eqn:E0; [lia|]. destruct (k <? 0) eqn:E1; [reflexivity|lia].
Qed.

Lemma chunked_cases {A : Type} (l : list A) (k : Z) (batches : list (list A)) :
  _chunked l k = Ok batches ->
  (0 < k /\ concat batches = l) \/ (k < 0 /\ batches = []).
Proof.
  intros Hc. destruct (Z.lt_trichotomy k 0) as [Hn | [-> | Hp]].
  - right. split; [assumption|]. rewrite (chunked_negative l k Hn) in Hc.
    now apply Ok_inj in Hc.
  - discriminate.
  - left. split; [assumption|].
    destruct (chunked_concat l k Hp) as [chunks [Hc' Hcat]]. congruence.
Qed.

(** [_chunked] with a positive chunk size cuts the rows into
    ceil(n / chunk_size) chunks, none of them empty and none longer than
    the chunk size, which put together give the rows back. *)
Theorem chunked_shape {A : Type} (l : list A) (k : Z) (chunks : list (list A)) :
  0 < k ->
  _chunked l k = Ok chunks ->
  concat chunks = l /\
  Z.of_nat (length chunks) = (Z.of_nat (length l) + k - 1) / k /\
  Forall (fun c => 0 < Z.of_nat (length c) <= k) chunks.
Proof.
  intros Hk Hc. split.
  - destruct (chunked_concat l k Hk) as [chunks' [Hc' Hcat]]. congruence.
  - rewrite (chunked_positive l k Hk) in Hc. apply Ok_inj in Hc. subst chunks.
    set (n := Z.of_nat (length l)) in *.
    assert (Hq : 0 <= (n + k - 1) / k) by (apply Z.div_pos; lia).
    assert (Hm : k * ((n + k - 1) / k) <= n + k - 1) by (apply Z.mul_div_le; lia).
    split.
    + rewrite !length_map, length_seq. lia.
    + apply Forall_forall. intros c Hin.
      apply in_map_iff in Hin as [i [<- Hin]].
      apply in_map_iff in Hin as [j [<- Hj]].
      apply in_seq in Hj. unfold slice.
      rewrite length_firstn, length_skipn.
      replace (Z.of_nat j * k + k - Z.of_nat j * k) with k by lia.
      assert (Hlt : Z.of_nat j * k < n) by nia.
      subst n. nia.
Qed.

Lemma chunked_shape_witness :
  _chunked [1; 2; 3; 4; 5] 2 = Ok [[1; 2]; [3; 4]; [5]] /\
  Z.of_nat (length [[1; 2]; [3; 4]; [5]]) = (Z.of_nat (length [1; 2; 3; 4; 5]) + 2 - 1) / 2.
Proof.
  split; [reflexivity|].
  apply (chunked_shape [1; 2; 3; 4; 5] 2 [[1; 2]; [3; 4]; [5]]); [lia|reflexivity].
Defined.

(** ** Loads of sensor readings *)

Lemma mapM_length {A B : Type} (f : A -> Res B) (l : list A) (bs : list B) :
  mapM f l = Ok bs -> length bs = length l.
Proof.
  revert bs; induction l as [|a l IH]; intros bs; simpl.
  - now intros [= <-].
  - destruct (f a) as [b|e]; simpl; [|discriminate].
    destruct (mapM f l) as [bs0|e]; simpl; [|discriminate].
    intros [= <-]. simpl. now rewrite (IH bs0 eq_refl).
Qed.

Lemma tuples_of_length `{PyLib} (cols : list string) (ts : string) (df : DataFrame)
      (rs : list (list sqlval)) :
  tuples_of cols ts df = Ok rs -> length rs = length (rows df).
Proof.
  unfold tuples_of, select.
  destruct (first_missing cols (columns df)); [discriminate|].
  cbn [bind rows]. intros Hm. apply mapM_length in Hm.
  now rewrite length_map in Hm.
Qed.

Lemma insert_sensor_fold_appends (rs : list (list sqlval)) (st : Store) :
  exists added,
    sensor_readings (fold_left insert_sensor rs st) = sensor_readings st ++ added /\
    quality_checks (fold_left insert_sensor rs st) = quality_checks st /\
    quality_seq (fold_left insert_sensor rs st) = quality_seq st /\
    incl added rs /\ (length added <= length rs)%nat.
Proof.
  revert st; induction rs as [|r rs IH]; intros st; simpl.
  - exists []. rewrite app_nil_r. repeat split; [apply incl_refl|simpl; lia].
  - destruct (IH (insert_sensor st r)) as [added [Hs [Hq [Hn [Hi Hl]]]]].
    unfold insert_sensor in *. destruct (pk_conflict r (sensor_readings st)).
    + exists added. repeat split; try assumption; [now apply incl_tl|simpl; lia].
    + simpl in *. exists (r :: added). rewrite Hs, <- app_assoc. simpl.
      repeat split; try assumption; [|lia].
      intros x [<- | Hx]; [now left|right; now apply Hi].
Qed.

(** A load of sensor readings only appends: the readings already stored
    stay as they are and where they are, the quality checks are not
    touched, and the count returned is the number of rows appended,
    between 0 and the number of rows of the dataset. *)
Theorem load_sensor_only_appends `{PyLib} (conn conn' : Store) (df : DataFrame)
        (chunk_size n : Z) :
  load_sensor_readings conn df chunk_size = Ok (conn', n) ->
  exists added,
    sensor_readings conn' = sensor_readings conn ++ added /\
    quality_checks conn' = quality_checks conn /\
    n = Z.of_nat (length added) /\
    0 <= n <= Z.of_nat (length (rows df)).
Proof.
  unfold load_sensor_readings.
  destruct (tuples_of sensor_table_cols "timestamp" df) as [rs|e] eqn:Et;
    cbn [bind]; [|discriminate].
  destruct (_chunked rs chunk_size) as [batches|e] eqn:Ec; cbn [bind]; [|discriminate].
  intros Hl. apply Ok_inj in Hl.
  assert (Hc' : conn' = fold_left (executemany insert_sensor) batches conn)
    by (now inversion Hl).
  assert (Hn : n = count_sensor (fold_left (executemany insert_sensor) batches conn)
                   - count_sensor conn) by (now inversion Hl).
  clear Hl. subst conn'.
  unfold executemany in *. rewrite fold_left_concat in *.
  destruct (insert_sensor_fold_appends (concat batches) conn)
    as [added [Hs [Hq [_ [_ Hlen]]]]].
  exists added. split; [assumption|]. split; [assumption|].
  assert (Hb : (length (concat batches) <= length (rows df))%nat).
  { rewrite <- (tuples_of_length _ _ _ _ Et).
    destruct (chunked_cases _ _ _ Ec) as [[_ ->] | [_ ->]]; simpl; lia. }
  unfold count_sensor in Hn. rewrite Hs, length_app in Hn. lia.
Qed.

Lemma load_sensor_only_appends_witness :
  exists added,
    sensor_readings (fst loaded_two_rows) = sensor_readings empty_store ++ added /\
    quality_checks (fst loaded_two_rows) = quality_checks empty_store /\
    snd loaded_two_rows = Z.of_nat (length added) /\
    0 <= snd loaded_two_rows <= Z.of_nat (length (rows sensor_two_rows)).
Proof.
  apply (load_sensor_only_appends empty_store (fst loaded_two_rows) sensor_two_rows 2
           (snd loaded_two_rows)).
  vm_compute. reflexivity.
Defined.

(** A chunk size of 0 makes [range] raise before anything is inserted; a
    negative chunk size gives no batch at all: the load then succeeds,
    stores nothing and returns 0, whatever the dataset holds. *)
Theorem load_nonpositive_chunk `{PyLib} (conn : Store) (df : DataFrame)
        (rs : list (list sqlval)) :
  tuples_of sensor_table_cols "timestamp" df = Ok rs ->
  load_sensor_readings conn df 0
  = Raise (ValueError "range() arg 3 must not be zero") /\
  (forall chunk_size, chunk_size < 0 ->
     load_sensor_readings conn df chunk_size = Ok (conn, 0)).
Proof.
  intros Ht. unfold load_sensor_readings. rewrite Ht. cbn [bind]. split.
  - reflexivity.
  - intros k Hk. rewrite (chunked_negative rs k Hk). cbn [bind fold_left].
    f_equal. f_equal. lia.
Qed.

Lemma load_nonpositive_chunk_witness :
  load_sensor_readings empty_store sensor_two_rows (-5) = Ok (empty_store, 0).
Proof.
  destruct (load_nonpositive_chunk empty_store sensor_two_rows
              (match tuples_of sensor_table_cols "timestamp" sensor_two_rows with
               | Ok rs => rs | Raise _ => [] end)) as [_ Hneg].
  - vm_compute. reflexivity.
  - apply Hneg. lia.
Defined.

Lemma ordpairs_snoc {A : Type} (R : A -> A -> Prop) (l : list A) (x : A) :
  ForallOrdPairs R l -> Forall (fun a => R a x) l -> ForallOrdPairs R (l ++ [x]).
Proof.
  induction 1 as [|a l Ha Hl IH]; intros Hx; simpl.
  - repeat constructor.
  - inversion Hx as [|? ? Hax Hlx]; subst. constructor.
    + apply Forall_app. split; [assumption|]. now constructor.
    + now apply IH.
Qed.

Lemma insert_sensor_distinct (st : Store) (r : list sqlval) :
  distinct_record_ids (sensor_readings st) ->
  distinct_record_ids (sensor_readings (insert_sensor st r)).
Proof.
  intros Hd. unfold insert_sensor.
  destruct (pk_conflict r (sensor_readings st)) eqn:Ec; [assumption|].
  simpl. apply ordpairs_snoc; [assumption|].
  apply Forall_forall. intros a Ha.
  unfold pk_conflict in Ec.
  destruct (sqlval_eqb (hd SqlNull a) (hd SqlNull r)) eqn:E; [|reflexivity].
  assert (existsb (fun r' => sqlval_eqb (hd SqlNull r') (hd SqlNull r))
                  (sensor_readings st) = true).
  { apply existsb_exists. now exists a. }
  congruence.
Qed.

(** The primary key is kept: when no two stored readings share a
    record_id before a load, none do after it. *)
Theorem load_sensor_keeps_ids_distinct `{PyLib} (conn conn' : Store) (df : DataFrame)
        (chunk_size n : Z) :
  distinct_record_ids (sensor_readings conn) ->
  load_sensor_readings conn df chunk_size = Ok (conn', n) ->
  distinct_record_ids (sensor_readings conn').
Proof.
  intros Hd. unfold load_sensor_readings.
  destruct (tuples_of sensor_table_cols "timestamp" df) as [rs|e];
    cbn [bind]; [|discriminate].
  destruct (_chunked rs chunk_size) as [batches|e]; cbn [bind]; [|discriminate].
  intros Hl. apply Ok_inj in Hl.
  assert (Hc' : conn' = fold_left (executemany insert_sensor) batches conn)
    by (now inversion Hl).
  clear Hl. subst conn'. unfold executemany. rewrite fold_left_concat.
  generalize (concat batches) as l. intros l. revert conn Hd.
  induction l as [|r l IH]; intros conn Hd; simpl; [assumption|].
  apply IH. now apply insert_sensor_distinct.
Qed.

Lemma load_sensor_keeps_ids_distinct_witness :
  distinct_record_ids (sensor_readings (fst loaded_two_rows)).
Proof.
  apply (load_sensor_keeps_ids_distinct empty_store (fst loaded_two_rows)
           sensor_two_rows 2 (snd loaded_two_rows)).
  - constructor.
  - vm_compute. reflexivity.
Defined.

(** The output of the standardizer can be loaded again and again: after
    a first load, a second load of the same standardized dataset returns
    0 and leaves the store as it is. *)
Theorem standardized_reload_adds_nothing `{PyLib} (df out : DataFrame)
        (conn conn1 : Store) (chunk_size n1 : Z) :
  standardize_sensor_data df = Ok out ->
  0 < chunk_size ->
  load_sensor_readings conn out chunk_size = Ok (conn1, n1) ->
  load_sensor_readings conn1 out chunk_size = Ok (conn1, 0).
Proof.
  intros Hs Hk Hl. apply (sensor_reload_adds_nothing conn conn1 out chunk_size n1 Hk);
    [|assumption].
  destruct (standardize_rows df out Hs) as [Hlen Hrows].
  intros [l r'] Hin. apply In_nth_error in Hin as [i Hi].
  assert (Hlt : (i < length (kept_rows df))%nat).
  { rewrite <- Hlen. apply nth_error_Some. congruence. }
  destruct (nth_error (kept_rows df) i) as [[l0 r0]|] eqn:Ek.
  - destruct (Hrows i l0 r0 Ek) as [r1 [Hn1 [_ [_ [_ Hid]]]]].
    rewrite Hi in Hn1. injection Hn1 as -> ->. simpl. eauto.
  - apply nth_error_None in Ek. lia.
Qed.

Lemma standardized_reload_adds_nothing_witness :
  load_sensor_readings
    (fst (match load_sensor_readings empty_store standardized_no_machine 2 with
          | Ok x => x | Raise _ => (empty_store, 0) end))
    standardized_no_machine 2
  = Ok (fst (match load_sensor_readings empty_store standardized_no_machine 2 with
             | Ok x => x | Raise _ => (empty_store, 0) end), 0).
Proof.
  apply (standardized_reload_adds_nothing sensor_no_machine standardized_no_machine
           empty_store _ 2
           (snd (match load_sensor_readings empty_store standardized_no_machine 2 with
                 | Ok x => x | Raise _ => (empty_store, 0) end))).
  - vm_compute. reflexivity.
  - lia.
  - vm_compute. reflexivity.
Defined.

(** ** Reloading quality checks and hourly summaries *)

Lemma adapt_refl `{PyLib} (c : cell) :
  notna c = true -> sqlval_eqb (adapt c) (adapt c) = true.
Proof.
  unfold notna. destruct c as [| |s|z|x|t]; simpl; try discriminate; intros Hn.
  - apply String.eqb_refl.
  - apply Z.eqb_refl.
  - destruct (is_nan x) eqn:E; [discriminate|]. simpl.
    unfold is_nan in E. now apply negb_false_iff in E.
  - apply String.eqb_refl.
Qed.

Lemma adapt_timestamp_refl `{PyLib} (c : cell) (v : sqlval) :
  adapt_timestamp c = Ok v -> notna c = true -> sqlval_eqb v v = true.
Proof.
  unfold notna. destruct c as [| |s|z|x|t]; simpl; try discriminate.
  - destruct (is_nan x); [discriminate|discriminate].
  - intros [= <-] _. apply String.eqb_refl.
Qed.

Lemma tuple_of_refl `{PyLib} (cols : list string) (ts : string) (r : row) (t : list sqlval) :
  tuple_of cols ts r = Ok t ->
  forallb (fun c => notna (r c)) cols = true ->
  tuple_eqb t t = true.
Proof.
  unfold tuple_of. revert t; induction cols as [|c cols IH]; intros t; simpl.
  - now intros [= <-].
  - destruct (String.eqb c ts) eqn:Ec.
    + destruct (adapt_timestamp (r c)) as [v|e] eqn:Ev; cbn [bind]; [|discriminate].
      destruct (mapM _ cols) as [vs|e]; cbn [bind]; [|discriminate].
      intros [= <-] Hn. apply andb_true_iff in Hn as [Hc Hn]. simpl.
      rewrite (adapt_timestamp_refl _ _ Ev Hc). now apply IH.
    + cbn [bind]. destruct (mapM _ cols) as [vs|e]; cbn [bind]; [|discriminate].
      intros [= <-] Hn. apply andb_true_iff in Hn as [Hc Hn]. simpl.
      rewrite (adapt_refl _ Hc). now apply IH.
Qed.

Lemma forallb_ext_in {A : Type} (f g : A -> bool) (l : list A) :
  (forall a, In a l -> f a = g a) -> forallb f l = forallb g l.
Proof.
  induction l as [|a l IH]; intros Hfg; simpl; [reflexivity|].
  rewrite (Hfg a) by now left. rewrite IH; [reflexivity|].
  intros a' Ha'. apply Hfg. now right.
Qed.

(** The tuples of a frame come from its rows. *)
Lemma tuples_of_In `{PyLib} (cols : list string) (ts : string) (df : DataFrame)
      (rs : list (list sqlval)) (t : list sqlval) :
  tuples_of cols ts df = Ok rs -> In t rs ->
  exists ir r', In ir (rows df) /\ tuple_of cols ts r' = Ok t /\
                forall c, In c cols -> r' c = snd ir c.
Proof.
  unfold tuples_of, select.
  destruct (first_missing cols (columns df)); [discriminate|].
  cbn [bind rows]. intros Hm Hin.
  destruct (mapM_In _ _ _ _ Hm Hin) as [ir' [Hin' Ht]].
  apply in_map_iff in Hin' as [ir [<- Hir]].
  exists ir. eexists. split; [assumption|]. split; [exact Ht|].
  intros c Hc. cbn [snd]. apply mem_In in Hc. now rewrite Hc.
Qed.

Lemma ux_conflict_grows (st : Store) (r r' : list sqlval) :
  ux_conflict r (quality_checks st) = true ->
  ux_conflict r (quality_checks (insert_quality st r')) = true.
Proof.
  intros Hc. unfold insert_quality.
  destruct (ux_conflict r' (quality_checks st)); cbn [quality_checks]; [assumption|].
  unfold ux_conflict in *. rewrite existsb_app, Hc. reflexivity.
Qed.

Lemma ux_conflict_inserted (st : Store) (r : list sqlval) :
  tuple_eqb r r = true ->
  ux_conflict r (quality_checks (insert_quality st r)) = true.
Proof.
  intros Hk. unfold insert_quality.
  destruct (ux_conflict r (quality_checks st)) eqn:Ec; cbn [quality_checks];
    [assumption|].
  unfold ux_conflict. rewrite existsb_app. simpl.
  rewrite Hk. now rewrite orb_true_r.
Qed.

Lemma ux_conflict_fold (rs : list (list sqlval)) (st : Store) (r : list sqlval) :
  ux_conflict r (quality_checks st) = true ->
  ux_conflict r (quality_checks (fold_left insert_quality rs st)) = true.
Proof.
  revert st; induction rs as [|a rs IH]; intros st Hc; simpl; [assumption|].
  apply IH. now apply ux_conflict_grows.
Qed.

Lemma loaded_checks_conflict (rs : list (list sqlval)) (st : Store) (r : list sqlval) :
  In r rs -> tuple_eqb r r = true ->
  ux_conflict r (quality_checks (fold_left insert_quality rs st)) = true.
Proof.
  revert st; induction rs as [|a rs IH]; intros st Hin Hk; simpl in *;
    [contradiction|].
  destruct Hin as [<- | Hin].
  - apply ux_conflict_fold. now apply ux_conflict_inserted.
  - now apply IH.
Qed.

(** Rows that are all stored already leave the tables as they are and
    advance the counter by one each. *)
Lemma insert_known_checks (rs : list (list sqlval)) (st : Store) :
  (forall r, In r rs -> ux_conflict r (quality_checks st) = true) ->
  fold_left insert_quality rs st
  = mkStore (sensor_readings st) (quality_checks st)
            (quality_seq st + Z.of_nat (length rs)).
Proof.
  revert st; induction rs as [|a rs IH]; intros st Hc.
  - cbn [fold_left length Z.of_nat]. rewrite Z.add_0_r. now destruct st.
  - cbn [fold_left]. unfold insert_quality at 2. rewrite (Hc a) by now left.
    rewrite IH by (intros r Hr; cbn [quality_checks]; apply Hc; now right).
    cbn [sensor_readings quality_checks quality_seq]. f_equal.
    rewrite length_cons. lia.
Qed.

(** Where the idempotence of the quality load holds: a dataset without
    a missing value in its five columns is skipped as a whole by a
    second load, which returns 0 and leaves the stored checks and
    readings as they are; only the counter of check_id advances, by one
    for every row offered. *)
Theorem quality_reload_without_missing `{PyLib} (conn conn1 : Store) (df : DataFrame)
        (chunk_size n1 : Z) :
  0 < chunk_size ->
  (forall ir, In ir (rows df) ->
     forallb (fun c => notna (snd ir c)) quality_cols = true) ->
  load_quality_checks conn df chunk_size = Ok (conn1, n1) ->
  exists conn2,
    load_quality_checks conn1 df chunk_size = Ok (conn2, 0) /\
    quality_checks conn2 = quality_checks conn1 /\
    sensor_readings conn2 = sensor_readings conn1 /\
    quality_seq conn2 = quality_seq conn1 + Z.of_nat (length (rows df)).
Proof.
  intros Hk Hfull. unfold load_quality_checks.
  destruct (tuples_of quality_cols "timestamp" df) as [rs|e] eqn:Et;
    cbn [bind]; [|discriminate].
  destruct (executemany_chunks insert_quality conn rs chunk_size Hk)
    as [batches [Hb Hf]].
  destruct (executemany_chunks insert_quality conn1 rs chunk_size Hk)
    as [batches1 [Hb1 Hf1]].
  assert (batches1 = batches) by congruence. subst batches1.
  rewrite Hb. cbn [bind]. rewrite Hf, Hf1. clear Hb Hb1 Hf Hf1.
  assert (Hkeys : forall r, In r rs -> tuple_eqb r r = true).
  { intros r Hr. destruct (tuples_of_In _ _ _ _ _ Et Hr) as [ir [r' [Hin [Ht Hsame]]]].
    apply (tuple_of_refl _ _ _ _ Ht).
    rewrite <- (Hfull ir Hin). apply forallb_ext_in.
    intros c Hc. now rewrite Hsame. }
  intros Hl. apply Ok_inj in Hl.
  assert (Hc : conn1 = fold_left insert_quality rs conn) by (now inversion Hl).
  clear Hl. subst conn1.
  rewrite (insert_known_checks rs (fold_left insert_quality rs conn))
    by (intros r Hr; apply loaded_checks_conflict; [assumption|now apply Hkeys]).
  eexists. split; [|cbn [quality_checks sensor_readings quality_seq]].
  - f_equal. f_equal. unfold count_quality. cbn [quality_checks]. lia.
  - rewrite (tuples_of_length _ _ _ _ Et). now repeat split.
Qed.

Lemma quality_reload_without_missing_witness :
  exists conn2,
    load_quality_checks
      (mkStore [] [(1, [SqlText "5"; SqlText "Line_1"; SqlText "machine_1";
                        SqlText "fail"; SqlText "fault"])] 1)
      quality_fail 5000
    = Ok (conn2, 0) /\
    quality_checks conn2
    = [(1, [SqlText "5"; SqlText "Line_1"; SqlText "machine_1";
            SqlText "fail"; SqlText "fault"])] /\
    sensor_readings conn2 = [] /\
    quality_seq conn2 = 1 + 1.
Proof.
  apply (quality_reload_without_missing empty_store
           (mkStore [] [(1, [SqlText "5"; SqlText "Line_1"; SqlText "machine_1";
                             SqlText "fail"; SqlText "fault"])] 1)
           quality_fail 5000 1).
  - lia.
  - intros ir [<- | []]. reflexivity.
  - vm_compute. reflexivity.
Defined.

(** ** The hourly summary table *)

Lemma mapM_firstn {A B : Type} (f : A -> Res B) (n : nat) (l : list A) (bs : list B) :
  mapM f l = Ok bs -> mapM f (firstn n l) = Ok (firstn n bs).
Proof.
  revert l bs; induction n as [|n IH]; intros l bs Hm; [reflexivity|].
  destruct l as [|a l]; simpl in *.
  - now injection Hm as <-.
  - destruct (f a) as [b|e]; simpl in *; [|discriminate].
    destruct (mapM f l) as [bs0|e] eqn:El; simpl in *; [|discriminate].
    injection Hm as <-. simpl. now rewrite (IH l bs0 El).
Qed.

Lemma summary_key_of_tuple `{PyLib} (r : row) (t : list sqlval) :
  tuple_of hourly_cols "hour" r = Ok t ->
  tuple_of summary_key_cols "hour" r = Ok (summary_key t).
Proof. intros Ht. exact (mapM_firstn _ 3 _ _ Ht). Qed.

Lemma map_snd_filter {A B : Type} (p : B -> bool) (l : list (A * B)) :
  map snd (filter (fun x => p (snd x)) l) = filter p (map snd l).
Proof.
  induction l as [|[a b] l IH]; simpl; [reflexivity|].
  destruct (p b); simpl; now rewrite IH.
Qed.

(** The stored values after a run of INSERT OR REPLACE. *)
Lemma summary_values_fold (rs : list (list sqlval)) (t : SummaryTable) :
  summary_values (fold_left insert_or_replace rs t) = replace_all rs (summary_values t).
Proof.
  unfold replace_all. revert t; induction rs as [|r rs IH]; intros t; simpl;
    [reflexivity|].
  rewrite IH. f_equal. unfold summary_values, insert_or_replace. simpl.
  rewrite map_app. simpl. f_equal.
  apply (map_snd_filter (fun v => negb (same_summary_key v r))).
Qed.

Lemma filter_filter {A : Type} (p q : A -> bool) (l : list A) :
  filter q (filter p l) = filter (fun a => p a && q a) l.
Proof.
  induction l as [|a l IH]; simpl; [reflexivity|].
  destruct (p a); simpl; [destruct (q a); now rewrite IH|assumption].
Qed.

Lemma replace_all_split (rs vals : list (list sqlval)) :
  replace_all rs vals = filter (untouched_by rs) vals ++ replace_all rs [].
Proof.
  unfold replace_all. revert vals; induction rs as [|r rs IH]; intros vals; simpl.
  - rewrite app_nil_r. symmetry. apply forallb_filter_id.
    now apply forallb_forall.
  - rewrite IH, (IH [r]), filter_app, filter_filter, app_assoc. reflexivity.
Qed.

Lemma replace_all_incl (rs vals : list (list sqlval)) (v : list sqlval) :
  In v (replace_all rs vals) -> In v vals \/ In v rs.
Proof.
  unfold replace_all. revert vals; induction rs as [|r rs IH]; intros vals; simpl.
  - now left.
  - intros Hin. destruct (IH _ Hin) as [Hv | Hv]; [|right; now right].
    apply in_app_or in Hv as [Hv | [<- | []]].
    + left. now apply filter_In in Hv.
    + right. now left.
Qed.

Lemma replace_all_twice (rs vals : list (list sqlval)) :
  (forall r, In r rs -> same_summary_key r r = true) ->
  replace_all rs (replace_all rs vals) = replace_all rs vals.
Proof.
  intros Hrefl.
  rewrite (replace_all_split rs (replace_all rs vals)).
  rewrite (replace_all_split rs vals) at 1.
  rewrite filter_app, filter_filter.
  rewrite (replace_all_split rs vals). f_equal.
  replace (filter (untouched_by rs) (replace_all rs [])) with (@nil (list sqlval)).
  - rewrite app_nil_r. apply filter_ext. intros a. now destruct (untouched_by rs a).
  - symmetry.
    assert (Hall : forall v, In v (replace_all rs []) -> untouched_by rs v = false).
    { intros v Hv. destruct (replace_all_incl _ _ _ Hv) as [[] | Hin].
      unfold untouched_by. apply not_true_is_false. intros Hf.
      rewrite forallb_forall in Hf. specialize (Hf v Hin).
      rewrite (Hrefl v Hin) in Hf. discriminate. }
    induction (replace_all rs []) as [|v l IHl]; simpl; [reflexivity|].
    rewrite (Hall v) by now left. apply IHl. intros v' Hv'. apply Hall. now right.
Qed.

Lemma hourly_chunks (conn : SummaryTable) (rs : list (list sqlval)) (chunk_size : Z) :
  0 < chunk_size ->
  exists batches,
    _chunked rs chunk_size = Ok batches /\
    fold_left (fun c batch => fold_left insert_or_replace batch c) batches conn
    = fold_left insert_or_replace rs conn.
Proof.
  intros Hk. destruct (chunked_concat rs chunk_size Hk) as [chunks [Hc Hcat]].
  exists chunks. split; [assumption|]. now rewrite fold_left_concat, Hcat.
Qed.

Lemma count_hourly_values (t : SummaryTable) :
  count_hourly t = Z.of_nat (length (summary_values t)).
Proof. unfold count_hourly, summary_values. now rewrite length_map. Qed.

(** INSERT OR REPLACE makes the reload of an hourly summary harmless
    when no row lacks its hour, line or machine: a second load of the
    same summary returns 0 and the table holds the same values in the
    same order as after the first load (only the summary_id of the
    replaced rows is new). *)
Theorem hourly_reload_keeps_values `{PyLib} (conn conn1 : SummaryTable) (df : DataFrame)
        (chunk_size n1 : Z) :
  0 < chunk_size ->
  (forall ir, In ir (rows df) ->
     forallb (fun c => notna (snd ir c)) summary_key_cols = true) ->
  load_hourly_summary conn df chunk_size = Ok (conn1, n1) ->
  exists conn2,
    load_hourly_summary conn1 df chunk_size = Ok (conn2, 0) /\
    summary_values conn2 = summary_values conn1.
Proof.
  intros Hk Hfull. unfold load_hourly_summary.
  destruct (tuples_of hourly_cols "hour" df) as [rs|e] eqn:Et;
    cbn [bind]; [|discriminate].
  destruct (hourly_chunks conn rs chunk_size Hk) as [batches [Hb Hf]].
  destruct (hourly_chunks conn1 rs chunk_size Hk) as [batches1 [Hb1 Hf1]].
  assert (batches1 = batches) by congruence. subst batches1.
  rewrite Hb. cbn [bind]. rewrite Hf, Hf1. clear Hb Hb1 Hf Hf1.
  assert (Hkeys : forall r, In r rs -> same_summary_key r r = true).
  { intros r Hr. destruct (tuples_of_In _ _ _ _ _ Et Hr) as [ir [r' [Hin [Ht Hsame]]]].
    apply summary_key_of_tuple in Ht. unfold same_summary_key.
    apply (tuple_of_refl _ _ _ _ Ht).
    rewrite <- (Hfull ir Hin). apply forallb_ext_in.
    intros c Hc. rewrite Hsame; [reflexivity|].
    unfold summary_key_cols, hourly_cols in *. simpl in *. tauto. }
  intros Hl. apply Ok_inj in Hl.
  assert (Hc : conn1 = fold_left insert_or_replace rs conn) by (now inversion Hl).
  clear Hl. subst conn1.
  assert (Hv : summary_values (fold_left insert_or_replace rs
                                 (fold_left insert_or_replace rs conn))
               = summary_values (fold_left insert_or_replace rs conn)).
  { rewrite !summary_values_fold. now apply replace_all_twice. }
  eexists. split; [|exact Hv].
  f_equal. f_equal. rewrite !count_hourly_values, Hv. lia.
Qed.

Lemma hourly_reload_keeps_values_witness :
  exists conn2,
    load_hourly_summary
      (fst (match load_hourly_summary empty_summary hourly_one 5000 with
            | Ok x => x | Raise _ => (empty_summary, 0) end))
      hourly_one 5000 = Ok (conn2, 0) /\
    summary_values conn2
    = summary_values
        (fst (match load_hourly_summary empty_summary hourly_one 5000 with
              | Ok x => x | Raise _ => (empty_summary, 0) end)).
Proof.
  apply (hourly_reload_keeps_values empty_summary _ hourly_one 5000
           (snd (match load_hourly_summary empty_summary hourly_one 5000 with
                 | Ok x => x | Raise _ => (empty_summary, 0) end))).
  - lia.
  - intros ir [<- | []]. reflexivity.
  - vm_compute. reflexivity.
Defined.

Lemma adapt_stored_null `{PyLib} (c : cell) : stored_null c = true -> adapt c = SqlNull.
Proof.
  destruct c as [| |s|z|x|t]; simpl; try discriminate; [reflexivity|].
  now intros ->.
Qed.

Lemma tuple_eqb_null_third (x : list sqlval) (a b : sqlval) :
  tuple_eqb x [a; b; SqlNull] = false.
Proof.
  destruct x as [|x1 x]; [reflexivity|].
  destruct x as [|x2 x]; simpl; [apply andb_false_r|].
  destruct x as [|x3 x]; simpl; [now rewrite !andb_false_r|].
  replace (sqlval_eqb x3 SqlNull) with false by (now destruct x3).
  simpl. now rewrite !andb_false_r.
Qed.

Lemma replace_all_no_collision (rs vals : list (list sqlval)) :
  (forall r v, In r rs -> same_summary_key v r = false) ->
  replace_all rs vals = vals ++ rs.
Proof.
  unfold replace_all. revert vals; induction rs as [|r rs IH]; intros vals Hno; simpl.
  - now rewrite app_nil_r.
  - rewrite IH by (intros r' v Hr'; apply Hno; now right).
    rewrite <- app_assoc. simpl. f_equal.
    apply forallb_filter_id. apply forallb_forall. intros v _.
    rewrite (Hno r v) by now left. reflexivity.
Qed.

(** The groups of the hourly summary whose machine is missing (the
    aggregator keeps them, [dropna=False]) are stored with a NULL
    machine_id, collide with nothing and are never replaced: a load of
    such rows appends all of them, every time. *)
Theorem hourly_rows_without_machine_accumulate `{PyLib} (conn conn' : SummaryTable)
        (df : DataFrame) (chunk_size n : Z) :
  0 < chunk_size ->
  (forall ir, In ir (rows df) -> stored_null (snd ir "machine_id") = true) ->
  load_hourly_summary conn df chunk_size = Ok (conn', n) ->
  n = Z.of_nat (length (rows df)) /\
  exists rs,
    tuples_of hourly_cols "hour" df = Ok rs /\
    summary_values conn' = summary_values conn ++ rs.
Proof.
  intros Hk Hnull. unfold load_hourly_summary.
  destruct (tuples_of hourly_cols "hour" df) as [rs|e] eqn:Et;
    cbn [bind]; [|discriminate].
  destruct (hourly_chunks conn rs chunk_size Hk) as [batches [Hb Hf]].
  rewrite Hb. cbn [bind]. rewrite Hf. clear Hb Hf.
  assert (Hno : forall r v, In r rs -> same_summary_key v r = false).
  { intros r v Hr. destruct (tuples_of_In _ _ _ _ _ Et Hr) as [ir [r' [Hin [Ht Hsame]]]].
    apply summary_key_of_tuple in Ht. unfold same_summary_key.
    unfold tuple_of, summary_key_cols in Ht.
    cbn [mapM String.eqb Ascii.eqb Bool.eqb] in Ht.
    destruct (adapt_timestamp (r' "hour")) as [v1|e]; cbn [bind] in Ht; [|discriminate].
    apply Ok_inj in Ht. rewrite <- Ht.
    rewrite (Hsame "machine_id") by (unfold hourly_cols; simpl; tauto).
    rewrite (adapt_stored_null _ (Hnull ir Hin)).
    apply tuple_eqb_null_third. }
  intros Hl. apply Ok_inj in Hl.
  assert (Hc : conn' = fold_left insert_or_replace rs conn) by (now inversion Hl).
  assert (Hn : n = count_hourly (fold_left insert_or_replace rs conn) - count_hourly conn)
    by (now inversion Hl).
  clear Hl. subst conn'.
  assert (Hv : summary_values (fold_left insert_or_replace rs conn)
               = summary_values conn ++ rs).
  { rewrite summary_values_fold. now apply replace_all_no_collision. }
  split.
  - rewrite Hn, !count_hourly_values, Hv, length_app.
    rewrite (tuples_of_length _ _ _ _ Et). lia.
  - exists rs. split; [reflexivity|exact Hv].
Qed.

Lemma hourly_rows_without_machine_accumulate_witness :
  snd (match load_hourly_summary
               (fst (match load_hourly_summary empty_summary hourly_no_machine 5000 with
                     | Ok x => x | Raise _ => (empty_summary, 0) end))
               hourly_no_machine 5000 with
       | Ok x => x | Raise _ => (empty_summary, 0) end)
  = Z.of_nat (length (rows hourly_no_machine)).
Proof.
  apply (hourly_rows_without_machine_accumulate
           (fst (match load_hourly_summary empty_summary hourly_no_machine 5000 with
                 | Ok x => x | Raise _ => (empty_summary, 0) end))
           (fst (match load_hourly_summary
                         (fst (match load_hourly_summary empty_summary
                                       hourly_no_machine 5000 with
                               | Ok x => x | Raise _ => (empty_summary, 0) end))
                         hourly_no_machine 5000 with
                 | Ok x => x | Raise _ => (empty_summary, 0) end))
           hourly_no_machine 5000).
  - lia.
  - intros ir [<- | []]. reflexivity.
  - vm_compute. reflexivity.
Defined.

(** * Further properties of the cleaner *)

Lemma mem_add_col_other (x c : string) (cols : list string) :
  String.eqb x c = false -> mem x (add_col c cols) = mem x cols.
Proof.
  intros E. unfold add_col. destruct (mem c cols); [reflexivity|].
  unfold mem. rewrite existsb_app. simpl. rewrite E. now rewrite !orb_false_r.
Qed.

Lemma has_col_assign_other (x c : string) (f : row -> cell) (df : DataFrame) :
  String.eqb x c = false -> has_col x (assign c f df) = has_col x df.
Proof. intros E. unfold has_col, assign. simpl. now apply mem_add_col_other. Qed.

Lemma fold_assign_has_col_other (g : string -> row -> cell) (x : string)
      (cols : list string) (df : DataFrame) :
  mem x cols = false ->
  has_col x (fold_left (assign_step g) cols df) = has_col x df.
Proof.
  revert df; induction cols as [|c cols IH]; intros df Hx; simpl; [reflexivity|].
  simpl in Hx. apply orb_false_iff in Hx as [Hc Hx].
  rewrite IH by assumption. now apply has_col_assign_other.
Qed.

Lemma coerce_sensor_timestamp_col `{PyLib} (df : DataFrame) :
  has_col "timestamp" (coerce_sensor df) = has_col "timestamp" (standardize_columns df).
Proof.
  unfold coerce_sensor. cbv zeta.
  change (fun (d : DataFrame) (c : string) =>
            assign c (fun r => to_numeric (replace_error (r c))) d)
    with (assign_step (fun c r => to_numeric (replace_error (r c)))).
  rewrite fold_assign_has_col_other.
  - destruct (has_col "timestamp" (standardize_columns df)) eqn:Hts.
    + destruct (negb _ && _).
      * apply mem_add_col. apply mem_add_col_self.
      * apply mem_add_col_self.
    + destruct (negb _ && _); [|assumption].
      now rewrite has_col_assign_other.
  - unfold sensor_cols_of.
    destruct (mem "timestamp" (filter _ sensor_names)) eqn:E; [|reflexivity].
    apply mem_filter in E. discriminate.
Qed.

(** The cleaner needs the timestamp column and nothing else: it
    succeeds on every frame whose normalised column names include
    timestamp, and raises KeyError('timestamp'), from the sort, on every
    other frame, empty or not. *)
Theorem clean_succeeds_iff_timestamp `{PyLib} (df : DataFrame) :
  (has_col "timestamp" (standardize_columns df) = true ->
   exists out, clean_sensor_data df = Ok out) /\
  (has_col "timestamp" (standardize_columns df) = false ->
   clean_sensor_data df = Raise (KeyError "timestamp")).
Proof.
  split.
  - intros Hts. destruct (clean_sensor_data_ok df Hts) as [_ Hok].
    cbv zeta in Hok. eexists. exact Hok.
  - intros Hts. rewrite clean_sensor_data_unfold.
    unfold clean_sorted, sort_values, sort_cols_of. cbv zeta.
    change (has_col "machine_id" (validate_ranges (coerce_sensor df)))
      with (has_col "machine_id" (coerce_sensor df)).
    change (columns (validate_ranges (coerce_sensor df)))
      with (columns (coerce_sensor df)).
    rewrite <- coerce_sensor_timestamp_col in Hts. unfold has_col in *.
    destruct (mem "machine_id" (columns (coerce_sensor df))) eqn:Em; simpl;
      rewrite ?Em, Hts; reflexivity.
Qed.

Lemma clean_succeeds_iff_timestamp_witness :
  clean_sensor_data (frame_of ["machine_id"; "temperature"] [[Int 1; Flt 50]])
  = Raise (KeyError "timestamp").
Proof.
  apply (clean_succeeds_iff_timestamp
           (frame_of ["machine_id"; "temperature"] [[Int 1; Flt 50]])).
  reflexivity.
Defined.

Lemma assign_existing_columns (c : string) (f : row -> cell) (df : DataFrame) :
  has_col c df = true -> columns (assign c f df) = columns df.
Proof. intros Hc. unfold assign, add_col. simpl. unfold has_col in Hc. now rewrite Hc. Qed.

Lemma fold_assign_columns (g : string -> row -> cell) (cols : list string) (df : DataFrame) :
  (forall c, In c cols -> has_col c df = true) ->
  columns (fold_left (assign_step g) cols df) = columns df.
Proof.
  revert df; induction cols as [|c cols IH]; intros df Hc; simpl; [reflexivity|].
  assert (Hcol : columns (assign_step g df c) = columns df)
    by (apply assign_existing_columns, Hc; now left).
  rewrite IH; [assumption|].
  intros c' Hc'. unfold has_col. rewrite Hcol. apply Hc. now right.
Qed.

(** After the loop [df[c] = pd.to_numeric(...)] over [cols], the cells
    of these columns are floats. *)
Lemma fold_numeric_floats `{PyLib} (cols : list string) (df : DataFrame) (c : string) :
  In c cols \/ (forall ir, In ir (rows df) -> exists x, snd ir c = Flt x) ->
  forall ir, In ir (rows (fold_left
                            (assign_step (fun c r => to_numeric (replace_error (r c))))
                            cols df)) ->
             exists x, snd ir c = Flt x.
Proof.
  revert df; induction cols as [|c0 cols IH]; intros df Hc; simpl.
  - destruct Hc as [[] | Hc]. exact Hc.
  - apply IH. destruct (String.eqb c c0) eqn:E.
    + right. apply String.eqb_eq in E as <-. intros ir Hin.
      unfold assign_step, assign in Hin. cbn [rows] in Hin.
      apply in_map_iff in Hin as [ir0 [<- _]]. cbn [snd]. unfold upd.
      rewrite String.eqb_refl. unfold to_numeric.
      destruct (replace_error (snd ir0 c)); eexists; reflexivity.
    + destruct Hc as [[-> | Hc] | Hc].
      * now rewrite String.eqb_refl in E.
      * now left.
      * right. intros ir Hin.
        unfold assign_step, assign in Hin. cbn [rows] in Hin.
        apply in_map_iff in Hin as [ir0 [<- Hin0]]. cbn [snd]. unfold upd.
        rewrite E. now apply Hc.
Qed.

Lemma coerce_sensor_floats `{PyLib} (df : DataFrame) (c : string) :
  In c (sensor_cols_of (coerce_sensor df)) ->
  forall ir, In ir (rows (coerce_sensor df)) -> exists x, snd ir c = Flt x.
Proof.
  unfold coerce_sensor. cbv zeta.
  change (fun (d : DataFrame) (c : string) =>
            assign c (fun r => to_numeric (replace_error (r c))) d)
    with (assign_step (fun c r => to_numeric (replace_error (r c)))).
  set (d := if negb (has_col "power" _) && _ then _ else _).
  intros Hc. apply fold_numeric_floats. left.
  unfold sensor_cols_of in Hc at 1. unfold has_col in Hc at 1.
  rewrite fold_assign_columns in Hc.
  - exact Hc.
  - intros c' Hc'. now apply filter_In in Hc'.
Qed.

Lemma range_concrete (col : string) (lo hi : float) :
  range_of col ranges = Some (lo, hi) ->
  mem col sensor_names = true /\ within lo hi NaN = true /\
  String.eqb col "data_quality" = false.
Proof.
  unfold ranges. simpl.
  destruct (String.eqb col "temperature") eqn:E1.
  { apply String.eqb_eq in E1 as ->. intros [= <- <-]. now vm_compute. }
  destruct (String.eqb col "pressure") eqn:E2.
  { apply String.eqb_eq in E2 as ->. intros [= <- <-]. now vm_compute. }
  destruct (String.eqb col "vibration") eqn:E3.
  { apply String.eqb_eq in E3 as ->. intros [= <- <-]. now vm_compute. }
  discriminate.
Qed.

(** The forward fill keeps a property of the cells of a column that NaN
    has. *)
Lemma fill_rows_keeps (P : cell -> bool) (c : string) (grp : row -> skey)
      (cols : list string) (last : skey -> string -> option cell)
      (rs : list (nat * row)) :
  P NaN = true ->
  (forall ir, In ir rs -> P (snd ir c) = true) ->
  (forall k v, last k c = Some v -> P v = true) ->
  forall ir, In ir (fill_rows grp cols last rs) -> P (snd ir c) = true.
Proof.
  intros Hnan. revert last; induction rs as [|[l r] rs IH]; intros last Hrs Hlast ir;
    simpl; [intros []|].
  assert (Hr : P (r c) = true) by (apply (Hrs (l, r)); now left).
  intros [<- | Hin].
  - cbn [snd]. unfold fill_in_group, blank_row, fill_row.
    destruct (grp r) as [z|s|] eqn:Eg.
    + destruct (mem c cols && isna (r c)); [|assumption].
      destruct (last (KNum z) c) as [v|] eqn:El; [now apply (Hlast (KNum z))|assumption].
    + destruct (mem c cols && isna (r c)); [|assumption].
      destruct (last (KStr s) c) as [v|] eqn:El; [now apply (Hlast (KStr s))|assumption].
    + destruct (mem c cols); assumption.
  - apply (IH (step_last grp last r)); [|  |assumption].
    + intros ir' Hir'. apply Hrs. now right.
    + intros k v. unfold step_last.
      assert (Hcase : forall kx,
                (if skey_eqb k kx then remember (last kx) r else last k) c = Some v ->
                P v = true).
      { intros kx. destruct (skey_eqb k kx).
        - unfold remember. destruct (isna (r c)); [apply Hlast|].
          now intros [= <-].
        - apply Hlast. }
      destruct (grp r); [apply Hcase|apply Hcase|apply Hlast].
Qed.

(** The range validation holds in the output of the cleaner: every
    temperature, pressure and vibration cell is a float that is NaN or
    lies within the range of its column, also where it was filled in. *)
Theorem clean_values_within_range `{PyLib} (df out : DataFrame) (l : nat) (r' : row)
        (col : string) (lo hi : float) :
  has_col "timestamp" (standardize_columns df) = true ->
  clean_sensor_data df = Ok out ->
  In (l, r') (rows out) ->
  range_of col ranges = Some (lo, hi) ->
  has_col col (coerce_sensor df) = true ->
  within lo hi (r' col) = true.
Proof.
  intros Hts Hc Hin Hr Hcol. destruct (clean_sensor_data_ok df Hts) as [_ Hok].
  cbv zeta in Hok. rewrite Hok in Hc. clear Hok.
  destruct (range_concrete col lo hi Hr) as [Hname [Hnan Hdq]].
  set (df0 := coerce_sensor df) in *. set (cols := sensor_cols_of df0) in *.
  apply Ok_inj in Hc. subst out.
  unfold assign_values in Hin. cbn [rows] in Hin.
  apply in_map_iff in Hin as [[[l0 rf] v] [Heq Hin]].
  apply in_combine_l in Hin. cbn [fst snd] in Heq.
  assert (Hr' : r' = upd rf "data_quality" v) by (now inversion Heq).
  clear Heq. subst r'. unfold upd. rewrite Hdq.
  assert (Hcin : In col cols).
  { apply filter_In. split; [now apply mem_In|assumption]. }
  rewrite forward_fill_rows in Hin.
  apply (fill_rows_keeps (within lo hi) col _ _ _ _ Hnan) with (ir := (l0, rf)) in Hin;
    [exact Hin| |discriminate].
  intros ir Hir.
  apply (Permutation_in _ (sorted_frame_perm df0)) in Hir.
  unfold validate_ranges, map_rows in Hir. cbn [rows] in Hir.
  apply in_map_iff in Hir as [ir0 [<- Hir0]]. cbn [snd].
  unfold invalid_cell. rewrite Hr. fold df0. rewrite Hcol. cbn [andb].
  destruct (coerce_sensor_floats df col Hcin ir0 Hir0) as [x Hx].
  fold df0 in Hx. rewrite Hx. unfold out_of_range, within.
  destruct (PrimFloat.ltb x lo) eqn:Elo; cbn [orb]; [exact Hnan|].
  destruct (PrimFloat.ltb hi x) eqn:Ehi; [exact Hnan|].
  cbn [negb andb]. now rewrite Elo, Ehi.
Qed.

Lemma clean_values_within_range_witness :
  within 0 150 (snd (row_at 1 cleaned_unsorted) "temperature") = true.
Proof.
  apply (clean_values_within_range sensor_unsorted cleaned_unsorted
           (fst (row_at 1 cleaned_unsorted)) (snd (row_at 1 cleaned_unsorted))
           "temperature" 0 150).
  - reflexivity.
  - vm_compute. reflexivity.
  - vm_compute. right. left. reflexivity.
  - reflexivity.
  - reflexivity.
Defined.

(** The quality flag is one of the three words. *)
Theorem clean_quality_vocabulary `{PyLib} (df out : DataFrame) (l : nat) (r' : row) :
  clean_sensor_data df = Ok out ->
  In (l, r') (rows out) ->
  r' "data_quality" = Str "good" \/ r' "data_quality" = Str "estimated" \/
  r' "data_quality" = Str "invalid".
Proof.
  intros Hc Hin. rewrite clean_sensor_data_unfold in Hc.
  destruct (clean_sorted df) as [s|e]; cbn [bind] in Hc; [|discriminate].
  cbv zeta in Hc. apply Ok_inj in Hc. subst out.
  unfold assign_values in Hin. cbn [rows] in Hin.
  apply in_map_iff in Hin as [[[l0 rf] v] [Heq Hin]].
  apply in_combine_r in Hin. cbn [fst snd] in Heq.
  assert (Hr' : r' = upd rf "data_quality" v) by (now inversion Heq).
  clear Heq. subst r'. unfold upd. rewrite String.eqb_refl.
  unfold quality_labels in Hin. apply in_map_iff in Hin as [[sm we] [<- _]].
  cbn [fst snd]. destruct sm; [tauto|]. destruct we; tauto.
Qed.

Lemma clean_quality_vocabulary_witness :
  snd (row_at 0 cleaned_unsorted) "data_quality" = Str "good" \/
  snd (row_at 0 cleaned_unsorted) "data_quality" = Str "estimated" \/
  snd (row_at 0 cleaned_unsorted) "data_quality" = Str "invalid".
Proof.
  apply (clean_quality_vocabulary sensor_unsorted cleaned_unsorted
           (fst (row_at 0 cleaned_unsorted))).
  - vm_compute. reflexivity.
  - vm_compute. left. reflexivity.
Defined.


(** ** Further properties of the standardizer *)

Lemma has_col_assign (x c : string) (f : row -> cell) (df : DataFrame) :
  has_col x df = true -> has_col x (assign c f df) = true.
Proof. unfold has_col, assign. simpl. apply mem_add_col. Qed.

Lemma has_col_assign_self (c : string) (f : row -> cell) (df : DataFrame) :
  has_col c (assign c f df) = true.
Proof. unfold has_col, assign. simpl. apply mem_add_col_self. Qed.

Lemma first_missing_none (cols have : list string) :
  (forall c, In c cols -> mem c have = true) -> first_missing cols have = None.
Proof.
  induction cols as [|c cols IH]; intros Hc; cbn [first_missing]; [reflexivity|].
  rewrite Hc by now left. apply IH. intros c' Hc'. apply Hc. now right.
Qed.

Lemma has_col_fold_numeric `{PyLib} (x : string) (cols : list string) (d : DataFrame) :
  has_col x d = true \/ In x cols ->
  has_col x (fold_left ensure_numeric cols d) = true.
Proof.
  revert d; induction cols as [|c cols IH]; intros d Hx; simpl.
  - destruct Hx as [Hx | []]. exact Hx.
  - apply IH. destruct Hx as [Hx | [-> | Hx]].
    + left. unfold ensure_numeric. apply has_col_assign.
      destruct (has_col c d); [assumption|now apply has_col_assign].
    + left. unfold ensure_numeric. apply has_col_assign_self.
    + now right.
Qed.

(** After the loop over the sensor names the cells of these columns are
    floats. *)
Lemma fold_ensure_numeric_floats `{PyLib} (cols : list string) (d : DataFrame) (c : string) :
  In c cols \/ (forall ir, In ir (rows d) -> exists x, snd ir c = Flt x) ->
  forall ir, In ir (rows (fold_left ensure_numeric cols d)) -> exists x, snd ir c = Flt x.
Proof.
  revert d; induction cols as [|c0 cols IH]; intros d Hc; simpl.
  - destruct Hc as [[] | Hc]. exact Hc.
  - apply IH. destruct (String.eqb c c0) eqn:E.
    + right. apply String.eqb_eq in E as <-. intros ir Hin.
      unfold ensure_numeric, assign in Hin. cbn [rows] in Hin.
      apply in_map_iff in Hin as [ir0 [<- _]]. cbn [snd]. unfold upd at 1.
      rewrite String.eqb_refl. unfold to_numeric.
      destruct (snd ir0 c); eexists; reflexivity.
    + destruct Hc as [[-> | Hc] | Hc].
      * now rewrite String.eqb_refl in E.
      * now left.
      * right. intros ir Hin.
        unfold ensure_numeric in Hin.
        assert (Hd : forall ir1,
                   In ir1 (rows (if has_col c0 d then d else assign c0 (fun _ => NaN) d)) ->
                   exists x, snd ir1 c = Flt x).
        { destruct (has_col c0 d); [exact Hc|].
          intros ir1 Hir1. unfold assign in Hir1. cbn [rows] in Hir1.
          apply in_map_iff in Hir1 as [ir0 [<- Hin0]]. cbn [snd]. unfold upd.
          rewrite E. now apply Hc. }
        unfold assign in Hin. cbn [rows] in Hin.
        apply in_map_iff in Hin as [ir0 [<- Hin0]]. cbn [snd]. unfold upd.
        rewrite E. now apply Hd.
Qed.

Lemma to_machine_str_shape `{PyLib} (x : cell) :
  _to_machine_str x = PyNone \/ exists s, _to_machine_str x = Str s.
Proof.
  unfold _to_machine_str. destruct (isna x); [now left|].
  destruct (String.eqb _ ""); [now left|].
  destruct (String.prefix "machine_" _); [right; eexists; reflexivity|].
  destruct (py_float _) as [f|]; [|right; eexists; reflexivity].
  destruct (float_trunc f); right; eexists; reflexivity.
Qed.

Lemma to_datetime_notna `{PyLib} (c : cell) :
  notna (to_datetime c) = true -> exists t, to_datetime c = Ts t.
Proof.
  unfold to_datetime. destruct c as [| |s|z|x|t]; try discriminate.
  - destruct (parse_datetime s); [eexists; reflexivity|discriminate].
  - eexists; reflexivity.
  - destruct (float_trunc x); [eexists; reflexivity|discriminate].
  - eexists; reflexivity.
Qed.

(** The standardizer fails on a file without a timestamp column, then
    on one without a machine_id column, both with a ValueError, and on
    no other input; its output has the nine columns of the table
    [sensor_readings] and one row for every input row whose timestamp
    can be parsed. *)
Theorem standardize_outcome `{PyLib} (df : DataFrame) :
  (has_col "timestamp" (standardize_columns df) = false ->
   standardize_sensor_data df
   = Raise (ValueError "Sensor data must contain 'timestamp'.")) /\
  (has_col "timestamp" (standardize_columns df) = true ->
   has_col "machine_id" (standardize_columns df) = false ->
   standardize_sensor_data df
   = Raise (ValueError "Sensor data must contain 'machine_id'.")) /\
  (has_col "timestamp" (standardize_columns df) = true ->
   has_col "machine_id" (standardize_columns df) = true ->
   exists out,
     standardize_sensor_data df = Ok out /\
     columns out = out_cols /\
     length (rows out) = length (kept_rows df)).
Proof.
  assert (Hm : has_col "machine_id"
                 (dropna ["timestamp"]
                    (assign "timestamp" (fun r => to_datetime (r "timestamp"))
                            (standardize_columns df)))
               = has_col "machine_id" (standardize_columns df)).
  { unfold dropna, has_col. cbn [columns].
    apply (has_col_assign_other "machine_id" "timestamp"). reflexivity. }
  split; [|split].
  - intros Hts. unfold standardize_sensor_data. cbv zeta. now rewrite Hts.
  - intros Hts Hmid. unfold standardize_sensor_data. cbv zeta.
    rewrite Hts. cbn [negb]. rewrite Hm, Hmid. reflexivity.
  - intros Hts Hmid.
    destruct (standardize_sensor_data df) as [out|e] eqn:Es.
    + exists out. split; [reflexivity|]. split; [|apply (standardize_rows df out Es)].
      revert Es. unfold standardize_sensor_data. cbv zeta.
      rewrite Hts. cbn [negb]. rewrite Hm, Hmid. cbn [negb].
      unfold select. destruct (first_missing out_cols _); [discriminate|].
      intros Es. apply Ok_inj in Es. now subst out.
    + exfalso. revert Es. unfold standardize_sensor_data. cbv zeta.
      rewrite Hts. cbn [negb]. rewrite Hm, Hmid. cbn [negb].
      set (d2 := dropna ["timestamp"] _).
      set (d4 := assign "line_id" _ (assign "machine_id" _ d2)).
      set (d5 := fold_left ensure_numeric sensor_names d4).
      set (d6 := if has_col "data_quality" d5 then d5 else _).
      set (d7 := assign "record_id" _ d6).
      assert (H2 : has_col "timestamp" d2 = true).
      { unfold d2, dropna, has_col. cbn [columns]. apply has_col_assign_self. }
      assert (H4 : forall c, In c ["timestamp"; "machine_id"; "line_id"] ->
                             has_col c d4 = true).
      { intros c [<- | [<- | [<- | []]]]; unfold d4.
        - now do 2 apply has_col_assign.
        - apply has_col_assign, has_col_assign_self.
        - apply has_col_assign_self. }
      assert (H5 : forall c, In c ["timestamp"; "machine_id"; "line_id"]
                             \/ In c sensor_names -> has_col c d5 = true).
      { intros c [Hc | Hc]; apply has_col_fold_numeric; [left; now apply H4|now right]. }
      assert (H6 : forall c, In c ["timestamp"; "machine_id"; "line_id"]
                             \/ In c sensor_names \/ "data_quality" = c ->
                             has_col c d6 = true).
      { intros c Hc. unfold d6. destruct (has_col "data_quality" d5) eqn:Edq.
        - destruct Hc as [Hc | [Hc | <-]]; [apply H5; now left|apply H5; now right|exact Edq].
        - destruct Hc as [Hc | [Hc | <-]];
            [apply has_col_assign, H5; now left|apply has_col_assign, H5; now right|].
          apply has_col_assign_self. }
      assert (H7 : forall c, In c out_cols -> mem c (columns d7) = true).
      { intros c Hc. change (has_col c d7 = true). unfold d7.
        destruct Hc as [<- | Hc]; [apply has_col_assign_self|].
        apply has_col_assign, H6. simpl in Hc. simpl. tauto. }
      unfold select.
      rewrite (first_missing_none out_cols (columns d7) H7). discriminate.
Qed.

Lemma standardize_outcome_witness :
  standardize_sensor_data sensor_without_machine_col
  = Raise (ValueError "Sensor data must contain 'machine_id'.").
Proof.
  apply (proj1 (proj2 (standardize_outcome sensor_without_machine_col))); reflexivity.
Defined.

(** The rows the standardizer returns are consistent: the timestamp is
    a Timestamp, the machine is None or a string, the line is the one
    derived from the machine, the record_id is the digest of the three
    of them as they are in the row, and the four sensor columns hold
    floats. *)
Theorem standardize_row_shape `{PyLib} (df out : DataFrame) (l : nat) (r' : row) :
  standardize_sensor_data df = Ok out ->
  In (l, r') (rows out) ->
  (exists t, r' "timestamp" = Ts t) /\
  (r' "machine_id" = PyNone \/ exists s, r' "machine_id" = Str s) /\
  r' "line_id" = _derive_line_id (r' "machine_id") /\
  r' "record_id"
  = Str (_make_record_id (r' "timestamp") (r' "line_id") (r' "machine_id")) /\
  (forall c, In c sensor_names -> exists x, r' c = Flt x).
Proof.
  intros Hs Hin.
  assert (Hrows := standardize_rows df out Hs). destruct Hrows as [Hlen Hrows].
  destruct (In_nth_error _ _ Hin) as [i Hi].
  assert (Hlt : (i < length (kept_rows df))%nat).
  { rewrite <- Hlen. apply nth_error_Some. congruence. }
  destruct (nth_error (kept_rows df) i) as [[l0 r]|] eqn:Ek;
    [|apply nth_error_None in Ek; lia].
  destruct (Hrows i l0 r Ek) as [r'' [Hi' [Ht [Hm [Hl Hr]]]]].
  assert (Heq : r'' = r') by congruence. subst r''.
  assert (Hkept : notna (to_datetime (r "timestamp")) = true).
  { apply nth_error_In in Ek. unfold kept_rows in Ek. now apply filter_In in Ek. }
  split; [rewrite Ht; now apply to_datetime_notna|].
  split; [rewrite Hm; apply to_machine_str_shape|].
  split; [now rewrite Hl, Hm|].
  split; [now rewrite Hr, Ht, Hl, Hm|].
  intros c Hc. clear Hrows Hi Hi' Ht Hm Hl Hr Hkept Ek Hlt Hlen.
  revert Hs. unfold standardize_sensor_data. cbv zeta.
  destruct (has_col "timestamp" (standardize_columns df)); [|discriminate].
  cbn [negb]. set (d2 := dropna ["timestamp"] _).
  destruct (has_col "machine_id" d2); [|discriminate].
  cbn [negb].
  set (d4 := assign "line_id" _ (assign "machine_id" _ d2)).
  set (d5 := fold_left ensure_numeric sensor_names d4).
  set (d6 := if has_col "data_quality" d5 then d5 else _).
  unfold select. destruct (first_missing out_cols _); [discriminate|].
  intros Hout. apply Ok_inj in Hout. subst out. cbn [rows assign] in Hin.
  rewrite map_map in Hin. apply in_map_iff in Hin as [ir6 [Heq Hin6]].
  cbn [fst snd] in Heq.
  assert (Hr' : r' c = snd ir6 c).
  { assert (Hr0 : r' = fun c0 => if mem c0 out_cols
                                 then upd (snd ir6) "record_id"
                                          (Str (_make_record_id (snd ir6 "timestamp")
                                                  (snd ir6 "line_id")
                                                  (snd ir6 "machine_id"))) c0
                                 else PyNone) by (now inversion Heq).
    rewrite Hr0. unfold upd.
    repeat (destruct Hc as [<- | Hc]; [reflexivity|]). contradiction. }
  rewrite Hr'.
  assert (H5 : forall ir, In ir (rows d5) -> exists x, snd ir c = Flt x).
  { apply fold_ensure_numeric_floats. now left. }
  unfold d6 in Hin6. destruct (has_col "data_quality" d5); [now apply H5|].
  unfold assign in Hin6. cbn [rows] in Hin6.
  apply in_map_iff in Hin6 as [ir5 [<- Hin5]]. cbn [snd]. unfold upd.
  replace (String.eqb c "data_quality") with false; [now apply H5|].
  repeat (destruct Hc as [<- | Hc]; [reflexivity|]). contradiction.
Qed.

Lemma standardize_row_shape_witness :
  snd (row_at 2 standardized_no_machine) "line_id"
  = _derive_line_id (snd (row_at 2 standardized_no_machine) "machine_id").
Proof.
  apply (standardize_row_shape sensor_no_machine standardized_no_machine
           (fst (row_at 2 standardized_no_machine))
           (snd (row_at 2 standardized_no_machine))).
  - vm_compute. reflexivity.
  - vm_compute. right. right. left. reflexivity.
Defined.


(** ** Further properties of the quality normalizer *)

Lemma carries_refl (keep : list string) (d : DataFrame) : carries keep d d.
Proof. intros Hh. split; [exact Hh|]. intros ir' Hin. exists ir'. now split. Qed.

Lemma carries_trans (keep : list string) (d1 d2 d3 : DataFrame) :
  carries keep d1 d2 -> carries keep d2 d3 -> carries keep d1 d3.
Proof.
  intros H12 H23 Hh. destruct (H12 Hh) as [Hh2 Hr2]. destruct (H23 Hh2) as [Hh3 Hr3].
  split; [exact Hh3|]. intros ir3 Hin3. destruct (Hr3 ir3 Hin3) as [ir2 [Hin2 Heq2]].
  destruct (Hr2 ir2 Hin2) as [ir1 [Hin1 Heq1]]. exists ir1. split; [assumption|].
  intros c Hc. now rewrite Heq2, Heq1.
Qed.

Lemma upd_other (r : row) (c c0 : string) (v : cell) : c0 <> c -> upd r c v c0 = r c0.
Proof.
  intros Hne. unfold upd. destruct (String.eqb c0 c) eqn:E; [|reflexivity].
  apply String.eqb_eq in E. contradiction.
Qed.

Lemma carries_assign (keep : list string) (c : string) (f : row -> cell) (d : DataFrame) :
  ~ In c keep -> carries keep d (assign c f d).
Proof.
  intros Hn Hh. split.
  - intros c0 Hc0. apply has_col_assign, Hh, Hc0.
  - intros ir' Hin. unfold assign in Hin. cbn [rows] in Hin.
    apply in_map_iff in Hin as [ir [<- Hin]]. exists ir. split; [assumption|].
    intros c0 Hc0. cbn [snd]. apply upd_other. intros ->. contradiction.
Qed.

Lemma carries_assign_values (keep : list string) (c : string) (vals : list cell)
      (d : DataFrame) :
  ~ In c keep -> carries keep d (assign_values c vals d).
Proof.
  intros Hn Hh. split.
  - intros c0 Hc0. unfold has_col, assign_values. cbn [columns].
    apply mem_add_col. apply Hh, Hc0.
  - intros ir' Hin. unfold assign_values in Hin. cbn [rows] in Hin.
    apply in_map_iff in Hin as [[ir v] [<- Hin]]. apply in_combine_l in Hin.
    exists ir. split; [assumption|].
    intros c0 Hc0. cbn [fst snd]. apply upd_other. intros ->. contradiction.
Qed.

Lemma carries_dropna (keep subset : list string) (d : DataFrame) :
  carries keep d (dropna subset d).
Proof.
  intros Hh. split; [exact Hh|].
  intros ir' Hin. unfold dropna in Hin. cbn [rows] in Hin.
  apply filter_In in Hin as [Hin _]. exists ir'. now split.
Qed.

Lemma carries_select (keep cols : list string) (d d' : DataFrame) :
  (forall c, In c keep -> mem c cols = true) ->
  select cols d = Ok d' -> carries keep d d'.
Proof.
  intros Hk. unfold select. destruct (first_missing cols (columns d)); [discriminate|].
  intros Hd Hh. apply Ok_inj in Hd. subst d'. split.
  - intros c Hc. unfold has_col. cbn [columns]. now apply Hk.
  - intros ir' Hin. cbn [rows] in Hin. apply in_map_iff in Hin as [ir [<- Hin]].
    exists ir. split; [assumption|]. intros c Hc. cbn [snd]. now rewrite (Hk c Hc).
Qed.

Lemma find_none_all {A : Type} (f : A -> bool) (l : list A) :
  (forall a, In a l -> f a = false) -> find f l = None.
Proof.
  induction l as [|a l IH]; intros Hf; cbn [find]; [reflexivity|].
  rewrite (Hf a) by now left. apply IH. intros a' Ha'. apply Hf. now right.
Qed.

Lemma find_name (f : string -> string) (c : string) (cols : list string) :
  (forall lc, String.eqb c (f lc) = true -> lc = c) -> f c = c ->
  mem c cols = true ->
  find (fun lc => String.eqb c (f lc)) cols = Some c.
Proof.
  intros Hinj Hfix. unfold mem.
  induction cols as [|a cols IH]; cbn [existsb find]; [discriminate|].
  destruct (String.eqb c (f a)) eqn:E.
  - intros _. now rewrite (Hinj a E).
  - destruct (String.eqb c a) eqn:Ea.
    + apply String.eqb_eq in Ea. subst a. rewrite Hfix, String.eqb_refl in E. discriminate.
    + exact IH.
Qed.

Lemma apart_spec (c rc : string) :
  apart c = true -> In rc lookup_cols ->
  String.eqb c rc = false /\ String.eqb c (rc +++ "_x") = false
  /\ String.eqb c (rc +++ "_y") = false.
Proof.
  intros Ha Hrc. unfold apart in Ha. rewrite forallb_forall in Ha.
  specialize (Ha rc Hrc). apply andb_true_iff in Ha as [Ha Hy].
  apply andb_true_iff in Ha as [Ha Hx].
  now rewrite negb_true_iff in Ha, Hx, Hy.
Qed.

(** The left merge with the lookup keeps the other columns of the
    quality frame, row by row. *)
Lemma carries_merge_lookup (keep : list string) (df : DataFrame) (lookup : list (nat * row)) :
  (forall c, In c keep -> apart c = true) ->
  carries keep df (merge_lookup df lookup).
Proof.
  intros Hap Hh.
  assert (Hshared : forall c, mem c (filter (fun c => has_col c df) lookup_cols) = true ->
                              In c lookup_cols).
  { intros c Hc. apply mem_filter in Hc. now apply mem_In. }
  assert (Hns : forall c, In c keep ->
                          mem c (filter (fun c => has_col c df) lookup_cols) = false).
  { intros c Hc. destruct (mem c (filter _ lookup_cols)) eqn:E; [|reflexivity].
    destruct (apart_spec c c (Hap c Hc) (Hshared c E)) as [Hne _].
    now rewrite String.eqb_refl in Hne. }
  split.
  - intros c Hc. unfold has_col, merge_lookup. cbv zeta. cbn [columns].
    apply mem_app_r, mem_In, in_map_iff. exists c. split.
    + now rewrite (Hns c Hc).
    + apply mem_In. apply Hh, Hc.
  - intros [l' r'] Hin. unfold merge_lookup in Hin. cbv zeta in Hin. cbn [rows] in Hin.
    apply in_combine_r in Hin. apply in_map_iff in Hin as [ir [Heq Hin]].
    exists ir. split; [assumption|]. intros c Hc. cbn [snd]. rewrite <- Heq.
    rewrite find_none_all.
    + rewrite find_name; [reflexivity| |now rewrite (Hns c Hc)|apply Hh, Hc].
      intros lc Hlc. destruct (mem lc (filter _ lookup_cols)) eqn:E.
      * destruct (apart_spec c lc (Hap c Hc) (Hshared lc E)) as [_ [Hx _]]. congruence.
      * apply String.eqb_eq in Hlc. now subst.
    + intros rc Hrc. destruct (apart_spec c rc (Hap c Hc) Hrc) as [Hne [_ Hy]].
      now destruct (mem rc (filter _ lookup_cols)).
Qed.

Lemma carries_align (keep : list string) (df d : DataFrame) (sensor_df : option DataFrame) :
  ~ In "timestamp" keep ->
  align_timestamps df sensor_df = Ok d -> carries keep df d.
Proof.
  intros Hn. unfold align_timestamps.
  destruct sensor_df as [sdf|];
    [|intros Hd; apply Ok_inj in Hd; subst d; apply carries_refl].
  destruct (df_empty sdf); [intros Hd; apply Ok_inj in Hd; subst d; apply carries_refl|].
  destruct (negb (has_col "timestamp" sdf)); [discriminate|]. cbv zeta.
  destruct (negb (existsb _ (rows df))); intros Hd; apply Ok_inj in Hd; subst d.
  - now apply carries_assign.
  - apply carries_refl.
Qed.

Lemma carries_backfill `{PyLib} (keep : list string) (df d : DataFrame)
      (sensor_df : option DataFrame) :
  (forall c, In c keep -> apart c = true) ->
  backfill_identity df sensor_df = Ok d -> carries keep df d.
Proof.
  intros Hap.
  assert (Hm : ~ In "machine_id" keep).
  { intros Hc. destruct (apart_spec _ "machine_id" (Hap _ Hc)) as [Hne _];
      [now left|discriminate]. }
  assert (Hl : ~ In "line_id" keep).
  { intros Hc. destruct (apart_spec _ "line_id" (Hap _ Hc)) as [Hne _];
      [right; now left|discriminate]. }
  assert (Hnone : carries keep df
                    (assign "line_id" (fun _ => PyNone)
                            (assign "machine_id" (fun _ => PyNone) df))).
  { eapply carries_trans; now apply carries_assign. }
  unfold backfill_identity. destruct (negb (has_col "machine_id" df) || _).
  - destruct sensor_df as [sdf|].
    + destruct (df_empty sdf).
      * intros Hd. apply Ok_inj in Hd. now subst d.
      * destruct (select _ sdf) as [lookup|e]; cbn [bind]; [|discriminate].
        intros Hd. apply Ok_inj in Hd. subst d. now apply carries_merge_lookup.
    + intros Hd. apply Ok_inj in Hd. now subst d.
  - intros Hd. apply Ok_inj in Hd. subst d. now apply carries_assign.
Qed.

Lemma carries_derive_line `{PyLib} (keep : list string) (df d : DataFrame) :
  ~ In "line_id" keep -> derive_line df = Ok d -> carries keep df d.
Proof.
  intros Hl. unfold derive_line. destruct (negb (has_col "line_id" df) || _).
  - destruct (has_col "machine_id" df); [|discriminate].
    intros Hd. apply Ok_inj in Hd. subst d. now apply carries_assign.
  - intros Hd. apply Ok_inj in Hd. subst d. apply carries_refl.
Qed.

(** The steps after the alignment: identity columns, selection of the
    five columns, rows without identity dropped. *)
Lemma carries_identify `{PyLib} (keep : list string) (d2 out : DataFrame)
      (sensor_df : option DataFrame) :
  (forall c, In c keep -> apart c = true) ->
  (forall c, In c keep -> mem c quality_cols = true) ->
  (d3 <- backfill_identity d2 sensor_df ;;
   d4 <- derive_line d3 ;;
   o <- select quality_cols d4 ;;
   Ok (dropna ["timestamp"; "machine_id"; "line_id"] o)) = Ok out ->
  carries keep d2 out.
Proof.
  intros Hap Hq.
  destruct (backfill_identity d2 sensor_df) as [d3|e] eqn:E3; cbn [bind]; [|discriminate].
  destruct (derive_line d3) as [d4|e] eqn:E4; cbn [bind]; [|discriminate].
  destruct (select quality_cols d4) as [o|e] eqn:Eo; cbn [bind]; [|discriminate].
  intros Hout. apply Ok_inj in Hout. subst out.
  apply carries_trans with (d2 := d3); [now apply (carries_backfill keep d2 d3 sensor_df)|].
  apply carries_trans with (d2 := d4).
  - apply carries_derive_line; [|assumption].
    intros Hc. destruct (apart_spec _ "line_id" (Hap _ Hc)) as [Hne _];
      [right; now left|discriminate].
  - apply carries_trans with (d2 := o);
      [now apply (carries_select keep quality_cols)|apply carries_dropna].
Qed.


Lemma first_existing_col_some (df : DataFrame) (cs : list string) (c : string) :
  _first_existing_col df cs = Some c -> In c cs /\ has_col c df = true.
Proof.
  induction cs as [|c0 cs IH]; cbn [_first_existing_col]; [discriminate|].
  destruct (has_col c0 df) eqn:E.
  - intros [= <-]. split; [now left|assumption].
  - intros Hc. destruct (IH Hc). split; [now right|assumption].
Qed.

Lemma has_col_rename (old new : string) (df : DataFrame) :
  has_col old df = true -> has_col new (rename old new df) = true.
Proof.
  unfold has_col, rename. cbn [columns]. intros Ho.
  apply mem_In, in_map_iff. exists old. split; [now rewrite String.eqb_refl|now apply mem_In].
Qed.

Lemma has_col_rename_other (c old new : string) (df : DataFrame) :
  c <> old -> c <> new -> has_col c (rename old new df) = has_col c df.
Proof.
  intros Ho Hn. unfold has_col, rename, mem. cbn [columns].
  induction (columns df) as [|a cols IH]; cbn [map existsb]; [reflexivity|].
  rewrite IH. f_equal. destruct (String.eqb a old) eqn:E.
  - apply String.eqb_eq in E. subst a.
    apply String.eqb_neq in Ho, Hn. now rewrite Ho, Hn.
  - reflexivity.
Qed.

(** The column that stands in for the timestamp has "time" in its name. *)
Lemma find_timestamp_cases (df d : DataFrame) :
  find_timestamp df = Ok d ->
  d = df /\ has_col "timestamp" df = true
  \/ exists ts, d = rename ts "timestamp" df /\ has_col ts df = true
                /\ str_contains "time" ts = true.
Proof.
  unfold find_timestamp. destruct (has_col "timestamp" df) eqn:E.
  { intros Hd. apply Ok_inj in Hd. left. now split. }
  destruct (_first_existing_col df _) as [ts|] eqn:Ef.
  { intros Hd. apply Ok_inj in Hd. right. exists ts.
    apply first_existing_col_some in Ef as [Hin Hts].
    repeat split; [now symmetry|assumption|].
    destruct Hin as [<- | [<- | [<- | []]]]; reflexivity. }
  destruct (filter (str_contains "time") (columns df)) as [|c cs] eqn:Efl; [discriminate|].
  intros Hd. apply Ok_inj in Hd. right. exists c.
  assert (Hc : In c (filter (str_contains "time") (columns df))) by (rewrite Efl; now left).
  apply filter_In in Hc as [Hc Ht].
  repeat split; [now symmetry|now apply mem_In|assumption].
Qed.

Lemma find_timestamp_has_col (df d : DataFrame) :
  find_timestamp df = Ok d -> has_col "timestamp" d = true.
Proof.
  intros Hd. destruct (find_timestamp_cases df d Hd) as [[-> Hh] | [ts [-> [Hh _]]]].
  - exact Hh.
  - now apply has_col_rename.
Qed.

Lemma find_timestamp_other_col (c : string) (df d : DataFrame) :
  str_contains "time" c = false ->
  find_timestamp df = Ok d -> has_col c d = has_col c df.
Proof.
  intros Hc Hd. destruct (find_timestamp_cases df d Hd) as [[-> Hh] | [ts [-> [Hh Ht]]]].
  - reflexivity.
  - apply has_col_rename_other; intros ->; [congruence|].
    vm_compute in Hc. discriminate.
Qed.

(** What [infer_result] leaves behind: a result column of strings, the
    other columns as they were unless one of them is the label. *)
Lemma infer_result_shape `{PyLib} (keep : list string) (df d : DataFrame) :
  ~ In "result" keep -> (forall c, In c keep -> ~ In c label_cols) ->
  infer_result df = Ok d ->
  has_col "result" d = true /\ carries keep df d /\
  forall ir, In ir (rows d) -> exists w, snd ir "result" = Str w.
Proof.
  intros Hr Hl. unfold infer_result. destruct (has_col "result" df).
  - intros Hd. apply Ok_inj in Hd. subst d.
    split; [apply has_col_assign_self|]. split; [now apply carries_assign|].
    intros ir Hin. unfold assign in Hin. cbn [rows] in Hin.
    apply in_map_iff in Hin as [ir0 [<- _]]. cbn [snd]. unfold upd.
    rewrite String.eqb_refl. eexists. reflexivity.
  - destruct (_first_existing_col df label_cols) as [label_col|] eqn:Ef.
    + destruct (mapM _ (rows df)) as [labels|e]; cbn [bind]; [|discriminate].
      intros Hd. apply Ok_inj in Hd. subst d.
      split; [apply has_col_assign_self|]. split.
      * apply carries_trans with (d2 := assign_values label_col labels df).
        -- apply carries_assign_values. intros Hc. apply (Hl _ Hc).
           now apply first_existing_col_some in Ef.
        -- now apply carries_assign.
      * intros ir Hin. unfold assign in Hin. cbn [rows] in Hin.
        apply in_map_iff in Hin as [ir0 [<- _]]. cbn [snd]. unfold upd.
        rewrite String.eqb_refl. destruct (cell_is_one _); eexists; reflexivity.
    + intros Hd. apply Ok_inj in Hd. subst d.
      split; [apply has_col_assign_self|]. split; [now apply carries_assign|].
      intros ir Hin. unfold assign in Hin. cbn [rows] in Hin.
      apply in_map_iff in Hin as [ir0 [<- _]]. cbn [snd]. unfold upd.
      rewrite String.eqb_refl. eexists. reflexivity.
Qed.

Lemma to_datetime_is_time `{PyLib} (c : cell) : is_time (to_datetime c) = true.
Proof.
  unfold to_datetime. destruct c as [| |s|z|x|t]; try reflexivity.
  - now destruct (parse_datetime s).
  - now destruct (float_trunc x).
Qed.

Lemma is_time_notna (c : cell) :
  is_time c = true -> notna c = true -> exists t, c = Ts t.
Proof. destruct c; try discriminate. intros _ _. eexists. reflexivity. Qed.

(** The frame after parsing has the three payload columns, Timestamps
    in the first and strings in the second. *)
Lemma quality_parsed_shape `{PyLib} (df d1 : DataFrame) :
  quality_parsed df = Ok d1 ->
  (forall c, In c payload_cols -> has_col c d1 = true) /\
  forall ir, In ir (rows d1) ->
    (exists t, snd ir "timestamp" = Ts t) /\ exists w, snd ir "result" = Str w.
Proof.
  unfold quality_parsed.
  destruct (find_timestamp (standardize_columns df)) as [d0|e] eqn:E0;
    cbn [bind]; [|discriminate].
  cbv zeta.
  set (dts := dropna ["timestamp"]
                (assign "timestamp" (fun r => to_datetime (r "timestamp")) d0)).
  destruct (infer_result dts) as [di|e] eqn:Ei; cbn [bind]; [|discriminate].
  intros Hd. apply Ok_inj in Hd. subst d1.
  assert (Hts : forall c, In c ["timestamp"] -> has_col c dts = true).
  { intros c [<- | []]. unfold dts, dropna, has_col. cbn [columns].
    apply has_col_assign_self. }
  assert (Hcells : forall ir, In ir (rows dts) -> exists t, snd ir "timestamp" = Ts t).
  { intros ir Hin. unfold dts, dropna in Hin. cbn [rows] in Hin.
    apply filter_In in Hin as [Hin Hn]. cbn [forallb] in Hn.
    apply andb_true_iff in Hn as [Hn _].
    apply is_time_notna; [|assumption].
    unfold assign in Hin. cbn [rows] in Hin.
    apply in_map_iff in Hin as [ir0 [<- _]]. cbn [snd]. unfold upd.
    rewrite String.eqb_refl. apply to_datetime_is_time. }
  destruct (infer_result_shape ["timestamp"] dts di) as [Hres [Hcar Hstr]];
    [intros [[=] | []]| |assumption|].
  { intros c [<- | []] Hc. repeat (destruct Hc as [[=] | Hc]). contradiction. }
  destruct (Hcar Hts) as [Hts' Hrows].
  assert (Hdt : carries ["timestamp"; "result"] di (infer_defect_type di)).
  { unfold infer_defect_type. destruct (has_col "defect_type" di);
      [apply carries_refl|].
    apply carries_assign. intros [[=] | [[=] | []]]. }
  assert (Hdi : forall c, In c ["timestamp"; "result"] -> has_col c di = true).
  { intros c [<- | [<- | []]]; [apply Hts'; now left|assumption]. }
  destruct (Hdt Hdi) as [Hcols Hback]. split.
  - intros c [<- | [<- | [<- | []]]].
    + apply Hcols. now left.
    + apply Hcols. right. now left.
    + unfold infer_defect_type. destruct (has_col "defect_type" di) eqn:E; [assumption|].
      apply has_col_assign_self.
  - intros ir Hin. destruct (Hback ir Hin) as [iri [Hini Heq]].
    rewrite (Heq "timestamp") by now left.
    rewrite (Heq "result") by (right; now left).
    split; [|now apply Hstr].
    destruct (Hrows iri Hini) as [ir0 [Hin0 Heq0]].
    rewrite (Heq0 "timestamp") by now left. now apply Hcells.
Qed.

(** The alignment leaves Timestamps or NaT in the timestamp column. *)
Lemma align_timestamp_cells (df d : DataFrame) (sensor_df : option DataFrame) :
  align_timestamps df sensor_df = Ok d ->
  has_col "timestamp" df = true ->
  (forall ir, In ir (rows df) -> is_time (snd ir "timestamp") = true) ->
  has_col "timestamp" d = true /\
  forall ir, In ir (rows d) -> is_time (snd ir "timestamp") = true.
Proof.
  unfold align_timestamps.
  destruct sensor_df as [sdf|];
    [|intros Hd; apply Ok_inj in Hd; subst d; now split].
  destruct (df_empty sdf); [intros Hd; apply Ok_inj in Hd; subst d; now split|].
  destruct (negb (has_col "timestamp" sdf)); [discriminate|]. cbv zeta.
  destruct (negb (existsb _ (rows df))); intros Hd; apply Ok_inj in Hd; subst d;
    [|now split].
  intros Hh Hc. split; [apply has_col_assign_self|].
  intros ir Hin. unfold assign in Hin. cbn [rows] in Hin.
  apply in_map_iff in Hin as [ir0 [<- _]]. cbn [snd]. unfold upd.
  rewrite String.eqb_refl. unfold ts_add.
  destruct (snd ir0 "timestamp"); try reflexivity.
  now destruct (ts_sub _ _).
Qed.

Lemma payload_apart (c : string) : In c payload_cols -> apart c = true.
Proof. intros [<- | [<- | [<- | []]]]; reflexivity. Qed.

Lemma payload_selected (c : string) : In c payload_cols -> mem c quality_cols = true.
Proof. intros [<- | [<- | [<- | []]]]; reflexivity. Qed.

(** The five columns of the output and the rows that the last step
    keeps. *)
Lemma transform_keys `{PyLib} (df out : DataFrame) (sensor_df : option DataFrame) :
  transform_quality_data df sensor_df = Ok out ->
  columns out = quality_cols /\
  forall ir, In ir (rows out) ->
    notna (snd ir "timestamp") = true /\ notna (snd ir "machine_id") = true
    /\ notna (snd ir "line_id") = true.
Proof.
  unfold transform_quality_data.
  destruct (quality_parsed df) as [d1|e]; cbn [bind]; [|discriminate].
  destruct (align_timestamps d1 sensor_df) as [d2|e]; cbn [bind]; [|discriminate].
  destruct (backfill_identity d2 sensor_df) as [d3|e]; cbn [bind]; [|discriminate].
  destruct (derive_line d3) as [d4|e]; cbn [bind]; [|discriminate].
  destruct (select quality_cols d4) as [o|e] eqn:Eo; cbn [bind]; [|discriminate].
  intros Hout. apply Ok_inj in Hout. subst out. split.
  - unfold dropna. cbn [columns]. revert Eo. unfold select.
    destruct (first_missing quality_cols (columns d4)); [discriminate|].
    intros Ho. apply Ok_inj in Ho. now subst o.
  - intros ir Hin. unfold dropna in Hin. cbn [rows] in Hin.
    apply filter_In in Hin as [_ Hn]. cbn [forallb] in Hn.
    apply andb_true_iff in Hn as [Ht Hn]. apply andb_true_iff in Hn as [Hm Hn].
    apply andb_true_iff in Hn as [Hl _]. now repeat split.
Qed.

(** Every row of the output of the quality normalizer is complete in
    its keys: the output has the five data columns of the table
    [quality_checks], and in every row the timestamp is a Timestamp,
    the line and the machine are not missing and the result is a
    string. *)
Theorem transform_rows_not_null `{PyLib} (df out : DataFrame)
        (sensor_df : option DataFrame) :
  transform_quality_data df sensor_df = Ok out ->
  columns out = quality_cols /\
  forall l r, In (l, r) (rows out) ->
    (exists t, r "timestamp" = Ts t) /\
    notna (r "line_id") = true /\ notna (r "machine_id") = true /\
    exists w, r "result" = Str w.
Proof.
  intros Ht. destruct (transform_keys df out sensor_df Ht) as [Hcols Hkeys].
  split; [assumption|]. intros l r Hin.
  destruct (Hkeys (l, r) Hin) as [Hnt [Hnm Hnl]]. cbn [snd] in Hnt, Hnm, Hnl.
  revert Ht. unfold transform_quality_data.
  destruct (quality_parsed df) as [d1|e] eqn:E1; cbn [bind]; [|discriminate].
  destruct (align_timestamps d1 sensor_df) as [d2|e] eqn:E2; cbn [bind]; [|discriminate].
  intros Hout.
  destruct (quality_parsed_shape df d1 E1) as [Hh1 Hc1].
  destruct (align_timestamp_cells d1 d2 sensor_df E2) as [Hh2 Hc2].
  { apply Hh1. now left. }
  { intros ir Hir. destruct (Hc1 ir Hir) as [[t Ht] _]. now rewrite Ht. }
  assert (Hal : carries ["result"; "defect_type"] d1 d2).
  { apply (carries_align _ d1 d2 sensor_df); [|assumption]. intros [[=] | [[=] | []]]. }
  destruct Hal as [Hh2' Hr2].
  { intros c Hc. apply Hh1. now right. }
  assert (Hid := carries_identify payload_cols d2 out sensor_df
                   payload_apart payload_selected Hout).
  destruct Hid as [_ Hro].
  { intros c [<- | Hc]; [assumption|now apply Hh2']. }
  destruct (Hro (l, r) Hin) as [ir2 [Hin2 Heq2]]. cbn [snd] in Heq2.
  split.
  - apply is_time_notna; [|assumption]. rewrite (Heq2 "timestamp") by now left.
    now apply Hc2.
  - repeat split; try assumption.
    rewrite (Heq2 "result") by (right; now left).
    destruct (Hr2 ir2 Hin2) as [ir1 [Hin1 Heq1]].
    rewrite (Heq1 "result") by now left. now apply Hc1.
Qed.

Lemma transform_rows_not_null_witness :
  exists w, snd (row_at 0 quality_flags) "result" = Str w.
Proof.
  destruct (transform_rows_not_null quality_raw_flags quality_flags None) as [_ Hrows].
  - vm_compute. reflexivity.
  - destruct (Hrows (fst (row_at 0 quality_flags)) (snd (row_at 0 quality_flags)))
      as [_ [_ [_ Hw]]]; [|exact Hw].
    vm_compute. left. reflexivity.
Defined.


Lemma has_col_assign_values_other (x c : string) (vals : list cell) (df : DataFrame) :
  String.eqb x c = false -> has_col x (assign_values c vals df) = has_col x df.
Proof. intros Hx. unfold has_col, assign_values. cbn [columns]. now apply mem_add_col_other. Qed.

Lemma infer_result_other_col `{PyLib} (c : string) (df d : DataFrame) :
  String.eqb c "result" = false -> ~ In c label_cols ->
  infer_result df = Ok d -> has_col c d = has_col c df.
Proof.
  intros Hr Hl. unfold infer_result. destruct (has_col "result" df).
  - intros Hd. apply Ok_inj in Hd. subst d. now apply has_col_assign_other.
  - destruct (_first_existing_col df label_cols) as [label_col|] eqn:Ef.
    + destruct (mapM _ (rows df)) as [labels|e]; cbn [bind]; [|discriminate].
      intros Hd. apply Ok_inj in Hd. subst d.
      rewrite has_col_assign_other by assumption.
      apply has_col_assign_values_other. apply String.eqb_neq. intros ->.
      apply Hl. now apply first_existing_col_some in Ef.
    + intros Hd. apply Ok_inj in Hd. subst d. now apply has_col_assign_other.
Qed.

(** Without result and defect_type columns in the file, both are
    inferred: a check passed without defect type, or failed with the
    defect type "fault". *)
Lemma quality_parsed_inferred `{PyLib} (df d1 : DataFrame) :
  has_col "result" (standardize_columns df) = false ->
  has_col "defect_type" (standardize_columns df) = false ->
  quality_parsed df = Ok d1 ->
  forall ir, In ir (rows d1) ->
    snd ir "result" = Str "pass" /\ snd ir "defect_type" = PyNone
    \/ snd ir "result" = Str "fail" /\ snd ir "defect_type" = Str "fault".
Proof.
  intros Hr Hd. unfold quality_parsed.
  destruct (find_timestamp (standardize_columns df)) as [d0|e] eqn:E0;
    cbn [bind]; [|discriminate].
  cbv zeta.
  set (dts := dropna ["timestamp"]
                (assign "timestamp" (fun r => to_datetime (r "timestamp")) d0)).
  assert (Hother : forall c, String.eqb c "timestamp" = false ->
                             str_contains "time" c = false ->
                             has_col c dts = has_col c (standardize_columns df)).
  { intros c Hc Ht. unfold dts, dropna, has_col. cbn [columns].
    change (has_col c (assign "timestamp" (fun r => to_datetime (r "timestamp")) d0)
            = has_col c (standardize_columns df)).
    rewrite has_col_assign_other by assumption.
    now apply find_timestamp_other_col. }
  assert (Hr' : has_col "result" dts = false) by (now rewrite Hother).
  assert (Hd' : has_col "defect_type" dts = false) by (now rewrite Hother).
  destruct (infer_result dts) as [di|e] eqn:Ei; cbn [bind]; [|discriminate].
  intros Hout. apply Ok_inj in Hout. subst d1.
  assert (Hdi : has_col "defect_type" di = false).
  { rewrite (infer_result_other_col "defect_type" dts di); [assumption|reflexivity| |assumption].
    intros Hc. repeat (destruct Hc as [[=] | Hc]). contradiction. }
  unfold infer_defect_type. rewrite Hdi.
  intros ir Hin. unfold assign in Hin. cbn [rows] in Hin.
  apply in_map_iff in Hin as [ir0 [<- Hin0]]. cbn [snd]. unfold upd. cbn [String.eqb Ascii.eqb Bool.eqb].
  destruct (infer_result_binary dts di Hr' Ei ir0 Hin0) as [-> | ->]; [left|right];
    split; reflexivity.
Qed.

Lemma inferred_apart (c : string) : In c ["result"; "defect_type"] -> apart c = true.
Proof. intros [<- | [<- | []]]; reflexivity. Qed.

Lemma inferred_selected (c : string) :
  In c ["result"; "defect_type"] -> mem c quality_cols = true.
Proof. intros [<- | [<- | []]]; reflexivity. Qed.

(** When the quality file has neither a result nor a defect_type
    column, every row of the output is a passed check without defect
    type or a failed check with the defect type "fault". *)
Theorem transform_inferred_results `{PyLib} (df out : DataFrame)
        (sensor_df : option DataFrame) (l : nat) (r : row) :
  has_col "result" (standardize_columns df) = false ->
  has_col "defect_type" (standardize_columns df) = false ->
  transform_quality_data df sensor_df = Ok out ->
  In (l, r) (rows out) ->
  r "result" = Str "pass" /\ r "defect_type" = PyNone
  \/ r "result" = Str "fail" /\ r "defect_type" = Str "fault".
Proof.
  intros Hr Hd. unfold transform_quality_data.
  destruct (quality_parsed df) as [d1|e] eqn:E1; cbn [bind]; [|discriminate].
  destruct (align_timestamps d1 sensor_df) as [d2|e] eqn:E2; cbn [bind]; [|discriminate].
  intros Hout Hin.
  destruct (quality_parsed_shape df d1 E1) as [Hh1 _].
  assert (Hal : carries ["result"; "defect_type"] d1 d2).
  { apply (carries_align _ d1 d2 sensor_df); [|assumption]. intros [[=] | [[=] | []]]. }
  destruct Hal as [Hh2 Hr2].
  { intros c Hc. apply Hh1. now right. }
  destruct (carries_identify ["result"; "defect_type"] d2 out sensor_df
              inferred_apart inferred_selected Hout Hh2) as [_ Hro].
  destruct (Hro (l, r) Hin) as [ir2 [Hin2 Heq2]]. cbn [snd] in Heq2.
  destruct (Hr2 ir2 Hin2) as [ir1 [Hin1 Heq1]].
  rewrite (Heq2 "result") by now left.
  rewrite (Heq2 "defect_type") by (right; now left).
  rewrite (Heq1 "result") by now left.
  rewrite (Heq1 "defect_type") by (right; now left).
  now apply (quality_parsed_inferred df d1).
Qed.

Lemma transform_inferred_results_witness :
  snd (row_at 0 quality_flags) "result" = Str "pass"
  /\ snd (row_at 0 quality_flags) "defect_type" = PyNone
  \/ snd (row_at 0 quality_flags) "result" = Str "fail"
     /\ snd (row_at 0 quality_flags) "defect_type" = Str "fault".
Proof.
  apply (transform_inferred_results quality_raw_flags quality_flags None
           (fst (row_at 0 quality_flags))).
  - reflexivity.
  - reflexivity.
  - vm_compute. reflexivity.
  - vm_compute. left. reflexivity.
Defined.

Lemma existsb_false {A : Type} (f : A -> bool) (l : list A) :
  existsb f l = false -> forall a, In a l -> f a = false.
Proof.
  intros He a Ha. destruct (f a) eqn:E; [|reflexivity].
  assert (existsb f l = true) by (apply existsb_exists; now exists a). congruence.
Qed.

Lemma mapM_raise {A B : Type} (f : A -> Res B) (l : list A) (e : exn) :
  mapM f l = Raise e -> exists a, In a l /\ f a = Raise e.
Proof.
  induction l as [|a l IH]; cbn [mapM]; [discriminate|].
  destruct (f a) as [b|e'] eqn:Ea; cbn [bind].
  - destruct (mapM f l) as [bs|e'']; cbn [bind]; [discriminate|].
    intros [= ->]. destruct IH as [a' [Hin Ha']]; [reflexivity|].
    exists a'. split; [now right|assumption].
  - intros [= ->]. exists a. split; [now left|assumption].
Qed.

Lemma find_timestamp_raises (df : DataFrame) :
  (forall c, In c (columns df) -> str_contains "time" c = false) ->
  find_timestamp df
  = Raise (ValueError "Quality data must include a timestamp/time column.").
Proof.
  intros Hno.
  assert (Hcol : forall c, str_contains "time" c = true -> has_col c df = false).
  { intros c Hc. destruct (has_col c df) eqn:E; [|reflexivity].
    apply mem_In in E. rewrite (Hno c E) in Hc. discriminate. }
  unfold find_timestamp. rewrite (Hcol "timestamp") by reflexivity.
  cbn [_first_existing_col].
  rewrite (Hcol "time"), (Hcol "datetime"), (Hcol "date_time") by reflexivity.
  replace (filter (str_contains "time") (columns df)) with (@nil string); [reflexivity|].
  symmetry. induction (columns df) as [|a cols IH]; [reflexivity|].
  cbn [filter]. rewrite (Hno a) by now left. apply IH.
  intros c Hc. apply Hno. now right.
Qed.

Lemma find_timestamp_succeeds (df : DataFrame) (c : string) :
  In c (columns df) -> str_contains "time" c = true ->
  exists d, find_timestamp df = Ok d.
Proof.
  intros Hin Hc. unfold find_timestamp.
  destruct (has_col "timestamp" df); [eexists; reflexivity|].
  destruct (_first_existing_col df _); [eexists; reflexivity|].
  destruct (filter (str_contains "time") (columns df)) as [|c0 cs] eqn:Ef;
    [|eexists; reflexivity].
  assert (Hf : In c (filter (str_contains "time") (columns df)))
    by (apply filter_In; now split).
  rewrite Ef in Hf. contradiction.
Qed.

Lemma select_raises (cols : list string) (df : DataFrame) (e : exn) :
  select cols df = Raise e -> exists c, e = KeyError c.
Proof.
  unfold select. destruct (first_missing cols (columns df)) as [c|]; [|discriminate].
  intros [= <-]. now exists c.
Qed.

(** Past the search for the timestamp column the normalizer raises a
    KeyError or the ValueError of the conversion to integers. *)
Lemma transform_later_errors `{PyLib} (df d0 : DataFrame) (sensor_df : option DataFrame)
      (e : exn) :
  find_timestamp (standardize_columns df) = Ok d0 ->
  transform_quality_data df sensor_df = Raise e ->
  (exists c, e = KeyError c)
  \/ e = ValueError "Cannot convert non-finite values (NA or inf) to integer".
Proof.
  intros E0. unfold transform_quality_data, quality_parsed. rewrite E0. cbn [bind].
  cbv zeta.
  set (dts := dropna ["timestamp"]
                (assign "timestamp" (fun r => to_datetime (r "timestamp")) d0)).
  destruct (infer_result dts) as [di|e1] eqn:Ei; cbn [bind].
  - destruct (align_timestamps (infer_defect_type di) sensor_df) as [d2|e2] eqn:E2;
      cbn [bind].
    + destruct (backfill_identity d2 sensor_df) as [d3|e3] eqn:E3; cbn [bind].
      * destruct (derive_line d3) as [d4|e4] eqn:E4; cbn [bind].
        -- destruct (select quality_cols d4) as [o|e5] eqn:E5; cbn [bind]; [discriminate|].
           intros [= <-]. left. now apply select_raises in E5.
        -- intros [= <-]. left. revert E4. unfold derive_line.
           destruct (negb (has_col "line_id" d3) || _); [|discriminate].
           destruct (has_col "machine_id" d3); [discriminate|].
           intros [= <-]. eexists. reflexivity.
      * intros [= <-]. left. revert E3. unfold backfill_identity.
        destruct (negb (has_col "machine_id" d2) || _); [|discriminate].
        destruct sensor_df as [sdf|]; [|discriminate].
        destruct (df_empty sdf); [discriminate|].
        destruct (select _ sdf) as [lookup|e'] eqn:Es; cbn [bind]; [discriminate|].
        intros [= <-]. now apply select_raises in Es.
    + intros [= <-]. left. revert E2. unfold align_timestamps.
      destruct sensor_df as [sdf|]; [|discriminate].
      destruct (df_empty sdf); [discriminate|].
      destruct (negb (has_col "timestamp" sdf)).
      * intros [= <-]. eexists. reflexivity.
      * cbv zeta. destruct (negb (existsb _ (rows (infer_defect_type di)))); discriminate.
  - intros [= <-]. right. revert Ei. unfold infer_result.
    destruct (has_col "result" dts); [discriminate|].
    destruct (_first_existing_col dts label_cols) as [label_col|]; [|discriminate].
    destruct (mapM _ (rows dts)) as [labels|e'] eqn:Em; cbn [bind]; [discriminate|].
    intros [= <-]. apply mapM_raise in Em as [a [_ Ha]].
    unfold astype_int in Ha. destruct (float_trunc _); [discriminate|].
    now inversion Ha.
Qed.

(** The quality normalizer asks for a time column by name: it raises
    its ValueError exactly when no column name, once normalised,
    contains "time"; the names timestamp, time, datetime and date_time
    that it tries first all do. *)
Theorem transform_needs_time_column `{PyLib} (df : DataFrame)
        (sensor_df : option DataFrame) :
  transform_quality_data df sensor_df
  = Raise (ValueError "Quality data must include a timestamp/time column.")
  <-> forall c, In c (columns (standardize_columns df)) -> str_contains "time" c = false.
Proof.
  split.
  - intros Hr.
    destruct (existsb (str_contains "time") (columns (standardize_columns df))) eqn:E.
    + apply existsb_exists in E as [c [Hin Hc]].
      destruct (find_timestamp_succeeds _ c Hin Hc) as [d0 E0].
      destruct (transform_later_errors df d0 sensor_df _ E0 Hr) as [[c' Hk] | Hv];
        discriminate.
    + now apply existsb_false.
  - intros Hno. unfold transform_quality_data, quality_parsed.
    now rewrite (find_timestamp_raises _ Hno).
Qed.

Lemma transform_needs_time_column_witness :
  transform_quality_data quality_raw_undated None
  = Raise (ValueError "Quality data must include a timestamp/time column.").
Proof.
  apply (proj2 (transform_needs_time_column quality_raw_undated None)).
  intros c [<- | [<- | []]]; reflexivity.
Defined.


(** ** Further properties of the hourly summary *)

Lemma zsum_add {A : Type} (f g : A -> Z) (l : list A) :
  zsum (fun a => f a + g a) l = zsum f l + zsum g l.
Proof. unfold zsum. induction l as [|a l IH]; simpl; lia. Qed.

Lemma zsum_ext {A : Type} (f g : A -> Z) (l : list A) :
  (forall a, In a l -> f a = g a) -> zsum f l = zsum g l.
Proof.
  unfold zsum. induction l as [|a l IH]; intros Hfg; simpl; [reflexivity|].
  rewrite (Hfg a) by now left. rewrite IH; [reflexivity|].
  intros a' Ha'. apply Hfg. now right.
Qed.

Lemma zsum_zero {A : Type} (f : A -> Z) (l : list A) :
  (forall a, f a = 0) -> zsum f l = 0.
Proof.
  intros Hf. unfold zsum. induction l as [|a l IH]; cbn [map fold_right]; [reflexivity|].
  rewrite Hf, IH. reflexivity.
Qed.

Lemma zsum_perm {A : Type} (f : A -> Z) (l l' : list A) :
  Permutation l l' -> zsum f l = zsum f l'.
Proof. unfold zsum. induction 1; simpl; lia. Qed.

Lemma keys_eqb_eq (a b : list skey) : keys_eqb a b = true <-> a = b.
Proof.
  unfold keys_eqb. rewrite <- keys_compare_eq.
  destruct (keys_compare a b); split; congruence.
Qed.

Lemma keys_seen (k : list skey) (seen : list (list skey)) :
  existsb (keys_eqb k) seen = true <-> In k seen.
Proof.
  rewrite existsb_exists. split.
  - intros [k' [Hin Hk]]. apply keys_eqb_eq in Hk. now subst.
  - intros Hin. exists k. split; [assumption|now apply keys_eqb_eq].
Qed.

(** [distinct_keys] lists every key once. *)
Lemma distinct_keys_spec (ks seen : list (list skey)) :
  NoDup (distinct_keys seen ks) /\
  forall k, In k (distinct_keys seen ks) <-> In k ks /\ ~ In k seen.
Proof.
  revert seen; induction ks as [|k0 ks IH]; intros seen; cbn [distinct_keys].
  - split; [constructor|]. intros k. simpl. tauto.
  - destruct (existsb (keys_eqb k0) seen) eqn:E.
    + apply keys_seen in E. destruct (IH seen) as [Hnd Hin]. split; [assumption|].
      intros k. rewrite Hin. simpl. split; [tauto|].
      intros [[-> | Hk] Hn]; [contradiction|tauto].
    + assert (Hk0 : ~ In k0 seen).
      { intros Hin. apply keys_seen in Hin. congruence. }
      destruct (IH (k0 :: seen)) as [Hnd Hin]. split.
      * constructor; [|assumption]. rewrite Hin. simpl. tauto.
      * intros k. simpl. rewrite Hin. simpl.
        destruct (keys_eqb k0 k) eqn:Ek.
        -- apply keys_eqb_eq in Ek. subst k. tauto.
        -- assert (Hne : k0 <> k).
           { intros Heq. apply keys_eqb_eq in Heq. congruence. }
           tauto.
Qed.

Lemma zsum_indicator (x : list skey) (ks : list (list skey)) :
  NoDup ks -> In x ks -> zsum (fun k => if keys_eqb x k then 1 else 0) ks = 1.
Proof.
  unfold zsum. induction ks as [|k ks IH]; intros Hnd Hin; [contradiction|].
  inversion Hnd as [|? ? Hk Hnd']; subst. cbn [map fold_right].
  destruct (keys_eqb x k) eqn:E.
  - apply keys_eqb_eq in E. subst k.
    assert (Hz : fold_right Z.add 0 (map (fun k => if keys_eqb x k then 1 else 0) ks) = 0).
    { clear IH Hnd Hnd' Hin. induction ks as [|k ks IH]; [reflexivity|].
      cbn [map fold_right]. destruct (keys_eqb x k) eqn:E.
      - apply keys_eqb_eq in E. subst k. exfalso. apply Hk. now left.
      - rewrite IH; [reflexivity|]. intros Hin. apply Hk. now right. }
    lia.
  - destruct Hin as [-> | Hin].
    + assert (keys_eqb x x = true) by now apply keys_eqb_eq. congruence.
    + rewrite IH by assumption. lia.
Qed.

(** The groups of a list of keys that holds the key of every row once
    share out the rows: counting group by group counts every row once. *)
Lemma groups_partition (p : row -> bool) (key : nat * row -> list skey)
      (rs : list (nat * row)) (ks : list (list skey)) :
  NoDup ks -> (forall ir, In ir rs -> In (key ir) ks) ->
  zsum (fun k => count_rows p (filter (fun ir => keys_eqb (key ir) k) rs)) ks
  = count_rows p rs.
Proof.
  intros Hnd. induction rs as [|ir rs IH]; intros Hcov.
  - unfold count_rows. cbn [filter length]. apply zsum_zero. reflexivity.
  - rewrite (zsum_ext _ (fun k => (if keys_eqb (key ir) k then 1 else 0)
                                  * (if p (snd ir) then 1 else 0)
                                  + count_rows p
                                      (filter (fun ir => keys_eqb (key ir) k) rs))).
    + rewrite zsum_add. rewrite IH by (intros ir' Hin; apply Hcov; now right).
      assert (Hone : zsum (fun k => (if keys_eqb (key ir) k then 1 else 0)
                                    * (if p (snd ir) then 1 else 0)) ks
                     = if p (snd ir) then 1 else 0).
      { destruct (p (snd ir)).
        - rewrite (zsum_ext _ (fun k => if keys_eqb (key ir) k then 1 else 0))
            by (intros; lia).
          apply zsum_indicator; [assumption|]. apply Hcov. now left.
        - apply zsum_zero. intros; lia. }
      rewrite Hone. unfold count_rows. cbn [filter]. destruct (p (snd ir)); cbn [length]; lia.
    + intros k _. unfold count_rows. cbn [filter].
      destruct (keys_eqb (key ir) k); cbn [filter];
        [destruct (p (snd ir)); cbn [length]; lia|lia].
Qed.

Lemma map_snd_combine_seq {A B : Type} (g : A -> B) (l : list A) (s : list nat) :
  length s = length l ->
  map (fun ir => g (snd ir)) (combine s l) = map g l.
Proof.
  revert s; induction l as [|a l IH]; intros [|n s] Hl; simpl in *;
    try discriminate; try reflexivity.
  rewrite IH by (now injection Hl). reflexivity.
Qed.

Lemma mapM_combine {A B : Type} (f : A -> Res B) (l : list A) (bs : list B) :
  mapM f l = Ok bs -> forall a b, In (a, b) (combine l bs) -> f a = Ok b.
Proof.
  revert bs; induction l as [|a l IH]; intros bs; cbn [mapM].
  - intros _ a b []. 
  - destruct (f a) as [b0|e] eqn:Ea; cbn [bind]; [|discriminate].
    destruct (mapM f l) as [bs0|e]; cbn [bind]; [|discriminate].
    intros Hb. apply Ok_inj in Hb. subst bs. intros a' b' [Heq | Hin].
    + inversion Heq. now subst.
    + now apply (IH bs0).
Qed.

Lemma rowwise_numeric_if `{PyLib} (keep : list string) (col : string) (d : DataFrame) :
  mem col keep = false ->
  rowwise keep d (if has_col col d then assign col (fun r => to_numeric (r col)) d else d).
Proof.
  intros Hc. destruct (has_col col d); [now apply rowwise_assign|apply rowwise_refl].
Qed.

(** The frame that is grouped: the rows of the joined frame in their
    order, each with the floor of its timestamp as hour; line, machine
    and result as they were. *)
Lemma hourly_frame_rows `{PyLib} (joined df : DataFrame) :
  hourly_frame joined = Ok df ->
  exists hours G,
    mapM (fun ir => floor_hour (snd ir "timestamp")) (rows joined) = Ok hours /\
    rows df = map (fun irh => (fst (fst irh), G (upd (snd (fst irh)) "hour" (snd irh))))
                  (combine (rows joined) hours) /\
    forall r c, mem c summary_inputs = true -> G r c = r c.
Proof.
  unfold hourly_frame. destruct (negb (has_col "timestamp" joined)); [discriminate|].
  destruct (mapM _ (rows joined)) as [hours|e] eqn:Eh; cbn [bind]; [|discriminate].
  cbv zeta. set (dh := assign_values "hour" hours joined).
  cbn [fold_left]. 
  set (d1 := if has_col "temperature" dh then _ else dh).
  set (d2 := if has_col "pressure" d1 then _ else d1).
  set (d3 := if has_col "vibration" d2 then _ else d2).
  destruct (first_missing _ (columns d3)); [discriminate|].
  intros Hd. apply Ok_inj in Hd. subst df.
  assert (Hrw : rowwise summary_inputs dh d3).
  { apply rowwise_trans with (d2 := d2); [|now apply rowwise_numeric_if].
    apply rowwise_trans with (d2 := d1); now apply rowwise_numeric_if. }
  destruct Hrw as [G [HG KG]]. exists hours, G. split; [reflexivity|]. split; [|exact KG].
  rewrite HG. unfold dh, assign_values. cbn [rows]. rewrite map_map. reflexivity.
Qed.

Lemma count_rows_hourly (p : row -> bool) (G : row -> row) (rs : list (nat * row))
      (hours : list cell) :
  length hours = length rs ->
  (forall r h, p (G (upd r "hour" h)) = p r) ->
  count_rows p (map (fun irh => (fst (fst irh), G (upd (snd (fst irh)) "hour" (snd irh))))
                    (combine rs hours))
  = count_rows p rs.
Proof.
  intros Hl Hp. unfold count_rows. f_equal. revert hours Hl.
  induction rs as [|ir rs IH]; intros [|h hours] Hl; simpl in *; try discriminate;
    [reflexivity|].
  rewrite Hp. destruct (p (snd ir)); simpl; rewrite IH by (now injection Hl); reflexivity.
Qed.

(** The summary counts every check once: its total_checks add up to the
    number of joined rows that have a result, its defect_count to the
    number of joined rows whose result is fail, whatever the keys of
    the rows are (missing keys included). *)
Theorem hourly_counts_add_up `{PyLib} (joined summary : DataFrame) :
  calculate_hourly_summary joined = Ok summary ->
  column_sum "total_checks" summary
  = count_rows (fun r => notna (r "result")) (rows joined) /\
  column_sum "defect_count" summary
  = count_rows (fun r => cell_is (r "result") "fail") (rows joined).
Proof.
  unfold calculate_hourly_summary.
  destruct (hourly_frame joined) as [df|e] eqn:Ef; cbn [bind]; [|discriminate].
  cbv zeta. intros Hs. apply Ok_inj in Hs. subst summary.
  destruct (hourly_frame_rows joined df Ef) as [hours [G [Hh [Hrows KG]]]].
  set (ks := distinct_keys [] (map (row_keys group_cols) (rows df))).
  destruct (distinct_keys_spec (map (row_keys group_cols) (rows df)) []) as [Hnd Hin].
  fold ks in Hnd, Hin.
  assert (Hcov : forall ir, In ir (rows df) -> In (row_keys group_cols ir) ks).
  { intros ir Hir. apply Hin. split; [now apply in_map|intros []]. }
  assert (Hsum : forall (c : string) (p : row -> bool),
             (forall k, match summarize (group_rows k df) c with Int z => z | _ => 0 end
                        = count_rows p (group_rows k df)) ->
             (forall r h, p (G (upd r "hour" h)) = p r) ->
             column_sum c (mkDF summary_cols
                             (combine (seq 0 (length (stable_sort (fun k => k) ks)))
                                (map (fun k => summarize (group_rows k df))
                                     (stable_sort (fun k => k) ks))))
             = count_rows p (rows joined)).
  { intros c p Hc Hp. unfold column_sum. cbn [rows].
    rewrite (map_snd_combine_seq (fun r : row => match r c with Int z => z | _ => 0 end))
      by (now rewrite length_seq, length_map).
    rewrite map_map.
    change (zsum (fun k => match summarize (group_rows k df) c with Int z => z | _ => 0 end)
                 (stable_sort (fun k => k) ks) = count_rows p (rows joined)).
    rewrite (zsum_perm _ _ ks) by apply stable_sort_perm.
    rewrite (zsum_ext _ (fun k => count_rows p (group_rows k df))) by (intros; apply Hc).
    unfold group_rows. rewrite (groups_partition p _ (rows df) ks Hnd Hcov).
    rewrite Hrows. apply count_rows_hourly; [|assumption].
    now apply mapM_length in Hh. }
  split.
  - apply Hsum; [intros k; reflexivity|].
    intros r h. rewrite KG by reflexivity. reflexivity.
  - apply Hsum; [intros k; reflexivity|].
    intros r h. rewrite KG by reflexivity. reflexivity.
Qed.

Lemma hourly_counts_add_up_witness :
  column_sum "total_checks" summary_four_checks
  = count_rows (fun r => notna (r "result")) (rows joined_four_checks).
Proof.
  apply (hourly_counts_add_up joined_four_checks summary_four_checks).
  vm_compute. reflexivity.
Defined.


(** ** Time alignment in the quality normalizer *)

Lemma fold_max_ge (l : list Z) (t : Z) :
  t <= fold_left Z.max l t /\ forall x, In x l -> x <= fold_left Z.max l t.
Proof.
  revert t; induction l as [|y l IH]; intros t; cbn [fold_left].
  - split; [lia|intros x []].
  - destruct (IH (Z.max t y)) as [Ht Hl]. split; [lia|].
    intros x [<- | Hx]; [lia|now apply Hl].
Qed.

Lemma fold_max_In (l : list Z) (t : Z) :
  fold_left Z.max l t = t \/ In (fold_left Z.max l t) l.
Proof.
  revert t; induction l as [|y l IH]; intros t; cbn [fold_left]; [now left|].
  destruct (IH (Z.max t y)) as [Hm | Hm].
  - rewrite Hm. destruct (Z.max_spec t y) as [[_ ->] | [_ ->]];
      [right; now left|now left].
  - right. now right.
Qed.

Lemma fold_min_le (l : list Z) (t : Z) : fold_left Z.min l t <= t.
Proof.
  revert t; induction l as [|y l IH]; intros t; cbn [fold_left]; [lia|].
  specialize (IH (Z.min t y)). lia.
Qed.

Lemma ts_max_ge (l : list Z) (m : Z) :
  ts_max l = Some m -> forall t, In t l -> t <= m.
Proof.
  destruct l as [|t0 l]; cbn [ts_max]; [discriminate|].
  intros [= <-] t [<- | Ht].
  - apply (proj1 (fold_max_ge l _)).
  - now apply (proj2 (fold_max_ge l _)).
Qed.

Lemma ts_max_In (l : list Z) (m : Z) : ts_max l = Some m -> In m l.
Proof.
  destruct l as [|t0 l]; cbn [ts_max]; [discriminate|].
  intros [= <-]. destruct (fold_max_In l t0) as [-> | Hm]; [now left|now right].
Qed.

Lemma ts_max_intro (l : list Z) (m : Z) :
  In m l -> (forall t, In t l -> t <= m) -> ts_max l = Some m.
Proof.
  intros Hin Hle. destruct (ts_max l) as [m'|] eqn:E.
  - f_equal. assert (m' <= m) by (apply Hle; now apply ts_max_In).
    assert (m <= m') by (now apply (ts_max_ge l)). lia.
  - destruct l; [contradiction|discriminate].
Qed.

Lemma ts_min_le_max (l : list Z) (a b : Z) :
  ts_min l = Some a -> ts_max l = Some b -> a <= b.
Proof.
  destruct l as [|t0 l]; cbn [ts_min ts_max]; [discriminate|].
  intros [= <-] [= <-]. pose proof (fold_min_le l t0).
  destruct (fold_max_ge l t0) as [Hge _]. lia.
Qed.

Lemma timestamps_In (d : DataFrame) (t : Z) :
  In t (timestamps d) <-> exists ir, In ir (rows d) /\ snd ir "timestamp" = Ts t.
Proof.
  unfold timestamps. rewrite in_flat_map. split.
  - intros [ir [Hin Ht]]. exists ir. split; [assumption|].
    destruct (snd ir "timestamp"); cbn [ts_value] in Ht; try contradiction.
    destruct Ht as [-> | []]. reflexivity.
  - intros [ir [Hin Ht]]. exists ir. split; [assumption|].
    rewrite Ht. now left.
Qed.

(** C2 (amended): beside a non-empty sensor frame whose timestamps span
    [a, b], the quality normalizer works on the parsed quality rows [d1]
    (timestamps parsed, rows without a timestamp dropped).  When one of
    their timestamps lies in [a, b], every row of the output has the
    timestamp, result and defect type of a parsed row, unchanged.  When
    none does, the shift b minus the quality maximum is not zero and
    every row of the output has the result and defect type of a parsed
    row and its timestamp moved by the shift; no timestamp of the
    output is later than b, and b is the maximum of the output when a
    row with that timestamp is kept. *)
Theorem transform_alignment `{PyLib} (df sdf d1 out : DataFrame) (a b : Z) :
  df_empty sdf = false ->
  ts_min (timestamps sdf) = Some a ->
  ts_max (timestamps sdf) = Some b ->
  quality_parsed df = Ok d1 ->
  transform_quality_data df (Some sdf) = Ok out ->
  ((exists t, In t (timestamps d1) /\ a <= t <= b) ->
   forall l r, In (l, r) (rows out) ->
     exists ir1, In ir1 (rows d1) /\
       r "timestamp" = snd ir1 "timestamp" /\
       r "result" = snd ir1 "result" /\
       r "defect_type" = snd ir1 "defect_type") /\
  ((forall t, In t (timestamps d1) -> ~ (a <= t <= b)) ->
   forall q_max, ts_max (timestamps d1) = Some q_max ->
     b - q_max <> 0 /\
     (forall l r, In (l, r) (rows out) ->
        exists ir1 t, In ir1 (rows d1) /\
          snd ir1 "timestamp" = Ts t /\
          r "timestamp" = Ts (t + (b - q_max)) /\
          r "result" = snd ir1 "result" /\
          r "defect_type" = snd ir1 "defect_type") /\
     (forall t, In t (timestamps out) -> t <= b) /\
     (In b (timestamps out) -> ts_max (timestamps out) = Some b)).
Proof.
  intros He Ha Hb E1 Ht.
  unfold transform_quality_data in Ht. rewrite E1 in Ht. cbn [bind] in Ht.
  destruct (align_timestamps d1 (Some sdf)) as [d2|e] eqn:E2; cbn [bind] in Ht;
    [|discriminate].
  assert (Hc : has_col "timestamp" sdf = true).
  { revert E2. unfold align_timestamps. rewrite He.
    destruct (has_col "timestamp" sdf); [reflexivity|discriminate]. }
  destruct (align_step d1 sdf a b He Hc Ha Hb) as [d2' [E2' [Hsame Hshift]]].
  assert (Hd2 : d2' = d2) by congruence. subst d2'. clear E2'.
  destruct (quality_parsed_shape df d1 E1) as [Hh1 Hc1].
  split.
  - intros Hex. rewrite (Hsame Hex) in Ht.
    destruct (carries_identify payload_cols d1 out (Some sdf)
                payload_apart payload_selected Ht Hh1) as [_ Hro].
    intros l r Hin. destruct (Hro (l, r) Hin) as [ir1 [Hin1 Heq]]. cbn [snd] in Heq.
    exists ir1. split; [assumption|].
    repeat split; apply Heq; simpl; tauto.
  - intros Hno q_max Hq. destruct (Hshift Hno q_max Hq) as [Hd2 _].
    assert (Hab : a <= b) by (now apply (ts_min_le_max (timestamps sdf))).
    assert (Hqne : b - q_max <> 0).
    { intros H0. apply (Hno q_max); [now apply ts_max_In|]. lia. }
    assert (Hh2 : forall c, In c payload_cols -> has_col c d2 = true).
    { intros c Hc0. rewrite Hd2. apply has_col_assign. now apply Hh1. }
    destruct (carries_identify payload_cols d2 out (Some sdf)
                payload_apart payload_selected Ht Hh2) as [_ Hro].
    assert (Hrows : forall l r, In (l, r) (rows out) ->
              exists ir1 t, In ir1 (rows d1) /\
                snd ir1 "timestamp" = Ts t /\
                r "timestamp" = Ts (t + (b - q_max)) /\
                r "result" = snd ir1 "result" /\
                r "defect_type" = snd ir1 "defect_type").
    { intros l r Hin. destruct (Hro (l, r) Hin) as [ir2 [Hin2 Heq]]. cbn [snd] in Heq.
      rewrite Hd2 in Hin2. unfold assign in Hin2. cbn [rows] in Hin2.
      apply in_map_iff in Hin2 as [ir1 [<- Hin1]]. cbn [snd] in Heq.
      destruct (Hc1 ir1 Hin1) as [[t Hts] _].
      exists ir1, t. split; [assumption|]. split; [assumption|].
      rewrite (Heq "timestamp") by (simpl; tauto).
      rewrite (Heq "result") by (simpl; tauto).
      rewrite (Heq "defect_type") by (simpl; tauto).
      unfold upd. cbn [String.eqb Ascii.eqb Bool.eqb]. rewrite Hts.
      repeat split. }
    assert (Hle : forall t, In t (timestamps out) -> t <= b).
    { intros t Hin. apply timestamps_In in Hin as [[l r] [Hin Hts]]. cbn [snd] in Hts.
      destruct (Hrows l r Hin) as [ir1 [t1 [Hin1 [Ht1 [Hr _]]]]].
      assert (Ht1' : In t1 (timestamps d1)) by (apply timestamps_In; now exists ir1).
      pose proof (ts_max_ge _ _ Hq t1 Ht1'). rewrite Hr in Hts.
      assert (t = t1 + (b - q_max)) by congruence. lia. }
    repeat split; try assumption.
    intros Hin. now apply ts_max_intro.
Qed.

(** The inspections of 5 and 25 beside the readings of 10 and 20: none
    lies within 10 and 20, the shift is 20 - 25. *)
Lemma transform_alignment_witness :
  20 - 25 <> 0 /\
  (forall l r, In (l, r) (rows aligned_5_25) ->
     exists ir1 t, In ir1 (rows parsed_5_25) /\
       snd ir1 "timestamp" = Ts t /\
       r "timestamp" = Ts (t + (20 - 25)) /\
       r "result" = snd ir1 "result" /\
       r "defect_type" = snd ir1 "defect_type") /\
  (forall t, In t (timestamps aligned_5_25) -> t <= 20) /\
  (In 20 (timestamps aligned_5_25) -> ts_max (timestamps aligned_5_25) = Some 20).
Proof.
  destruct (transform_alignment quality_5_25 sensor_10_20 parsed_5_25 aligned_5_25 10 20)
    as [_ Hshift]; try (vm_compute; reflexivity).
  apply (Hshift ltac:(intros t Hin; vm_compute in Hin;
                      destruct Hin as [<- | [<- | []]]; lia) 25).
  vm_compute. reflexivity.
Defined.
